(** * packagedetector: the detection-and-notification loop

    A shallow embedding of the Go program [packagedetector]: the schedule
    policy ([isAwake]), the configuration structs with their [initialize]
    methods, and the detection cycle [processImage] with its channels
    [emailResult] and [sendWebHook].

    Everything the program asks of the outside world (the gcloud command,
    the camera, the image codecs, the vision service, the clock, the SMTP
    server, the webhook endpoint) is answered by a [World]; the program
    itself is a state-passing computation over the package-level variables
    [config], [r], [buf] and [lastNotificationSent]. The ticker loop of
    [runCfg.run] and the motion callback, which only decide when
    [processImage] is called, are not part of the embedding. *)

From Stdlib Require Import ZArith List String Ascii Bool Lia Floats.
Import ListNotations.
Set Warnings "-inexact-float".
Local Open Scope string_scope.
Local Open Scope Z_scope.

(** ** Machine integers *)

(** Go's [int64] (and [int] on the 64-bit targets the Dockerfile builds
    for): arithmetic wraps around modulo [2^64]. *)
Definition wrap64 (z : Z) : Z := (z + 2 ^ 63) mod 2 ^ 64 - 2 ^ 63.

Definition int64_min : Z := - 2 ^ 63.
Definition int64_max : Z := 2 ^ 63 - 1.

(** ** The parts of package [time] the program uses *)

(** A [time.Time] is an instant together with the zone it is shown in.
    [instant] counts nanoseconds from the zero Time (January 1, year 1,
    00:00:00 UTC); [zoneOffset] is the zone's offset east of UTC in
    seconds. Instants are unbounded here: the limits of the library's own
    representation, hundreds of years away from any clock reading, are
    left out. *)
Record Time : Type := mkTime { instant : Z; zoneOffset : Z }.

(** The value of a [time.Time] variable that was never assigned. *)
Definition zeroTime : Time := mkTime 0 0.

(** [time.Duration] is an [int64] count of nanoseconds. *)
Definition Duration : Type := Z.
Definition Minute : Duration := 60000000000.

(** [Duration(n) * time.Minute]: an [int64] product. *)
Definition minutes (n : Z) : Duration := wrap64 (n * Minute).

(** [t.Hour()]: the hour within the day, in the zone of [t]. *)
Definition Hour (t : Time) : Z :=
  ((instant t / 1000000000 + zoneOffset t) mod 86400) / 3600.

(** [t.After(u)]. *)
Definition After (t u : Time) : bool := instant u <? instant t.

(** [t.Add(d)]. *)
Definition Add (t : Time) (d : Duration) : Time :=
  mkTime (instant t + d) (zoneOffset t).

(** ** Configuration (pd.yaml) *)

Record runCfg : Type := {
  Interval : Z;
  SleepHour : Z;
  WakeHour : Z;
  NotifyOnStart : bool;
  NotifyMuteMinutes : Z
}.

Record rectCfg : Type := { X1 : Z; Y1 : Z; X2 : Z; Y2 : Z }.

Record imageCfg : Type := {
  imageURL : string;
  CacheFile : string;
  ArchivePath : string;
  Rect : rectCfg
}.

Record motionCfg : Type := { LogPath : string; CameraID : string }.

Record visionCfg : Type := {
  AuthFile : string;
  visionURL : string;
  PackageLabel : string;
  Threshold : Z
}.

Record emailCfg : Type := {
  From : string;
  To : list string;
  Server : string;
  Port : Z;
  User : string;
  Pass : string
}.

Record webhookCfg : Type := { webhookURL : string }.

Record configuration : Type := {
  Run : runCfg;
  Motion : motionCfg;
  Image : imageCfg;
  Vision : visionCfg;
  Email : emailCfg;
  WebHook : webhookCfg
}.

(** ** Schedule policy *)

(** [isAwake(now, sleepHour, wakeHour)] of the flag-driven main.go. *)
Definition isAwake (now : Time) (sleepHour wakeHour : Z) : bool :=
  let hour := Hour now in
  if (sleepHour >? wakeHour) && ((hour <? sleepHour) && (hour >=? wakeHour)) then true
  else if (sleepHour <? wakeHour) && ((hour <? sleepHour) || (hour >=? wakeHour)) then true
  else if sleepHour =? wakeHour then true
  else false.

(** [runCfg.isAwake()] of the configuration-driven program; [now] is the
    value its call of [time.Now()] returned. *)
Definition runCfg_isAwake (now : Time) (r : runCfg) : bool :=
  let hour := Hour now in
  if (SleepHour r >? WakeHour r) && ((hour <? SleepHour r) && (hour >=? WakeHour r)) then true
  else if (SleepHour r <? WakeHour r) && ((hour <? SleepHour r) || (hour >=? WakeHour r)) then true
  else if SleepHour r =? WakeHour r then true
  else false.

(** A time of day [h]:00:00 UTC, for stating facts hour by hour. *)
Definition atHour (h : Z) : Time := mkTime (h * 3600 * 1000000000) 0.

(** The awake hours among 0..23, in order. *)
Definition awakeHours (sleepHour wakeHour : Z) : list Z :=
  filter (fun h => isAwake (atHour h) sleepHour wakeHour) (map Z.of_nat (seq 0 24)).

(** ** Package [image]: rectangles *)

Record Point : Type := { PX : Z; PY : Z }.
Record Rectangle : Type := { Min : Point; Max : Point }.

(** The zero [image.Rectangle], the value of [r] until it is assigned. *)
Definition ZR : Rectangle := {| Min := {| PX := 0; PY := 0 |}; Max := {| PX := 0; PY := 0 |} |}.

(** [image.Rect(x0, y0, x1, y1)]: the corners are put in order. *)
Definition image_Rect (x0 y0 x1 y1 : Z) : Rectangle :=
  let '(x0, x1) := if x0 >? x1 then (x1, x0) else (x0, x1) in
  let '(y0, y1) := if y0 >? y1 then (y1, y0) else (y0, y1) in
  {| Min := {| PX := x0; PY := y0 |}; Max := {| PX := x1; PY := y1 |} |}.

(** ** Classification results *)

(** One element of [visionResponse.Payload]. *)
Record prediction : Type := { Score : float; DisplayName : string }.

Definition visionResponse : Type := list prediction.

(** [float64(n)] for an [int] [n]: the nearest binary64 value, ties to even. *)
Definition float64 (n : Z) : float := SF2Prim (binary_normalize prec emax n 0 false).

(** ** What the program does to the outside world *)

(** The body of an HTTP POST, before its JSON and base64 encoding. *)
Inductive postBody : Type :=
| visionRequest (bearer : string) (imageBytes : list Byte.byte)
| webHookBody (score : float) (label : string) (image : list Byte.byte).

(** A gomail message as [emailResult] builds it, and the dialer it is
    sent with. [SetHeader] replaces the header, so [msgTo] holds the
    recipient of the last call, if any. *)
Record message : Type := {
  msgFrom : string;
  msgTo : option string;
  msgSubject : string;
  msgBody : string;
  msgEmbed : string
}.

Record dialer : Type := {
  dialHost : string;
  dialPort : Z;
  dialUser : string;
  dialPass : string
}.

Inductive event : Type :=
| Println (args : list string)
| PrintfResult (name : string) (confidence : float) (threshold : Z)
| Exec_gcloud (authFile : string)
| HttpGet (url : string)
| Decode_Crop_Encode (rect : Rectangle) (input : list Byte.byte)
| HttpPost (url : string) (body : postBody)
| WriteFile (path : string) (data : list Byte.byte)
| DialAndSend (d : dialer) (m : message).

(** What [cropImage]'s pipeline of library calls (decode, draw, sub-image,
    encode) leaves behind: a decoding error with the bytes of the buffer it
    did not read, or the bytes the encoder wrote with its error, if any. *)
Inductive cropped : Type :=
| DecodeFailed (unread : list Byte.byte) (err : string)
| Encoded (written : list Byte.byte) (err : option string).

(** The outside world. A field that takes a [nat] is asked with the number
    of questions the program has put so far, so the same question can be
    answered differently as time passes; the others stand for library
    functions. *)
Record World : Type := {
  (** [cmd.CombinedOutput()] of the gcloud command: its output and error *)
  gcloud : nat -> string -> string * option string;
  TrimSpace : string -> string;
  (** [http.Get] of the camera: an error, or the body bytes [io.Copy]
      read together with the error it stopped on, if any *)
  camera : nat -> string -> string + (list Byte.byte * option string);
  crop : Rectangle -> list Byte.byte -> cropped;
  (** the error [http.NewRequest] gives for a URL, if any *)
  newRequestError : string -> option string;
  (** [client.Do] on the vision request: an error, or the response body *)
  vision : nat -> string -> postBody -> string + list Byte.byte;
  (** [json.Unmarshal] into a [visionResponse] *)
  jsonUnmarshal : list Byte.byte -> visionResponse * option string;
  (** [path.Join(archivePath, now.Format(time.RFC3339) + ".jpeg")] *)
  archiveName : string -> Time -> string;
  (** [time.Now()] *)
  clock : nat -> Time;
  (** [d.DialAndSend(m)]: its error, if any *)
  smtp : nat -> dialer -> message -> option string;
  (** [client.Do] on the webhook request: an error, or [resp.Status] *)
  webhook : nat -> string -> postBody -> string + string;
  (** [os.IsNotExist] of the error of [os.Stat] *)
  notExist : nat -> string -> bool
}.

(** ** The program's state *)

(** The package-level variables, the number of questions put to the world
    and everything done so far, oldest first. *)
Record machine : Type := {
  config : configuration;
  r : Rectangle;
  buf : list Byte.byte;
  lastNotificationSent : Time;
  asked : nat;
  trace : list event
}.

Definition set_r (x : Rectangle) (s : machine) : machine :=
  {| config := config s; r := x; buf := buf s;
     lastNotificationSent := lastNotificationSent s;
     asked := asked s; trace := trace s |}.

Definition set_buf (b : list Byte.byte) (s : machine) : machine :=
  {| config := config s; r := r s; buf := b;
     lastNotificationSent := lastNotificationSent s;
     asked := asked s; trace := trace s |}.

Definition set_lastNotificationSent (t : Time) (s : machine) : machine :=
  {| config := config s; r := r s; buf := buf s;
     lastNotificationSent := t;
     asked := asked s; trace := trace s |}.

Definition next_question (s : machine) : machine :=
  {| config := config s; r := r s; buf := buf s;
     lastNotificationSent := lastNotificationSent s;
     asked := S (asked s); trace := trace s |}.

Definition record_event (e : event) (s : machine) : machine :=
  {| config := config s; r := r s; buf := buf s;
     lastNotificationSent := lastNotificationSent s;
     asked := asked s; trace := trace s ++ [e] |}.

(** How a computation ends: it returns, it panics, or [log.Fatal] exits
    the process. *)
Inductive outcome (A : Type) : Type :=
| Returned (a : A)
| Panicked (err : string)
| Exited.
Arguments Returned {A} a.
Arguments Panicked {A} err.
Arguments Exited {A}.

Definition M (A : Type) : Type := machine -> outcome A * machine.

Definition ret {A : Type} (a : A) : M A := fun s => (Returned a, s).

Definition bind {A B : Type} (c : M A) (k : A -> M B) : M B :=
  fun s =>
    match c s with
    | (Returned a, s') => k a s'
    | (Panicked err, s') => (Panicked err, s')
    | (Exited, s') => (Exited, s')
    end.

Declare Scope go_scope.
Delimit Scope go_scope with go.
Notation "x <- c ;; k" := (bind c (fun x => k))
  (at level 61, c at next level, right associativity) : go_scope.
Notation "' pat <- c ;; k" := (bind c (fun x => match x with pat => k end))
  (at level 61, pat pattern, c at next level, right associativity) : go_scope.
Notation "c ;; k" := (bind c (fun _ => k))
  (at level 61, right associativity) : go_scope.

Definition gets {A : Type} (f : machine -> A) : M A := fun s => (Returned (f s), s).
Definition modify (f : machine -> machine) : M unit := fun s => (Returned tt, f s).
Definition emit (e : event) : M unit := modify (record_event e).
Definition panic {A : Type} (err : string) : M A := fun s => (Panicked err, s).
Definition os_Exit {A : Type} : M A := fun s => (Exited, s).

(** Put a question to the world. *)
Definition ask {A : Type} (q : nat -> A) : M A :=
  fun s => (Returned (q (asked s)), next_question s).

Definition when (b : bool) (c : M unit) : M unit := if b then c else ret tt.

Fixpoint forEach {A : Type} (body : A -> M unit) (l : list A) : M unit :=
  match l with
  | [] => ret tt
  | x :: l' => bind (body x) (fun _ => forEach body l')
  end.

Definition nonEmpty (s : string) : bool := negb (s =? "")%string.

(** ** The program *)

Section Program.

Variable w : World.

Local Open Scope go_scope.

Definition time_Now : M Time := ask (clock w).

Definition log_Println (args : list string) : M unit := emit (Println args).

(** [log.Fatal] and [log.Fatalln]: print, then [os.Exit(1)]. *)
Definition log_Fatal {A : Type} (args : list string) : M A :=
  emit (Println args) ;; os_Exit.

(** *** Configuration methods *)

Definition imageCfg_isCropSpecified (i : imageCfg) : bool :=
  (X1 (Rect i) >? 0) || (Y1 (Rect i) >? 0) || (X2 (Rect i) >? 0) || (Y2 (Rect i) >? 0).

(** The receiver of [imageCfg.initialize] is a copy of [config.Image];
    this is the copy after the method's first statement. *)
Definition imageCfg_defaulted (i : imageCfg) : imageCfg :=
  if (CacheFile i =? "")%string
  then {| imageURL := imageURL i; CacheFile := "./img.jpg";
          ArchivePath := ArchivePath i; Rect := Rect i |}
  else i.

Definition imageCfg_initialize (i : imageCfg) : M unit :=
  let i := imageCfg_defaulted i in
  when (nonEmpty (ArchivePath i))
    (missing <- ask (fun n => notExist w n (ArchivePath i)) ;;
     when missing
       (log_Fatal ["The specified ArchivePath does not exist."; ArchivePath i])) ;;
  when (imageURL i =? "")%string
    (log_Fatal ["Please specify a valid imageURL in the configuration file."]) ;;
  when (imageCfg_isCropSpecified i)
    (modify (set_r (image_Rect (X1 (Rect i)) (Y1 (Rect i)) (X2 (Rect i)) (Y2 (Rect i))))).

(** [visionCfg.initialize] reads the global [config], not its receiver. *)
Definition visionCfg_initialize (v : visionCfg) : M unit :=
  cfg <- gets config ;;
  when ((AuthFile (Vision cfg) =? "")%string || (visionURL (Vision cfg) =? "")%string)
    (log_Fatal ["Configuration must contain values for vision: authfile and vision: url"]).

(** The receiver of [emailCfg.initialize] after the method's body. *)
Definition emailCfg_defaulted (e : emailCfg) : emailCfg :=
  if Port e =? 0
  then {| From := From e; To := To e; Server := Server e; Port := 587;
          User := User e; Pass := Pass e |}
  else e.

Definition emailCfg_initialize (e : emailCfg) : M unit :=
  let e := emailCfg_defaulted e in
  ret tt.

Definition webhookCfg_initialize (h : webhookCfg) : M unit := ret tt.

(** The four [initialize] calls of [main], in its order, on the freshly
    loaded configuration. *)
Definition initialize : M unit :=
  (i <- gets (fun s => Image (config s)) ;; imageCfg_initialize i) ;;
  (v <- gets (fun s => Vision (config s)) ;; visionCfg_initialize v) ;;
  (e <- gets (fun s => Email (config s)) ;; emailCfg_initialize e) ;;
  (h <- gets (fun s => WebHook (config s)) ;; webhookCfg_initialize h).

(** *** The steps of a detection cycle *)

Definition getGoogleToken : M (string * option string) :=
  cfg <- gets config ;;
  emit (Exec_gcloud (AuthFile (Vision cfg))) ;;
  ' (out, err) <- ask (fun n => gcloud w n (AuthFile (Vision cfg))) ;;
  match err with
  | Some e => ret (out, Some e)
  | None => ret (TrimSpace w out, None)
  end.

Definition fetchImage : M (option string) :=
  url <- gets (fun s => imageURL (Image (config s))) ;;
  modify (set_buf []) ;;
  emit (HttpGet url) ;;
  response <- ask (fun n => camera w n url) ;;
  match response with
  | inl err => ret (Some err)
  | inr (body, err) => modify (set_buf body) ;; ret err
  end.

Definition cropImage (rect : Rectangle) : M (option string) :=
  b <- gets buf ;;
  emit (Decode_Crop_Encode rect b) ;;
  match crop w rect b with
  | DecodeFailed unread err => modify (set_buf unread) ;; ret (Some err)
  | Encoded written err => modify (set_buf written) ;; ret err
  end.

(** [json.Marshal] of the request, a struct of one string, cannot fail;
    the error of [ioutil.ReadAll] is dropped by the source. *)
Definition evaluateImageJSON (token : string) : M (visionResponse * option string) :=
  b <- gets buf ;;
  cfg <- gets config ;;
  let url := visionURL (Vision cfg) in
  let request := visionRequest token b in
  match newRequestError w url with
  | Some err => ret ([], Some err)
  | None =>
      emit (HttpPost url request) ;;
      resp <- ask (fun n => vision w n url request) ;;
      match resp with
      | inl err => ret ([], Some err)
      | inr body =>
          let '(response, err) := jsonUnmarshal w body in
          match err with
          | Some e => ret (response, Some e)
          | None =>
              emit (WriteFile (CacheFile (Image cfg)) b) ;;
              when (nonEmpty (ArchivePath (Image cfg)))
                (now <- time_Now ;;
                 emit (WriteFile (archiveName w (ArchivePath (Image cfg)) now) b)) ;;
              ret (response, None)
          end
      end
  end.

(** *** Notification channels *)

Definition emailResult (subject body : string) : M unit :=
  cfg <- gets config ;;
  let e := Email cfg in
  let m := {| msgFrom := From e;
              msgTo := match To e with [] => None | _ => Some (last (To e) "") end;
              msgSubject := subject;
              msgBody := body;
              msgEmbed := CacheFile (Image cfg) |} in
  let d := {| dialHost := Server e; dialPort := Port e;
              dialUser := User e; dialPass := Pass e |} in
  emit (DialAndSend d m) ;;
  err <- ask (fun n => smtp w n d m) ;;
  match err with
  | Some e => log_Println [e]
  | None => ret tt
  end.

Definition sendWebHook (score : float) (label : string) (image : list Byte.byte) : M unit :=
  let bodyStruct := webHookBody score label image in
  (* json.Marshal refuses NaN and the infinities *)
  if negb (is_finite score) then
    log_Println ["Error marshaling struct into json for POST."]
  else
    cfg <- gets config ;;
    let url := webhookURL (WebHook cfg) in
    match newRequestError w url with
    | Some err => log_Println ["Error creating HTTP POST Request for WebHook."; err]
    | None =>
        emit (HttpPost url bodyStruct) ;;
        resp <- ask (fun n => webhook w n url bodyStruct) ;;
        match resp with
        | inl err => panic err
        | inr status => log_Println ["POSTed WebHook, Status: "; status]
        end
    end.

(** *** The detection cycle *)

(** The condition of the loop's first [if]. *)
Definition matched (cfg : configuration) (p : prediction) : bool :=
  (DisplayName p =? PackageLabel (Vision cfg))%string &&
  (float64 (Threshold (Vision cfg)) <? Score p * 100)%float.

(** The body of [for _, p := range resp.Payload]. *)
Definition processResult (forceNotify : bool) (p : prediction) : M unit :=
  cfg <- gets config ;;
  emit (PrintfResult (DisplayName p) (Score p) (Threshold (Vision cfg))) ;;
  if matched cfg p then
    now <- time_Now ;;
    sent <- gets lastNotificationSent ;;
    if After now (Add sent (minutes (NotifyMuteMinutes (Run cfg)))) then
      now' <- time_Now ;;
      modify (set_lastNotificationSent now') ;;
      when (nonEmpty (Server (Email cfg)))
        (emailResult "Package Received!" "A new package delivery was detected.") ;;
      when (nonEmpty (webhookURL (WebHook cfg)))
        (image <- gets buf ;; sendWebHook (Score p) (DisplayName p) image)
    else ret tt
  else if forceNotify then
    when (nonEmpty (Server (Email cfg)))
      (emailResult "Package Monitor Restarted."
                   "The Package Monitor server has restarted successfully.") ;;
    when (nonEmpty (webhookURL (WebHook cfg)))
      (image <- gets buf ;; sendWebHook (Score p) (DisplayName p) image)
  else ret tt.

Definition processImage (forceNotify : bool) : M unit :=
  ' (token, err) <- getGoogleToken ;;
  match err with
  | Some e =>
      log_Println ["Unable to get Google Cloud Token. Error:"; e; "StdOut:"; token]
  | None =>
  err <- fetchImage ;;
  match err with
  | Some e => log_Println ["Error fetching image."; e]
  | None =>
  cfg <- gets config ;;
  err <- (if imageCfg_isCropSpecified (Image cfg)
          then rect <- gets r ;; cropImage rect
          else ret None) ;;
  match err with
  | Some e => log_Println ["Crop failed."; e]
  | None =>
  ' (resp, err) <- evaluateImageJSON token ;;
  match err with
  | Some e => log_Println ["Error evaluating image."; e]
  | None => forEach (processResult forceNotify) resp
  end end end end.

(** [main] from the loaded configuration up to the end of its startup
    cycle. *)
Definition startup : M unit :=
  initialize ;;
  forceNotify <- gets (fun s => NotifyOnStart (Run (config s))) ;;
  processImage forceNotify.

End Program.

(** ** Observations on runs *)

(** What a run from [s] to [s'] added to the trace. *)
Definition new_events (s s' : machine) : list event :=
  skipn (List.length (trace s)) (trace s').

(** An attempt to deliver on a channel: a mail handed to the SMTP dialer,
    or a webhook body POSTed. *)
Definition isDispatch (e : event) : bool :=
  match e with
  | DialAndSend _ _ => true
  | HttpPost _ (webHookBody _ _ _) => true
  | _ => false
  end.

Definition isMail (subject : string) (e : event) : bool :=
  match e with
  | DialAndSend _ m => (msgSubject m =? subject)%string
  | _ => false
  end.

Definition isWebHookPost (e : event) : bool :=
  match e with
  | HttpPost _ (webHookBody _ _ _) => true
  | _ => false
  end.

(** The loop's log line for a result. *)
Definition isResultLog (e : event) : bool :=
  match e with
  | PrintfResult _ _ _ => true
  | _ => false
  end.

(** The images submitted for classification. *)
Definition classified (e : event) : option (list Byte.byte) :=
  match e with
  | HttpPost _ (visionRequest _ image) => Some image
  | _ => None
  end.

Definition isCrop (e : event) : bool :=
  match e with
  | Decode_Crop_Encode _ _ => true
  | _ => false
  end.

(** The statements guarded by the mute window, after the assignment to
    [lastNotificationSent]: the fan-out of a detection. *)
Definition dispatchDetected (w : World) (p : prediction) : M unit :=
  (cfg <- gets config ;;
   when (nonEmpty (Server (Email cfg)))
     (emailResult w "Package Received!" "A new package delivery was detected.") ;;
   when (nonEmpty (webhookURL (WebHook cfg)))
     (image <- gets buf ;; sendWebHook w (Score p) (DisplayName p) image))%go.

(** The state in which the fan-out of a detection starts: the result is
    logged, the clock was read twice, and the second reading is stored. *)
Definition committed (w : World) (p : prediction) (s : machine) : machine :=
  set_lastNotificationSent (clock w (S (asked s)))
    (next_question (next_question
       (record_event (PrintfResult (DisplayName p) (Score p) (Threshold (Vision (config s)))) s))).

(** The statements under [else if forceNotify]: the fan-out of a restart
    notice. *)
Definition dispatchForced (w : World) (p : prediction) : M unit :=
  (cfg <- gets config ;;
   when (nonEmpty (Server (Email cfg)))
     (emailResult w "Package Monitor Restarted."
                    "The Package Monitor server has restarted successfully.") ;;
   when (nonEmpty (webhookURL (WebHook cfg)))
     (image <- gets buf ;; sendWebHook w (Score p) (DisplayName p) image))%go.

(** The state after the loop body logged its result. *)
Definition resultLogged (p : prediction) (s : machine) : machine :=
  record_event (PrintfResult (DisplayName p) (Score p) (Threshold (Vision (config s)))) s.

(** The state after a result that the mute window suppressed. *)
Definition muted (p : prediction) (s : machine) : machine :=
  next_question
    (record_event (PrintfResult (DisplayName p) (Score p) (Threshold (Vision (config s)))) s).

(** ** Sample configuration and worlds *)

(** A sample configuration after the repository's pd.yaml: its run, image,
    vision, email and webhook settings, with shorter vision paths and
    without the motion log, the archive path and the push section, which
    this version of the program does not read. Below, pd.yaml stands for
    this configuration. *)
Definition sampleConfig : configuration := {|
  Run := {| Interval := 0; SleepHour := 22; WakeHour := 7;
            NotifyOnStart := true; NotifyMuteMinutes := 60 |};
  Motion := {| LogPath := ""; CameraID := "" |};
  Image := {| imageURL := "http://192.168.1.10/snap.jpeg"; CacheFile := "img.jpeg";
              ArchivePath := ""; Rect := {| X1 := 0; Y1 := 0; X2 := 600; Y2 := 400 |} |};
  Vision := {| AuthFile := "/pd/auth.json"; visionURL := "https://automl.googleapis.com/predict";
               PackageLabel := "package"; Threshold := 75 |};
  Email := {| From := "john@example.com"; To := ["jane@example.com"; "tom@example.com"];
              Server := "smtp.example.com"; Port := 587; User := "jane"; Pass := "secret" |};
  WebHook := {| webhookURL := "http://www.example.com/test" |}
|}.

Definition withRect (x1 y1 x2 y2 : Z) (c : configuration) : configuration := {|
  Run := Run c; Motion := Motion c;
  Image := {| imageURL := imageURL (Image c); CacheFile := CacheFile (Image c);
              ArchivePath := ArchivePath (Image c);
              Rect := {| X1 := x1; Y1 := y1; X2 := x2; Y2 := y2 |} |};
  Vision := Vision c; Email := Email c; WebHook := WebHook c
|}.

Definition withMuteMinutes (m : Z) (c : configuration) : configuration := {|
  Run := {| Interval := Interval (Run c); SleepHour := SleepHour (Run c);
            WakeHour := WakeHour (Run c); NotifyOnStart := NotifyOnStart (Run c);
            NotifyMuteMinutes := m |};
  Motion := Motion c; Image := Image c; Vision := Vision c;
  Email := Email c; WebHook := WebHook c
|}.

(** A configuration file that leaves the mail port and the cache file out. *)
Definition sparseConfig : configuration := {|
  Run := Run sampleConfig; Motion := Motion sampleConfig;
  Image := {| imageURL := "http://192.168.1.10/snap.jpeg"; CacheFile := "";
              ArchivePath := ""; Rect := {| X1 := 0; Y1 := 0; X2 := 600; Y2 := 400 |} |};
  Vision := Vision sampleConfig;
  Email := {| From := "john@example.com"; To := ["jane@example.com"];
              Server := "smtp.example.com"; Port := 0; User := "jane"; Pass := "secret" |};
  WebHook := WebHook sampleConfig
|}.

Definition jpegBytes : list Byte.byte := [Byte.xff; Byte.xd8; Byte.xff; Byte.xe0].
Definition croppedBytes : list Byte.byte := [Byte.xff; Byte.xd8].

(** A world in which every step succeeds: the vision service answers
    [payload] and the clock shows [times]. *)
Definition calmWorld (times : nat -> Time) (payload : visionResponse) : World := {|
  gcloud := fun _ _ => ("ya29.token", None);
  TrimSpace := fun s => s;
  camera := fun _ _ => inr (jpegBytes, None);
  crop := fun _ _ => Encoded croppedBytes None;
  newRequestError := fun _ => None;
  vision := fun _ _ _ => inr [];
  jsonUnmarshal := fun _ => (payload, None);
  archiveName := fun dir _ => dir;
  clock := times;
  smtp := fun _ _ _ => None;
  webhook := fun _ _ _ => inr "200 OK";
  notExist := fun _ _ => false
|}.

(** The same world with the SMTP server and the webhook endpoint as given. *)
Definition worldWith (times : nat -> Time) (payload : visionResponse)
    (mail : option string) (hook : string + string) : World := {|
  gcloud := gcloud (calmWorld times payload);
  TrimSpace := TrimSpace (calmWorld times payload);
  camera := camera (calmWorld times payload);
  crop := crop (calmWorld times payload);
  newRequestError := newRequestError (calmWorld times payload);
  vision := vision (calmWorld times payload);
  jsonUnmarshal := jsonUnmarshal (calmWorld times payload);
  archiveName := archiveName (calmWorld times payload);
  clock := times;
  smtp := fun _ _ _ => mail;
  webhook := fun _ _ _ => hook;
  notExist := notExist (calmWorld times payload)
|}.

(** A world whose camera does not answer. *)
Definition cameraDown (times : nat -> Time) (payload : visionResponse) : World := {|
  gcloud := gcloud (calmWorld times payload);
  TrimSpace := TrimSpace (calmWorld times payload);
  camera := fun _ _ => inl "dial tcp 192.168.1.10:80: i/o timeout";
  crop := crop (calmWorld times payload);
  newRequestError := newRequestError (calmWorld times payload);
  vision := vision (calmWorld times payload);
  jsonUnmarshal := jsonUnmarshal (calmWorld times payload);
  archiveName := archiveName (calmWorld times payload);
  clock := times;
  smtp := smtp (calmWorld times payload);
  webhook := webhook (calmWorld times payload);
  notExist := notExist (calmWorld times payload)
|}.

(** November 2, 2026, 12:00:00 UTC and later that day. *)
Definition noon : Time := mkTime (63929217600 * 1000000000) 0.
Definition noonPlus (minutesLater : Z) : Time := Add noon (minutesLater * Minute).

(** The process right after its configuration [c] is loaded. *)
Definition loaded (c : configuration) : machine :=
  {| config := c; r := ZR; buf := []; lastNotificationSent := zeroTime;
     asked := 0; trace := [] |}.

(** A running process with configuration [c] that has put [n] questions so
    far and whose last notification went out at [sent]. *)
Definition running (c : configuration) (sent : Time) (n : nat) : machine :=
  {| config := c;
     r := if imageCfg_isCropSpecified (Image c)
          then image_Rect (X1 (Rect (Image c))) (Y1 (Rect (Image c)))
                          (X2 (Rect (Image c))) (Y2 (Rect (Image c)))
          else ZR;
     buf := jpegBytes; lastNotificationSent := sent;
     asked := n; trace := [] |}.

(** A clock for three cycles of seven, four and seven questions: the
    first at noon, the second 30 minutes and the third 61 minutes later. *)
Definition threeCycles (n : nat) : Time :=
  if (n <? 7)%nat then noon
  else if (n <? 11)%nat then noonPlus 30
  else noonPlus 61.

Definition package (score : float) : prediction :=
  {| Score := score; DisplayName := "package" |}.

Definition labelled (name : string) (score : float) : prediction :=
  {| Score := score; DisplayName := name |}.

(** ** The stages of a cycle *)

Definition logged (args : list string) (s : machine) : machine :=
  record_event (Println args) s.

(** After the gcloud command ran. *)
Definition afterToken (s : machine) : machine :=
  next_question (record_event (Exec_gcloud (AuthFile (Vision (config s)))) s).

(** After [http.Get] answered, with the buffer still empty. *)
Definition afterGet (s : machine) : machine :=
  next_question
    (record_event (HttpGet (imageURL (Image (config s)))) (set_buf [] (afterToken s))).

(** After [io.Copy] moved [body] into the buffer. *)
Definition afterFetch (body : list Byte.byte) (s : machine) : machine :=
  set_buf body (afterGet s).

(** The crop pipeline was started on the buffer. *)
Definition cropping (s : machine) : machine :=
  record_event (Decode_Crop_Encode (r s) (buf s)) s.

(** After the vision request was sent. *)
Definition afterPost (token : string) (s : machine) : machine :=
  next_question
    (record_event (HttpPost (visionURL (Vision (config s))) (visionRequest token (buf s))) s).

(** After the submitted image was written to the cache file and, when an
    archive path is set, to the archive. *)
Definition afterCache (w : World) (s : machine) : machine :=
  let s1 := record_event (WriteFile (CacheFile (Image (config s))) (buf s)) s in
  if nonEmpty (ArchivePath (Image (config s)))
  then record_event
         (WriteFile (archiveName w (ArchivePath (Image (config s))) (clock w (asked s1))) (buf s))
         (next_question s1)
  else s1.

(** [prepared w s token s3]: from [s] the world grants a token and an
    image, and cropping, when configured, succeeds; [s3] is the state in
    which [evaluateImageJSON token] is then called. *)
Inductive prepared (w : World) (s : machine) : string -> machine -> Prop :=
| prepared_plain (out : string) (body : list Byte.byte) :
    gcloud w (asked s) (AuthFile (Vision (config s))) = (out, None) ->
    camera w (S (asked s)) (imageURL (Image (config s))) = inr (body, None) ->
    imageCfg_isCropSpecified (Image (config s)) = false ->
    prepared w s (TrimSpace w out) (afterFetch body s)
| prepared_cropped (out : string) (body written : list Byte.byte) :
    gcloud w (asked s) (AuthFile (Vision (config s))) = (out, None) ->
    camera w (S (asked s)) (imageURL (Image (config s))) = inr (body, None) ->
    imageCfg_isCropSpecified (Image (config s)) = true ->
    crop w (r s) body = Encoded written None ->
    prepared w s (TrimSpace w out) (set_buf written (cropping (afterFetch body s))).

(** [aborted w s k s']: from [s] step [k] of the pipeline fails (1 the
    credential, 2 the image fetch, 3 the crop, 4 the classification), and
    [s'] is the state right after the failure is logged. *)
Inductive aborted (w : World) (s : machine) : nat -> machine -> Prop :=
| token_fails (out e : string) :
    gcloud w (asked s) (AuthFile (Vision (config s))) = (out, Some e) ->
    aborted w s 1
      (logged ["Unable to get Google Cloud Token. Error:"; e; "StdOut:"; out] (afterToken s))
| get_fails (out e : string) :
    gcloud w (asked s) (AuthFile (Vision (config s))) = (out, None) ->
    camera w (S (asked s)) (imageURL (Image (config s))) = inl e ->
    aborted w s 2 (logged ["Error fetching image."; e] (afterGet s))
| copy_fails (out : string) (body : list Byte.byte) (e : string) :
    gcloud w (asked s) (AuthFile (Vision (config s))) = (out, None) ->
    camera w (S (asked s)) (imageURL (Image (config s))) = inr (body, Some e) ->
    aborted w s 2 (logged ["Error fetching image."; e] (afterFetch body s))
| decode_fails (out : string) (body unread : list Byte.byte) (e : string) :
    gcloud w (asked s) (AuthFile (Vision (config s))) = (out, None) ->
    camera w (S (asked s)) (imageURL (Image (config s))) = inr (body, None) ->
    imageCfg_isCropSpecified (Image (config s)) = true ->
    crop w (r s) body = DecodeFailed unread e ->
    aborted w s 3
      (logged ["Crop failed."; e] (set_buf unread (cropping (afterFetch body s))))
| encode_fails (out : string) (body written : list Byte.byte) (e : string) :
    gcloud w (asked s) (AuthFile (Vision (config s))) = (out, None) ->
    camera w (S (asked s)) (imageURL (Image (config s))) = inr (body, None) ->
    imageCfg_isCropSpecified (Image (config s)) = true ->
    crop w (r s) body = Encoded written (Some e) ->
    aborted w s 3
      (logged ["Crop failed."; e] (set_buf written (cropping (afterFetch body s))))
| request_fails (token : string) (s3 : machine) (e : string) :
    prepared w s token s3 ->
    newRequestError w (visionURL (Vision (config s))) = Some e ->
    aborted w s 4 (logged ["Error evaluating image."; e] s3)
| post_fails (token : string) (s3 : machine) (e : string) :
    prepared w s token s3 ->
    newRequestError w (visionURL (Vision (config s))) = None ->
    vision w (asked s3) (visionURL (Vision (config s))) (visionRequest token (buf s3)) = inl e ->
    aborted w s 4 (logged ["Error evaluating image."; e] (afterPost token s3))
| unmarshal_fails (token : string) (s3 : machine) (body : list Byte.byte)
    (resp : visionResponse) (e : string) :
    prepared w s token s3 ->
    newRequestError w (visionURL (Vision (config s))) = None ->
    vision w (asked s3) (visionURL (Vision (config s))) (visionRequest token (buf s3)) = inr body ->
    jsonUnmarshal w body = (resp, Some e) ->
    aborted w s 4 (logged ["Error evaluating image."; e] (afterPost token s3)).

(** [classifiedAs w s resp s4]: from [s] every step of the pipeline
    succeeds; the service answers [resp] and the loop over it starts in
    [s4]. *)
Inductive classifiedAs (w : World) (s : machine) : visionResponse -> machine -> Prop :=
| classified_ok (token : string) (s3 : machine) (body : list Byte.byte) (resp : visionResponse) :
    prepared w s token s3 ->
    newRequestError w (visionURL (Vision (config s))) = None ->
    vision w (asked s3) (visionURL (Vision (config s))) (visionRequest token (buf s3)) = inr body ->
    jsonUnmarshal w body = (resp, None) ->
    classifiedAs w s resp (afterCache w (afterPost token s3)).

(** The step of the pipeline an event belongs to; 0 for log lines, 5 for
    what comes after the classification. *)
Definition stepOf (e : event) : nat :=
  match e with
  | Println _ => 0
  | Exec_gcloud _ => 1
  | HttpGet _ => 2
  | Decode_Crop_Encode _ _ => 3
  | HttpPost _ (visionRequest _ _) => 4
  | _ => 5
  end.

(** ** The threshold *)

(** For the threshold [t]: one hundredth above it is a finite number
    above it. *)
Definition aboveByHundredth (t : Z) : bool :=
  (float64 t <? float64 t + 0.01)%float &&
  match Prim2SF (float64 t + 0.01)%float with
  | S754_finite _ _ _ => true
  | _ => false
  end.

(** ** Relations kept by every statement *)

(** [c] keeps the relation [R] between the state it starts in and the
    state it ends in, however it ends. *)
Definition preserves {A : Type} (R : machine -> machine -> Prop) (c : M A) : Prop :=
  forall s, R s (snd (c s)).

(** The mute state is not touched. *)
Definition sameMute (s s' : machine) : Prop :=
  lastNotificationSent s' = lastNotificationSent s.

(** The loaded configuration is not touched. *)
Definition sameConfig (s s' : machine) : Prop := config s' = config s.

(** Questions were put, if anything, and the mute state is not touched. *)
Definition quiet (s s' : machine) : Prop :=
  (asked s <= asked s')%nat /\ lastNotificationSent s' = lastNotificationSent s.

(** The mute state is what it was, or a reading of the clock taken since. *)
Definition recommits (w : World) (s s' : machine) : Prop :=
  (asked s <= asked s')%nat /\
  (lastNotificationSent s' = lastNotificationSent s \/
   exists n, (asked s <= n < asked s')%nat /\ lastNotificationSent s' = clock w n).

(** The trace grew by events that all satisfy [Q]. *)
Definition grewBy (Q : event -> Prop) (s s' : machine) : Prop :=
  exists evs, trace s' = (trace s ++ evs)%list /\ Forall Q evs.

(** ** The rest of the program: scheduling, motion, [main] *)

(** What the [select] of [runCfg.run] receives, in the order it receives
    it: a tick of the ticker, or the cancellation of the context. *)
Inductive signal : Type := tick | done.

Definition set_config (c : configuration) (s : machine) : machine :=
  {| config := c; r := r s; buf := buf s;
     lastNotificationSent := lastNotificationSent s;
     asked := asked s; trace := trace s |}.

(** The configuration [main] allocates before it parses the file. *)
Definition emptyConfiguration : configuration := {|
  Run := {| Interval := 0; SleepHour := 0; WakeHour := 0;
            NotifyOnStart := false; NotifyMuteMinutes := 0 |};
  Motion := {| LogPath := ""; CameraID := "" |};
  Image := {| imageURL := ""; CacheFile := ""; ArchivePath := "";
              Rect := {| X1 := 0; Y1 := 0; X2 := 0; Y2 := 0 |} |};
  Vision := {| AuthFile := ""; visionURL := ""; PackageLabel := ""; Threshold := 0 |};
  Email := {| From := ""; To := []; Server := ""; Port := 0; User := ""; Pass := "" |};
  WebHook := {| webhookURL := "" |}
|}.

(** The process as [main] finds it. *)
Definition fresh : machine :=
  {| config := emptyConfiguration; r := ZR; buf := [];
     lastNotificationSent := zeroTime; asked := 0; trace := [] |}.

Section Scheduling.

Variable w : World.

(** [motion.DetectMotion(path)]: its error, if any. *)
Variable DetectMotion : string -> option string.

(** [ioutil.ReadFile(path)]: an error or the bytes. *)
Variable ReadFile : string -> string + list Byte.byte.

(** [yaml.UnmarshalStrict(b, config)]: what it left in [config], and its
    error, if any. *)
Variable UnmarshalStrict : list Byte.byte -> configuration * option string.

Local Open Scope go_scope.

(** [time.NewTicker(d)] panics on a duration that is not positive. *)
Definition time_NewTicker (d : Duration) : M unit :=
  if d <=? 0 then panic "non-positive interval for NewTicker" else ret tt.

(** The [for]/[select] loop of [runCfg.run] over the signals it receives.
    The result tells whether [run] returned ([true], the context was
    cancelled) or still waits after the last signal ([false]). *)
Fixpoint run_select (r : runCfg) (signals : list signal) : M bool :=
  match signals with
  | [] => ret false
  | done :: _ => ret true
  | tick :: rest =>
      now <- time_Now w ;;
      when (runCfg_isAwake now r) (processImage w false) ;;
      run_select r rest
  end.

(** Without an interval there is no ticker: [run] only waits for the
    cancellation. *)
Definition run_wait (signals : list signal) : M bool :=
  ret (existsb (fun x => match x with done => true | tick => false end) signals).

Definition runCfg_run (r : runCfg) (signals : list signal) : M bool :=
  if Interval r >? 0 then
    time_NewTicker (minutes (Interval r)) ;;
    run_select r signals
  else run_wait signals.

(** The callback [motionCfg.initialize] registers for the end of a motion. *)
Definition motionStopped : M unit :=
  cfg <- gets config ;;
  now <- time_Now w ;;
  when (runCfg_isAwake now (Run cfg)) (processImage w false).

(** [motionCfg.initialize]; the result tells whether the callback is
    registered. [log.Fatal] prints its string operands without spaces
    between them. *)
Definition motionCfg_initialize (m : motionCfg) : M bool :=
  if nonEmpty (LogPath m) then
    (when (CameraID m =? "")%string
       (log_Fatal ["The cameraID parameter must be set if the motionLogPath is present."]) ;;
     match DetectMotion (LogPath m) with
     | Some err =>
         log_Fatal [(("Unable to open the motion.log file: " ++ LogPath m) ++ err)%string]
     | None => ret true
     end)
  else ret false.

(** [main], from the parsed flag [configPath] to its return, in a run in
    which no motion is reported; [signals] is what [run] receives. The
    result is that of [run]. *)
Definition main (configPath : string) (signals : list signal) : M bool :=
  modify (set_config emptyConfiguration) ;;
  match ReadFile configPath with
  | inl err => log_Fatal ["Unable to load configuration file:"; configPath; err]
  | inr b =>
      let '(parsed, err) := UnmarshalStrict b in
      modify (set_config parsed) ;;
      match err with
      | Some e => log_Fatal ["Unable to parse configuration file."; e]
      | None =>
          initialize w ;;
          forceNotify <- gets (fun s => NotifyOnStart (Run (config s))) ;;
          processImage w forceNotify ;;
          (m <- gets (fun s => Motion (config s)) ;; motionCfg_initialize m) ;;
          log_Println ["Running..."] ;;
          run <- gets (fun s => Run (config s)) ;;
          runCfg_run run signals
      end
  end.

End Scheduling.

(** ** gomail's message headers *)

(** The header of a gomail message: the values of each field. *)
Definition header : Type := string -> list string.

(** [gomail.NewMessage()] has no header set. *)
Definition NewMessage : header := fun _ => [].

(** [m.SetHeader(field, value...)] replaces the values of the field. *)
Definition SetHeader (field : string) (value : list string) (m : header) : header :=
  fun k => if (k =? field)%string then value else m k.

Definition GetHeader (field : string) (m : header) : list string := m field.

(** The header calls of [emailResult], in its order. *)
Definition emailHeaders (e : emailCfg) (subject : string) : header :=
  let m := SetHeader "From" [From e] NewMessage in
  let m := fold_left (fun m to => SetHeader "To" [to] m) (To e) m in
  SetHeader "Subject" [subject] m.

(** ** More observations *)

(** The configuration and the crop rectangle are not touched. *)
Definition sameSetup (s s' : machine) : Prop :=
  config s' = config s /\ r s' = r s.

(** Nothing but the count of questions changed. *)
Definition onlyAsked (s s' : machine) : Prop :=
  config s' = config s /\ r s' = r s /\ buf s' = buf s /\
  lastNotificationSent s' = lastNotificationSent s /\ trace s' = trace s.

Definition isWriteFile (e : event) : bool :=
  match e with
  | WriteFile _ _ => true
  | _ => false
  end.

(** How many of the events satisfy [f]. *)
Definition count (f : event -> bool) (evs : list event) : nat :=
  List.length (filter f evs).

(** The two guarded channel calls that follow a decision to notify. *)
Definition fanOut (w : World) (subject body : string) (p : prediction) : M unit :=
  (cfg <- gets config ;;
   when (nonEmpty (Server (Email cfg))) (emailResult w subject body) ;;
   when (nonEmpty (webhookURL (WebHook cfg)))
     (image <- gets buf ;; sendWebHook w (Score p) (DisplayName p) image))%go.

(** The event carries the image [b], where it carries one: a file is
    written with it, a mail embeds the cache file of [cfg], a webhook body
    holds it. *)
Definition carries (cfg : configuration) (b : list Byte.byte) (e : event) : Prop :=
  match e with
  | DialAndSend _ m => msgEmbed m = CacheFile (Image cfg)
  | HttpPost _ (webHookBody _ _ image) => image = b
  | WriteFile _ data => data = b
  | _ => True
  end.

(** From a state with configuration [cfg] and buffer [b], both are kept
    and every event carries [b]. *)
Definition holding (cfg : configuration) (b : list Byte.byte) (s s' : machine) : Prop :=
  config s = cfg -> buf s = b ->
  config s' = cfg /\ buf s' = b /\ grewBy (carries cfg b) s s'.


(** The state after the loop logged the results [l] and did nothing else. *)
Definition allLogged (l : list prediction) (s : machine) : machine :=
  fold_left (fun s p => resultLogged p s) l s.

(** A world in which the gcloud command fails. *)
Definition noToken (times : nat -> Time) : World := {|
  gcloud := fun _ _ => ("ERROR: (gcloud.auth) not logged in", Some "exit status 1");
  TrimSpace := TrimSpace (calmWorld times []);
  camera := camera (calmWorld times []);
  crop := crop (calmWorld times []);
  newRequestError := newRequestError (calmWorld times []);
  vision := vision (calmWorld times []);
  jsonUnmarshal := jsonUnmarshal (calmWorld times []);
  archiveName := archiveName (calmWorld times []);
  clock := times;
  smtp := smtp (calmWorld times []);
  webhook := webhook (calmWorld times []);
  notExist := notExist (calmWorld times [])
|}.

(** 23:00 UTC on November 2, 2026: pd.yaml's detector is asleep. *)
Definition lateEvening : Time := noonPlus (11 * 60).

(** pd.yaml with the webhook left out, with the mail server left out, and
    with neither channel. *)
Definition mailOnly : configuration := {|
  Run := Run sampleConfig; Motion := Motion sampleConfig; Image := Image sampleConfig;
  Vision := Vision sampleConfig; Email := Email sampleConfig;
  WebHook := {| webhookURL := "" |}
|}.

Definition noChannel : configuration := {|
  Run := Run sampleConfig; Motion := Motion sampleConfig; Image := Image sampleConfig;
  Vision := Vision sampleConfig;
  Email := {| From := ""; To := []; Server := ""; Port := 0; User := ""; Pass := "" |};
  WebHook := {| webhookURL := "" |}
|}.

(** pd.yaml with a motion log but no camera id. *)
Definition motionWithoutCamera : configuration := {|
  Run := Run sampleConfig;
  Motion := {| LogPath := "/nvr/motion.log"; CameraID := "" |};
  Image := Image sampleConfig; Vision := Vision sampleConfig;
  Email := Email sampleConfig; WebHook := WebHook sampleConfig
|}.

(** ** The first version of main.go: flags, mail only *)

Module FlagVersion.

(** The package-level variables that [flag.Parse] fills. *)
Record flagValues : Type := {
  imageURL : string;
  rect : string;
  interval : Z;
  motionLogPath : string;
  cameraID : string;
  gAuthJSONPath : string;
  gVisionURL : string;
  cacheImage : string;
  notifyClass : string;
  sleepHour : Z;
  wakeHour : Z;
  emailFrom : string;
  emailTo : string;
  emailServer : string;
  emailPort : Z;
  emailUser : string;
  emailPass : string;
  emailMuteDuration : Z;
  emailOnStartup : bool
}.

Inductive event : Type :=
| Println (args : list string)
| PrintfResult (name : string) (confidence : float)
| Exec_gcloud (authFile : string)
| HttpGet (url : string)
| Decode_Crop_Encode (rect : Rectangle) (input : list Byte.byte)
| HttpPost (url : string) (body : postBody)
| WriteFile (path : string) (data : list Byte.byte)
| DialAndSend (d : dialer) (m : message).

(** The flags, the other package-level variables [r], [buf] and
    [lastEmailSent], the number of questions put to the world and the
    events so far. *)
Record machine : Type := {
  flags : flagValues;
  r : Rectangle;
  buf : list Byte.byte;
  lastEmailSent : Time;
  asked : nat;
  trace : list event
}.

Definition set_r (x : Rectangle) (s : machine) : machine :=
  {| flags := flags s; r := x; buf := buf s; lastEmailSent := lastEmailSent s;
     asked := asked s; trace := trace s |}.

Definition set_buf (b : list Byte.byte) (s : machine) : machine :=
  {| flags := flags s; r := r s; buf := b; lastEmailSent := lastEmailSent s;
     asked := asked s; trace := trace s |}.

Definition set_lastEmailSent (t : Time) (s : machine) : machine :=
  {| flags := flags s; r := r s; buf := buf s; lastEmailSent := t;
     asked := asked s; trace := trace s |}.

Definition next_question (s : machine) : machine :=
  {| flags := flags s; r := r s; buf := buf s; lastEmailSent := lastEmailSent s;
     asked := S (asked s); trace := trace s |}.

Definition record_event (e : event) (s : machine) : machine :=
  {| flags := flags s; r := r s; buf := buf s; lastEmailSent := lastEmailSent s;
     asked := asked s; trace := trace s ++ [e] |}.

Definition M (A : Type) : Type := machine -> outcome A * machine.

Definition ret {A : Type} (a : A) : M A := fun s => (Returned a, s).

Definition bind {A B : Type} (c : M A) (k : A -> M B) : M B :=
  fun s =>
    match c s with
    | (Returned a, s') => k a s'
    | (Panicked err, s') => (Panicked err, s')
    | (Exited, s') => (Exited, s')
    end.

Declare Scope flag_scope.
Delimit Scope flag_scope with flag.
Notation "x <- c ;; k" := (bind c (fun x => k))
  (at level 61, c at next level, right associativity) : flag_scope.
Notation "' pat <- c ;; k" := (bind c (fun x => match x with pat => k end))
  (at level 61, pat pattern, c at next level, right associativity) : flag_scope.
Notation "c ;; k" := (bind c (fun _ => k))
  (at level 61, right associativity) : flag_scope.

Definition gets {A : Type} (f : machine -> A) : M A := fun s => (Returned (f s), s).
Definition modify (f : machine -> machine) : M unit := fun s => (Returned tt, f s).
Definition emit (e : event) : M unit := modify (record_event e).
Definition os_Exit {A : Type} : M A := fun s => (Exited, s).
Definition ask {A : Type} (q : nat -> A) : M A :=
  fun s => (Returned (q (asked s)), next_question s).
Definition when (b : bool) (c : M unit) : M unit := if b then c else ret tt.

Fixpoint forEach {A : Type} (body : A -> M unit) (l : list A) : M unit :=
  match l with
  | [] => ret tt
  | x :: l' => bind (body x) (fun _ => forEach body l')
  end.

(** [strings.Split(s, ",")]: the pieces between the commas, one more than
    there are commas. *)
Fixpoint Split_comma (s : string) : list string :=
  match s with
  | EmptyString => [""]
  | String c rest =>
      if Ascii.eqb c ","%char then "" :: Split_comma rest
      else match Split_comma rest with
           | piece :: pieces => String c piece :: pieces
           | [] => [String c ""]
           end
  end.

Section Program.

Variable w : World.

(** [strconv.Atoi]: the number, or nothing when it reports an error. *)
Variable Atoi : string -> option Z.

(** [fmt.Sprintf("%f", x)]. *)
Variable Sprintf_f : float -> string.

Local Open Scope flag_scope.

Definition time_Now : M Time := ask (clock w).

Definition log_Println (args : list string) : M unit := emit (Println args).

(** [log.Fatal] of one string. *)
Definition log_Fatal {A : Type} (line : string) : M A :=
  emit (Println [line]) ;; os_Exit.

(** The loop of [main] that converts the pieces of the rect flag; [acc]
    holds the numbers converted so far. *)
Fixpoint convertPoints (pieces : list string) (acc : list Z) : M (list Z) :=
  match pieces with
  | [] => ret acc
  | num :: rest =>
      match Atoi num with
      | None => log_Fatal (("Error converting number " ++ num) ++ " to int.")%string
      | Some v => convertPoints rest (acc ++ [v])
      end
  end.

(** The part of [main] that reads the rect flag into [r]. *)
Definition parseRect : M unit :=
  f <- gets flags ;;
  if negb (rect f =? "")%string then
    let rpoints := Split_comma (rect f) in
    if negb (List.length rpoints =? 4)%nat then
      log_Fatal "rect flag not in the form of x,y,x,y"
    else
      ripoints <- convertPoints rpoints [] ;;
      modify (set_r (image_Rect (nth 0 ripoints 0) (nth 1 ripoints 0)
                                (nth 2 ripoints 0) (nth 3 ripoints 0)))
  else ret tt.

Definition getGoogleToken : M (string * option string) :=
  f <- gets flags ;;
  emit (Exec_gcloud (gAuthJSONPath f)) ;;
  ' (out, err) <- ask (fun n => gcloud w n (gAuthJSONPath f)) ;;
  match err with
  | Some e => ret (out, Some e)
  | None => ret (TrimSpace w out, None)
  end.

Definition fetchImage : M (option string) :=
  url <- gets (fun s => imageURL (flags s)) ;;
  modify (set_buf []) ;;
  emit (HttpGet url) ;;
  response <- ask (fun n => camera w n url) ;;
  match response with
  | inl err => ret (Some err)
  | inr (body, err) => modify (set_buf body) ;; ret err
  end.

Definition cropImage (rectangle : Rectangle) : M (option string) :=
  b <- gets buf ;;
  emit (Decode_Crop_Encode rectangle b) ;;
  match crop w rectangle b with
  | DecodeFailed unread err => modify (set_buf unread) ;; ret (Some err)
  | Encoded written err => modify (set_buf written) ;; ret err
  end.

Definition evaluateImageJSON (token : string) : M (visionResponse * option string) :=
  b <- gets buf ;;
  f <- gets flags ;;
  let url := gVisionURL f in
  let request := visionRequest token b in
  match newRequestError w url with
  | Some err => ret ([], Some err)
  | None =>
      emit (HttpPost url request) ;;
      resp <- ask (fun n => vision w n url request) ;;
      match resp with
      | inl err => ret ([], Some err)
      | inr body =>
          let '(response, err) := jsonUnmarshal w body in
          match err with
          | Some e => ret (response, Some e)
          | None =>
              when (negb (cacheImage f =? "")%string) (emit (WriteFile (cacheImage f) b)) ;;
              ret (response, None)
          end
      end
  end.

(** This [emailResult] stores the time of a mail that was sent. *)
Definition emailResult (subject body : string) : M unit :=
  f <- gets flags ;;
  let m := {| msgFrom := emailFrom f; msgTo := Some (emailTo f);
              msgSubject := subject; msgBody := body; msgEmbed := cacheImage f |} in
  let d := {| dialHost := emailServer f; dialPort := emailPort f;
              dialUser := emailUser f; dialPass := emailPass f |} in
  emit (DialAndSend d m) ;;
  err <- ask (fun n => smtp w n d m) ;;
  match err with
  | Some e => log_Println [e]
  | None =>
      now <- time_Now ;;
      modify (set_lastEmailSent now)
  end.

(** The condition of the loop's outer [if]. *)
Definition qualifies (f : flagValues) (forceEmail : bool) (p : prediction) : bool :=
  (DisplayName p =? notifyClass f)%string || forceEmail.

(** The body of [for _, p := range resp.Payload]. *)
Definition processResult (forceEmail : bool) (p : prediction) : M unit :=
  f <- gets flags ;;
  emit (PrintfResult (DisplayName p) (Score p)) ;;
  if qualifies f forceEmail p then
    now <- time_Now ;;
    sent <- gets lastEmailSent ;;
    when (After now (Add sent (minutes (emailMuteDuration f))))
      (emailResult "Package Received!"
         (("A package has been identified at the door with " ++ Sprintf_f (Score p))
            ++ " certainty")%string)
  else ret tt.

Definition processImage (forceEmail : bool) : M unit :=
  ' (token, err) <- getGoogleToken ;;
  match err with
  | Some e =>
      log_Println ["Unable to get Google Cloud Token. Error:"; e; "StdOut:"; token]
  | None =>
  err <- fetchImage ;;
  match err with
  | Some e => log_Println ["Error fetching image."; e]
  | None =>
  f <- gets flags ;;
  err <- (if negb (rect f =? "")%string
          then rectangle <- gets r ;; cropImage rectangle
          else ret None) ;;
  match err with
  | Some e => log_Println ["Crop failed."; e]
  | None =>
  ' (resp, err) <- evaluateImageJSON token ;;
  match err with
  | Some e => log_Println ["Error evaluating image."; e]
  | None => forEach (processResult forceEmail) resp
  end end end end.

End Program.

(** Observations. *)

Definition new_events (s s' : machine) : list event :=
  skipn (List.length (trace s)) (trace s').

Definition isMail (e : event) : bool :=
  match e with
  | DialAndSend _ _ => true
  | _ => false
  end.

Definition mails (evs : list event) : nat := List.length (filter isMail evs).

(** The state after the loop body logged its result. *)
Definition resultLogged (p : prediction) (s : machine) : machine :=
  record_event (PrintfResult (DisplayName p) (Score p)) s.

(** The dialer and the message that [emailResult] builds for a result. *)
Definition dialerOf (f : flagValues) : dialer :=
  {| dialHost := emailServer f; dialPort := emailPort f;
     dialUser := emailUser f; dialPass := emailPass f |}.

Definition packageMail (fmt : float -> string) (f : flagValues) (p : prediction) : message :=
  {| msgFrom := emailFrom f; msgTo := Some (emailTo f);
     msgSubject := "Package Received!";
     msgBody := (("A package has been identified at the door with " ++ fmt (Score p))
                   ++ " certainty")%string;
     msgEmbed := cacheImage f |}.

(** The state after the loop body handed its mail to the dialer. *)
Definition handedOver (fmt : float -> string) (p : prediction) (s : machine) : machine :=
  next_question
    (record_event (DialAndSend (dialerOf (flags s)) (packageMail fmt (flags s) p))
       (next_question (resultLogged p s))).

(** The number of commas of a flag value. *)
Fixpoint commas (s : string) : nat :=
  match s with
  | EmptyString => 0
  | String c rest => if Ascii.eqb c ","%char then S (commas rest) else commas rest
  end.

(** A piece that [strconv.Atoi] rejects. *)
Definition unconvertible (Atoi : string -> option Z) (piece : string) : bool :=
  match Atoi piece with
  | Some _ => false
  | None => true
  end.

(** A value of the rect flag that [main] accepts: empty, or four pieces
    that all convert. *)
Definition wellFormed (Atoi : string -> option Z) (flag : string) : bool :=
  (flag =? "")%string
  || ((commas flag =? 3)%nat
      && forallb (fun piece => negb (unconvertible Atoi piece)) (Split_comma flag)).

(** The flags of a run with the mail settings of pd.yaml. *)
Definition sampleFlags : flagValues := {|
  imageURL := "http://192.168.1.10/snap.jpeg"; rect := "0,0,600,400"; interval := 10;
  motionLogPath := ""; cameraID := "";
  gAuthJSONPath := "/pd/auth.json"; gVisionURL := "https://automl.googleapis.com/predict";
  cacheImage := "img.jpg"; notifyClass := "package"; sleepHour := 22; wakeHour := 7;
  emailFrom := "john@example.com"; emailTo := "jane@example.com";
  emailServer := "smtp.example.com"; emailPort := 587;
  emailUser := "jane"; emailPass := "secret";
  emailMuteDuration := 60; emailOnStartup := true
|}.

Definition withRectFlag (value : string) (f : flagValues) : flagValues := {|
  imageURL := imageURL f; rect := value; interval := interval f;
  motionLogPath := motionLogPath f; cameraID := cameraID f;
  gAuthJSONPath := gAuthJSONPath f; gVisionURL := gVisionURL f;
  cacheImage := cacheImage f; notifyClass := notifyClass f;
  sleepHour := sleepHour f; wakeHour := wakeHour f;
  emailFrom := emailFrom f; emailTo := emailTo f;
  emailServer := emailServer f; emailPort := emailPort f;
  emailUser := emailUser f; emailPass := emailPass f;
  emailMuteDuration := emailMuteDuration f; emailOnStartup := emailOnStartup f
|}.

Definition running (f : flagValues) (sent : Time) (n : nat) : machine :=
  {| flags := f; r := ZR; buf := []; lastEmailSent := sent; asked := n; trace := [] |}.

(** An [Atoi] for the witnesses: it knows a few numbers. *)
Definition sampleAtoi (s : string) : option Z :=
  if (s =? "0")%string then Some 0
  else if (s =? "600")%string then Some 600
  else if (s =? "400")%string then Some 400
  else if (s =? "-5")%string then Some (-5)
  else None.

End FlagVersion.

(** * Properties *)

(** ** Time and the schedule policy *)

Lemma Hour_range (t : Time) : 0 <= Hour t < 24.
Proof.
  unfold Hour.
  pose proof (Z.mod_pos_bound (instant t / 1000000000 + zoneOffset t) 86400 ltac:(lia)) as Hm.
  split.
  - apply Z.div_pos; lia.
  - apply Z.div_lt_upper_bound; lia.
Qed.

Lemma Hour_atHour (h : Z) : 0 <= h < 24 -> Hour (atHour h) = h.
Proof.
  intros Hh. unfold Hour, atHour. cbn [instant zoneOffset].
  rewrite Z.div_mul by lia. rewrite Z.add_0_r.
  rewrite Z.mod_small by lia. apply Z.div_mul. lia.
Qed.

Lemma isAwake_spec (now : Time) (sleepHour wakeHour : Z) :
  isAwake now sleepHour wakeHour = true <->
  sleepHour = wakeHour \/
  (sleepHour > wakeHour /\ wakeHour <= Hour now < sleepHour) \/
  (sleepHour < wakeHour /\ (Hour now < sleepHour \/ Hour now >= wakeHour)).
Proof.
  unfold isAwake.
  destruct (Z.gtb_spec sleepHour wakeHour) as [Hgt|Hgt];
  destruct (Z.ltb_spec sleepHour wakeHour) as [Hlt|Hlt];
  destruct (Z.eqb_spec sleepHour wakeHour) as [Heq|Heq];
  destruct (Z.ltb_spec (Hour now) sleepHour) as [Hs|Hs];
  destruct (Z.geb_spec (Hour now) wakeHour) as [Hw|Hw];
  cbn; split; intros H; try reflexivity; try discriminate; lia.
Qed.

Lemma runCfg_isAwake_eq (now : Time) (r : runCfg) :
  runCfg_isAwake now r = isAwake now (SleepHour r) (WakeHour r).
Proof. reflexivity. Qed.

Lemma awakeHours_disabled (k : Z) : awakeHours k k = map Z.of_nat (seq 0 24).
Proof.
  unfold awakeHours. apply forallb_filter_id, forallb_forall.
  intros h _. apply isAwake_spec. now left.
Qed.

(** C2. [isAwake] by hour of day: with [sleepHour = wakeHour] it is true at
    every hour; with [sleepHour > wakeHour] it is true exactly when
    [wakeHour <= hour < sleepHour]; with [sleepHour < wakeHour] exactly when
    [hour < sleepHour] or [hour >= wakeHour]. The hour is always one of
    0..23 and each of them occurs. For sleep 22, wake 7 the awake hours are
    7..21; for sleep 6, wake 22 they are 0..5, 22 and 23. The method
    [runCfg.isAwake] decides the same way. *)
Theorem C2_isAwake_by_hour (now : Time) (sleepHour wakeHour : Z) :
  0 <= Hour now < 24 /\
  (forall h, 0 <= h < 24 -> Hour (atHour h) = h) /\
  (sleepHour = wakeHour -> isAwake now sleepHour wakeHour = true) /\
  (sleepHour > wakeHour ->
     (isAwake now sleepHour wakeHour = true <-> wakeHour <= Hour now < sleepHour)) /\
  (sleepHour < wakeHour ->
     (isAwake now sleepHour wakeHour = true <-> Hour now < sleepHour \/ Hour now >= wakeHour)) /\
  (forall r, SleepHour r = sleepHour -> WakeHour r = wakeHour ->
     runCfg_isAwake now r = isAwake now sleepHour wakeHour) /\
  awakeHours sleepHour sleepHour = map Z.of_nat (seq 0 24) /\
  awakeHours 22 7 = [7; 8; 9; 10; 11; 12; 13; 14; 15; 16; 17; 18; 19; 20; 21] /\
  awakeHours 6 22 = [0; 1; 2; 3; 4; 5; 22; 23].
Proof.
  split; [apply Hour_range|].
  split; [exact Hour_atHour|].
  split; [intros E; apply isAwake_spec; now left|].
  split; [intros Hgt; rewrite isAwake_spec; lia|].
  split; [intros Hlt; rewrite isAwake_spec; lia|].
  split; [intros r <- <-; apply runCfg_isAwake_eq|].
  split; [apply awakeHours_disabled|].
  split; reflexivity.
Qed.

(** At noon the detector of pd.yaml (sleep 22, wake 7) is awake, and one
    that sleeps from 6 to 22 is not. *)
Lemma C2_isAwake_by_hour_witness :
  isAwake noon 22 7 = true /\ isAwake noon 6 22 = false.
Proof.
  split.
  - apply (proj1 (proj2 (proj2 (proj2 (C2_isAwake_by_hour noon 22 7))))).
    + reflexivity.
    + change (Hour noon) with 12. lia.
  - destruct (isAwake noon 6 22) eqn:E; [|reflexivity].
    apply (proj1 (proj2 (proj2 (proj2 (proj2 (C2_isAwake_by_hour noon 6 22)))))) in E.
    + change (Hour noon) with 12 in E. lia.
    + reflexivity.
Defined.

(** C10. [isAwake] reads nothing of its time argument but the hour of day:
    two times with the same [Hour] give the same answer for the same sleep
    and wake hours, whatever their minutes, seconds, dates and zones; so
    does [runCfg.isAwake] for two readings of the clock. *)
Theorem C10_isAwake_depends_on_hour_only
    (now1 now2 : Time) (sleepHour wakeHour : Z) (r : runCfg) :
  Hour now1 = Hour now2 ->
  isAwake now1 sleepHour wakeHour = isAwake now2 sleepHour wakeHour /\
  runCfg_isAwake now1 r = runCfg_isAwake now2 r.
Proof.
  intros E. unfold runCfg_isAwake, isAwake. rewrite E. split; reflexivity.
Qed.

(** Noon UTC on November 2 and 12:34:56 three days later in a zone one hour
    east of UTC are in the same hour of day. *)
Lemma C10_isAwake_depends_on_hour_only_witness :
  Hour noon = Hour (mkTime ((63929217600 + 3 * 86400 - 3600 + 2096) * 1000000000 + 789) 3600) /\
  isAwake noon 22 7 =
  isAwake (mkTime ((63929217600 + 3 * 86400 - 3600 + 2096) * 1000000000 + 789) 3600) 22 7.
Proof.
  split.
  - reflexivity.
  - apply (C10_isAwake_depends_on_hour_only _ _ 22 7 (Run sampleConfig)). reflexivity.
Defined.

(** ** Relations kept by the statements of the program *)

Section Preservation.

Variable R : machine -> machine -> Prop.
Hypothesis R_refl : forall s, R s s.
Hypothesis R_trans : forall s1 s2 s3, R s1 s2 -> R s2 s3 -> R s1 s3.

Lemma preserves_ret {A : Type} (a : A) : preserves R (ret a).
Proof. intros s. apply R_refl. Qed.

Lemma preserves_gets {A : Type} (f : machine -> A) : preserves R (gets f).
Proof. intros s. apply R_refl. Qed.

Lemma preserves_panic {A : Type} (err : string) : preserves R (@panic A err).
Proof. intros s. apply R_refl. Qed.

Lemma preserves_os_Exit {A : Type} : preserves R (@os_Exit A).
Proof. intros s. apply R_refl. Qed.

Lemma preserves_modify (f : machine -> machine) :
  (forall s, R s (f s)) -> preserves R (modify f).
Proof. intros H s. apply H. Qed.

Lemma preserves_ask {A : Type} (q : nat -> A) :
  (forall s, R s (next_question s)) -> preserves R (ask q).
Proof. intros H s. apply H. Qed.

Lemma preserves_bind {A B : Type} (c : M A) (k : A -> M B) :
  preserves R c -> (forall a, preserves R (k a)) -> preserves R (bind c k).
Proof.
  intros Hc Hk s. unfold bind. specialize (Hc s).
  destruct (c s) as [[a| err |] s1]; cbn in *; try assumption.
  eapply R_trans; [exact Hc | apply Hk].
Qed.

Lemma preserves_when (b : bool) (c : M unit) :
  preserves R c -> preserves R (when b c).
Proof. intros Hc. destruct b; [exact Hc | apply preserves_ret]. Qed.

Lemma preserves_forEach {A : Type} (body : A -> M unit) (l : list A) :
  (forall x, preserves R (body x)) -> preserves R (forEach body l).
Proof.
  intros Hb. induction l as [|x l IH]; cbn [forEach].
  - apply preserves_ret.
  - apply preserves_bind; [apply Hb | intros _; exact IH].
Qed.

End Preservation.

(** Break a computation into its statements; what is left are the
    assignments, the questions and the events. *)
Ltac frame_with Hrefl Htrans :=
  repeat match goal with
  | |- preserves _ (ret _) => apply (preserves_ret _ Hrefl)
  | |- preserves _ (gets _) => apply (preserves_gets _ Hrefl)
  | |- preserves _ (panic _) => apply (preserves_panic _ Hrefl)
  | |- preserves _ os_Exit => apply (preserves_os_Exit _ Hrefl)
  | |- preserves _ (when _ _) => apply (preserves_when _ Hrefl)
  | |- preserves _ (forEach _ _) => apply (preserves_forEach _ Hrefl Htrans); intro
  | |- preserves _ (bind _ _) => apply (preserves_bind _ Htrans); [|intro]
  | |- preserves _ (modify _) => apply preserves_modify; intro
  | |- preserves _ (ask _) => apply preserves_ask; intro
  | |- preserves _ (let x := _ in _) => cbv zeta
  | |- preserves _ (match ?x with _ => _ end) => destruct x
  end.

Lemma sameMute_refl s : sameMute s s.
Proof. reflexivity. Qed.

Lemma sameMute_trans s1 s2 s3 : sameMute s1 s2 -> sameMute s2 s3 -> sameMute s1 s3.
Proof. unfold sameMute. congruence. Qed.

Lemma sameConfig_refl s : sameConfig s s.
Proof. reflexivity. Qed.

Lemma sameConfig_trans s1 s2 s3 : sameConfig s1 s2 -> sameConfig s2 s3 -> sameConfig s1 s3.
Proof. unfold sameConfig. congruence. Qed.

Lemma grewBy_refl Q s : grewBy Q s s.
Proof. exists []. split; [now rewrite app_nil_r | constructor]. Qed.

Lemma grewBy_trans Q s1 s2 s3 : grewBy Q s1 s2 -> grewBy Q s2 s3 -> grewBy Q s1 s3.
Proof.
  intros (e1 & H1 & F1) (e2 & H2 & F2). exists (e1 ++ e2)%list. split.
  - rewrite H2, H1. now rewrite app_assoc.
  - apply Forall_app. now split.
Qed.

Lemma grewBy_event (Q : event -> Prop) e s : Q e -> grewBy Q s (record_event e s).
Proof. intros H. exists [e]. split; [reflexivity | now constructor]. Qed.

Lemma grewBy_same_trace (Q : event -> Prop) s s' : trace s' = trace s -> grewBy Q s s'.
Proof. intros E. exists []. split; [now rewrite app_nil_r | constructor]. Qed.

Lemma new_events_app s s' evs : trace s' = (trace s ++ evs)%list -> new_events s s' = evs.
Proof.
  intros E. unfold new_events. rewrite E.
  rewrite skipn_app, skipn_all, Nat.sub_diag. reflexivity.
Qed.

Lemma grewBy_new_events Q s s' : grewBy Q s s' -> Forall Q (new_events s s').
Proof. intros (evs & E & F). now rewrite (new_events_app _ _ _ E). Qed.

Ltac frame_mute := frame_with sameMute_refl sameMute_trans; try reflexivity.
Ltac frame_config := frame_with sameConfig_refl sameConfig_trans; try reflexivity.
Ltac frame_events :=
  match goal with
  | |- preserves (grewBy ?Q) _ => frame_with (grewBy_refl Q) (grewBy_trans Q)
  end;
  try (apply grewBy_same_trace; reflexivity); try (apply grewBy_event; cbn; auto).

(** *** The configuration is read-only *)

Lemma emailResult_config w subject body : preserves sameConfig (emailResult w subject body).
Proof. unfold emailResult, log_Println, emit. frame_config. Qed.

Lemma sendWebHook_config w score label image :
  preserves sameConfig (sendWebHook w score label image).
Proof. unfold sendWebHook, log_Println, emit. frame_config. Qed.

Lemma processResult_config w forceNotify p :
  preserves sameConfig (processResult w forceNotify p).
Proof.
  unfold processResult, time_Now, emit.
  frame_config; first [apply emailResult_config | apply sendWebHook_config].
Qed.

Lemma initialize_config w : preserves sameConfig (initialize w).
Proof.
  unfold initialize, imageCfg_initialize, visionCfg_initialize, emailCfg_initialize,
    webhookCfg_initialize, log_Fatal, emit.
  frame_config.
Qed.

Lemma processImage_config w forceNotify : preserves sameConfig (processImage w forceNotify).
Proof.
  unfold processImage, getGoogleToken, fetchImage, cropImage, evaluateImageJSON,
    time_Now, log_Println, emit.
  frame_config. apply processResult_config.
Qed.

Lemma imageCfg_defaulted_rest (i : imageCfg) :
  imageURL (imageCfg_defaulted i) = imageURL i /\
  ArchivePath (imageCfg_defaulted i) = ArchivePath i /\
  Rect (imageCfg_defaulted i) = Rect i.
Proof. unfold imageCfg_defaulted. destruct (CacheFile i =? "")%string; auto. Qed.

Lemma initialize_rectangle w s :
  fst (initialize w s) = Returned tt ->
  r (snd (initialize w s)) =
    if imageCfg_isCropSpecified (Image (config s))
    then image_Rect (X1 (Rect (Image (config s)))) (Y1 (Rect (Image (config s))))
                    (X2 (Rect (Image (config s)))) (Y2 (Rect (Image (config s))))
    else r s.
Proof.
  destruct (imageCfg_defaulted_rest (Image (config s))) as (Eu & Ea & Er).
  unfold initialize, imageCfg_initialize, visionCfg_initialize, emailCfg_initialize,
    webhookCfg_initialize, imageCfg_isCropSpecified, log_Fatal, emit, when,
    bind, gets, modify, ask, ret, os_Exit.
  cbn. rewrite Eu, Ea, Er.
  destruct (nonEmpty (ArchivePath (Image (config s)))); cbn;
    [destruct (notExist w (asked s) (ArchivePath (Image (config s)))); cbn|];
    try discriminate;
    (destruct (imageURL (Image (config s)) =? "")%string; cbn; try discriminate;
     destruct ((X1 (Rect (Image (config s))) >? 0) || (Y1 (Rect (Image (config s))) >? 0)
               || (X2 (Rect (Image (config s))) >? 0) || (Y2 (Rect (Image (config s))) >? 0));
     cbn;
     destruct ((AuthFile (Vision (config s)) =? "")%string
               || (visionURL (Vision (config s)) =? "")%string);
     cbn; try discriminate; reflexivity).
Qed.

(** C9. The [initialize] methods have value receivers: whatever the loaded
    configuration and however initialization ends, the global [config] is
    afterwards what it was, so [config.Email.Port] and
    [config.Image.CacheFile] keep their loaded values (0 stays 0, the empty
    string stays empty) although the receivers' copies were set to 587 and
    "./img.jpg". What a completed initialization does change is the
    package-level rectangle [r], derived from [config.Image.Rect] when a
    crop is specified. *)
Theorem C9_initialize_keeps_config (w : World) (s : machine) :
  config (snd (initialize w s)) = config s /\
  Port (Email (config (snd (initialize w s)))) = Port (Email (config s)) /\
  CacheFile (Image (config (snd (initialize w s)))) = CacheFile (Image (config s)) /\
  (Port (Email (config s)) = 0 ->
     Port (emailCfg_defaulted (Email (config s))) = 587 /\
     Port (Email (config (snd (initialize w s)))) = 0) /\
  (CacheFile (Image (config s)) = "" ->
     CacheFile (imageCfg_defaulted (Image (config s))) = "./img.jpg" /\
     CacheFile (Image (config (snd (initialize w s)))) = "") /\
  (fst (initialize w s) = Returned tt ->
     r (snd (initialize w s)) =
       if imageCfg_isCropSpecified (Image (config s))
       then image_Rect (X1 (Rect (Image (config s)))) (Y1 (Rect (Image (config s))))
                       (X2 (Rect (Image (config s)))) (Y2 (Rect (Image (config s))))
       else r s).
Proof.
  pose proof (initialize_config w s) as E. unfold sameConfig in E.
  rewrite E.
  split; [reflexivity|]. split; [reflexivity|]. split; [reflexivity|].
  split; [|split].
  - intros HP. split; [|exact HP]. unfold emailCfg_defaulted. rewrite HP. reflexivity.
  - intros HC. split; [|exact HC]. unfold imageCfg_defaulted. rewrite HC. reflexivity.
  - apply initialize_rectangle.
Qed.

(** With a pd.yaml that leaves out the mail port and the cache file,
    initialization completes, the live configuration still has port 0 and
    no cache file, and [r] is the rectangle (0,0)-(600,400). *)
Lemma C9_initialize_keeps_config_witness :
  fst (initialize (calmWorld (fun _ => noon) []) (loaded sparseConfig)) = Returned tt /\
  Port (Email (config (snd (initialize (calmWorld (fun _ => noon) []) (loaded sparseConfig))))) = 0 /\
  CacheFile (Image (config (snd (initialize (calmWorld (fun _ => noon) []) (loaded sparseConfig))))) = "" /\
  r (snd (initialize (calmWorld (fun _ => noon) []) (loaded sparseConfig))) =
    {| Min := {| PX := 0; PY := 0 |}; Max := {| PX := 600; PY := 400 |} |}.
Proof.
  pose proof (C9_initialize_keeps_config (calmWorld (fun _ => noon) []) (loaded sparseConfig))
    as (_ & _ & _ & HP & HC & HR).
  split; [reflexivity|].
  split; [apply HP; reflexivity|].
  split; [apply HC; reflexivity|].
  rewrite HR; reflexivity.
Defined.

(** ** The pipeline of a cycle *)

Ltac run_program :=
  unfold processImage, getGoogleToken, fetchImage, cropImage, evaluateImageJSON,
    time_Now, log_Println, emit, when, bind, gets, modify, ask, ret;
  cbn [config r buf lastNotificationSent asked trace
       set_r set_buf set_lastNotificationSent next_question record_event fst snd].

Lemma prepared_config w s token s3 : prepared w s token s3 -> config s3 = config s.
Proof. intros H; destruct H; reflexivity. Qed.

Lemma prepared_mute w s token s3 :
  prepared w s token s3 -> lastNotificationSent s3 = lastNotificationSent s.
Proof. intros H; destruct H; reflexivity. Qed.

(** From a prepared state the cycle continues with the classification. *)
Lemma processImage_prepared w forceNotify s token s3 :
  prepared w s token s3 ->
  processImage w forceNotify s =
  bind (evaluateImageJSON w token)
       (fun x => match x with
                 | (resp, Some e) => log_Println ["Error evaluating image."; e]
                 | (resp, None) => forEach (processResult w forceNotify) resp
                 end) s3.
Proof.
  intros H. destruct H as [out body Ht Hc Hn | out body written Ht Hc Hy Hw].
  - run_program. rewrite Ht. cbn. rewrite Hc. cbn. rewrite Hn. cbn.
    unfold afterFetch, afterGet, afterToken.
    destruct (newRequestError w (visionURL (Vision (config s)))); [reflexivity|].
    cbn. match goal with |- context [vision w ?n ?u ?b] => destruct (vision w n u b) end;
      [reflexivity|].
    cbn. destruct (jsonUnmarshal w _) as [resp [e|]]; reflexivity.
  - run_program. rewrite Ht. cbn. rewrite Hc. cbn. rewrite Hy. cbn. rewrite Hw. cbn.
    unfold afterFetch, afterGet, afterToken, cropping.
    destruct (newRequestError w (visionURL (Vision (config s)))); [reflexivity|].
    cbn. match goal with |- context [vision w ?n ?u ?b] => destruct (vision w n u b) end;
      [reflexivity|].
    cbn. destruct (jsonUnmarshal w _) as [resp [e|]]; reflexivity.
Qed.

Lemma processImage_aborted w forceNotify s k s' :
  aborted w s k s' -> processImage w forceNotify s = (Returned tt, s').
Proof.
  intros H.
  destruct H as [out e Ht | out e Ht Hc | out body e Ht Hc
                | out body unread e Ht Hc Hy Hw | out body written e Ht Hc Hy Hw
                | token s3 e Hp Hr | token s3 e Hp Hr Hv | token s3 body resp e Hp Hr Hv Hj].
  - run_program. rewrite Ht. reflexivity.
  - run_program. rewrite Ht. cbn. rewrite Hc. reflexivity.
  - run_program. rewrite Ht. cbn. rewrite Hc. reflexivity.
  - run_program. rewrite Ht. cbn. rewrite Hc. cbn. rewrite Hy. cbn. rewrite Hw. reflexivity.
  - run_program. rewrite Ht. cbn. rewrite Hc. cbn. rewrite Hy. cbn. rewrite Hw. reflexivity.
  - rewrite (processImage_prepared _ _ _ _ _ Hp).
    pose proof (prepared_config _ _ _ _ Hp) as Ec.
    unfold evaluateImageJSON, log_Println, emit, bind, gets, modify, ret. cbn.
    rewrite Ec, Hr. reflexivity.
  - rewrite (processImage_prepared _ _ _ _ _ Hp).
    pose proof (prepared_config _ _ _ _ Hp) as Ec.
    unfold evaluateImageJSON, log_Println, emit, bind, gets, modify, ask, ret. cbn.
    rewrite Ec, Hr. cbn. rewrite Hv. unfold afterPost, logged. rewrite Ec. reflexivity.
  - rewrite (processImage_prepared _ _ _ _ _ Hp).
    pose proof (prepared_config _ _ _ _ Hp) as Ec.
    unfold evaluateImageJSON, log_Println, emit, bind, gets, modify, ask, ret. cbn.
    rewrite Ec, Hr. cbn. rewrite Hv. cbn. rewrite Hj.
    unfold afterPost, logged. rewrite Ec. reflexivity.
Qed.

Lemma processImage_classified w forceNotify s resp s4 :
  classifiedAs w s resp s4 ->
  processImage w forceNotify s = forEach (processResult w forceNotify) resp s4.
Proof.
  intros H. destruct H as [token s3 body resp Hp Hr Hv Hj].
  rewrite (processImage_prepared _ _ _ _ _ Hp).
  pose proof (prepared_config _ _ _ _ Hp) as Ec.
  unfold evaluateImageJSON, time_Now, emit, when, bind, gets, modify, ask, ret. cbn.
  rewrite Ec, Hr. cbn. rewrite Hv. cbn. rewrite Hj.
  unfold afterCache, afterPost. cbn. rewrite Ec.
  destruct (nonEmpty (ArchivePath (Image (config s)))); reflexivity.
Qed.

(** Every cycle either aborts at one of the four steps or reaches the
    loop over the classification results. *)
Lemma processImage_cases w s :
  (exists k s', aborted w s k s') \/ (exists resp s4, classifiedAs w s resp s4).
Proof.
  destruct (gcloud w (asked s) (AuthFile (Vision (config s)))) as [out [e|]] eqn:Ht.
  { left. eexists _, _. eapply token_fails. eassumption. }
  destruct (camera w (S (asked s)) (imageURL (Image (config s)))) as [e|[body [e|]]] eqn:Hc.
  { left. eexists _, _. eapply get_fails; eassumption. }
  { left. eexists _, _. eapply copy_fails; eassumption. }
  assert (Hprep : (exists k s', aborted w s k s') \/ exists s3, prepared w s (TrimSpace w out) s3).
  { destruct (imageCfg_isCropSpecified (Image (config s))) eqn:Hy.
    - destruct (crop w (r s) body) as [unread e | written [e|]] eqn:Hw.
      + left. eexists _, _. eapply decode_fails; eassumption.
      + left. eexists _, _. eapply encode_fails; eassumption.
      + right. eexists. eapply prepared_cropped; eassumption.
    - right. eexists. eapply prepared_plain; eassumption. }
  destruct Hprep as [Ha | [s3 Hp]]; [left; exact Ha|].
  destruct (newRequestError w (visionURL (Vision (config s)))) as [e|] eqn:Hr.
  { left. eexists _, _. eapply request_fails; eassumption. }
  destruct (vision w (asked s3) (visionURL (Vision (config s)))
              (visionRequest (TrimSpace w out) (buf s3))) as [e|reply] eqn:Hv.
  { left. eexists _, _. eapply post_fails; eassumption. }
  destruct (jsonUnmarshal w reply) as [resp [e|]] eqn:Hj.
  { left. eexists _, _. eapply unmarshal_fails; eassumption. }
  right. eexists _, _. eapply classified_ok; eassumption.
Qed.

Lemma stepOf_dispatch e : isDispatch e = true -> stepOf e = 5%nat.
Proof. destruct e as [| | | | |u [ | ]| |]; cbn; intros H; try discriminate; reflexivity. Qed.

Lemma prepared_trace w s token s3 :
  prepared w s token s3 ->
  exists evs, trace s3 = (trace s ++ evs)%list /\
              Forall (fun e => (1 <= stepOf e <= 3)%nat) evs.
Proof.
  intros H. destruct H.
  - exists [Exec_gcloud (AuthFile (Vision (config s))); HttpGet (imageURL (Image (config s)))].
    split; [cbn; now rewrite <- app_assoc|].
    repeat constructor.
  - exists [Exec_gcloud (AuthFile (Vision (config s))); HttpGet (imageURL (Image (config s)));
            Decode_Crop_Encode (r s) body].
    split; [cbn; now rewrite <- !app_assoc|].
    repeat constructor.
Qed.

(** What an aborted cycle added to the trace: events of the steps up to
    the failing one, then one log line. *)
Lemma aborted_trace w s k s' :
  aborted w s k s' ->
  (1 <= k <= 4)%nat /\
  exists steps args,
    trace s' = (trace s ++ steps ++ [Println args])%list /\
    Forall (fun e => (1 <= stepOf e <= k)%nat) steps.
Proof.
  intros H.
  destruct H as [out e Ht | out e Ht Hc | out body e Ht Hc
                | out body unread e Ht Hc Hy Hw | out body written e Ht Hc Hy Hw
                | token s3 e Hp Hr | token s3 e Hp Hr Hv | token s3 body resp e Hp Hr Hv Hj];
    (split; [lia|]).
  - eexists [_], _. split; [cbn; rewrite <- app_assoc; reflexivity|]. repeat constructor.
  - eexists [_; _], _. split; [cbn; rewrite <- !app_assoc; reflexivity|]. repeat constructor.
  - eexists [_; _], _. split; [cbn; rewrite <- !app_assoc; reflexivity|]. repeat constructor.
  - eexists [_; _; _], _. split; [cbn; rewrite <- !app_assoc; reflexivity|]. repeat constructor.
  - eexists [_; _; _], _. split; [cbn; rewrite <- !app_assoc; reflexivity|]. repeat constructor.
  - destruct (prepared_trace _ _ _ _ Hp) as (evs & E & F).
    exists evs, ["Error evaluating image."; e]. split.
    + cbn. rewrite E. now rewrite <- app_assoc.
    + eapply Forall_impl; [|exact F]. cbn. intros; lia.
  - destruct (prepared_trace _ _ _ _ Hp) as (evs & E & F).
    exists (evs ++ [HttpPost (visionURL (Vision (config s3))) (visionRequest token (buf s3))])%list,
           ["Error evaluating image."; e]. split.
    + cbn. rewrite E. now rewrite <- !app_assoc.
    + apply Forall_app. split.
      * eapply Forall_impl; [|exact F]. cbn. intros; lia.
      * repeat constructor.
  - destruct (prepared_trace _ _ _ _ Hp) as (evs & E & F).
    exists (evs ++ [HttpPost (visionURL (Vision (config s3))) (visionRequest token (buf s3))])%list,
           ["Error evaluating image."; e]. split.
    + cbn. rewrite E. now rewrite <- !app_assoc.
    + apply Forall_app. split.
      * eapply Forall_impl; [|exact F]. cbn. intros; lia.
      * repeat constructor.
Qed.

Lemma aborted_mute w s k s' :
  aborted w s k s' -> lastNotificationSent s' = lastNotificationSent s.
Proof.
  intros H. destruct H; try reflexivity;
    match goal with Hp : prepared _ _ _ _ |- _ => apply (prepared_mute _ _ _ _ Hp) end.
Qed.

(** C8. When a step of the pipeline fails (the credential, the image
    fetch, the crop or the classification), [processImage] returns right
    after logging the failure: the cycle's events are those of the steps
    up to the failing one followed by one log line, so no later step runs
    and nothing is dispatched on any channel, and [lastNotificationSent]
    is what it was. The process goes on: the call returns normally. *)
Theorem C8_failed_step_aborts_cycle
    (w : World) (forceNotify : bool) (s : machine) (k : nat) (s' : machine) :
  aborted w s k s' ->
  processImage w forceNotify s = (Returned tt, s') /\
  lastNotificationSent s' = lastNotificationSent s /\
  (exists steps args,
      new_events s s' = (steps ++ [Println args])%list /\
      Forall (fun e => (1 <= stepOf e <= k)%nat) steps) /\
  Forall (fun e => (stepOf e <= k)%nat) (new_events s s') /\
  existsb isDispatch (new_events s s') = false.
Proof.
  intros H.
  destruct (aborted_trace _ _ _ _ H) as (Hk & steps & args & E & F).
  pose proof (new_events_app _ _ _ E) as En.
  assert (Hall : Forall (fun e => (stepOf e <= k)%nat) (new_events s s')).
  { rewrite En. apply Forall_app. split.
    - eapply Forall_impl; [|exact F]. cbn. intros; lia.
    - repeat constructor. cbn. lia. }
  split; [exact (processImage_aborted _ forceNotify _ _ _ H)|].
  split; [exact (aborted_mute _ _ _ _ H)|].
  split; [exists steps, args; split; assumption|].
  split; [exact Hall|].
  destruct (existsb isDispatch (new_events s s')) eqn:Ex; [|reflexivity].
  apply existsb_exists in Ex. destruct Ex as (e & Hin & Hd).
  rewrite Forall_forall in Hall. specialize (Hall e Hin).
  rewrite (stepOf_dispatch e Hd) in Hall. lia.
Qed.

(** The startup cycle of pd.yaml with the camera down: the token is
    fetched, the GET fails and is logged, and that is all. *)
Lemma C8_failed_step_aborts_cycle_witness :
  processImage (cameraDown (fun _ => noon) [package 0.875]) true (loaded sampleConfig) =
    (Returned tt,
     logged ["Error fetching image."; "dial tcp 192.168.1.10:80: i/o timeout"]
       (afterGet (loaded sampleConfig))) /\
  new_events (loaded sampleConfig)
    (snd (processImage (cameraDown (fun _ => noon) [package 0.875]) true (loaded sampleConfig))) =
    [Exec_gcloud "/pd/auth.json"; HttpGet "http://192.168.1.10/snap.jpeg";
     Println ["Error fetching image."; "dial tcp 192.168.1.10:80: i/o timeout"]] /\
  lastNotificationSent
    (snd (processImage (cameraDown (fun _ => noon) [package 0.875]) true (loaded sampleConfig))) =
    zeroTime.
Proof.
  pose proof (C8_failed_step_aborts_cycle
                (cameraDown (fun _ => noon) [package 0.875]) true (loaded sampleConfig) 2
                (logged ["Error fetching image."; "dial tcp 192.168.1.10:80: i/o timeout"]
                   (afterGet (loaded sampleConfig)))
                (get_fails (cameraDown (fun _ => noon) [package 0.875]) (loaded sampleConfig)
                   "ya29.token" "dial tcp 192.168.1.10:80: i/o timeout" eq_refl eq_refl))
    as (Hrun & Hmute & _).
  split; [exact Hrun|].
  rewrite Hrun. split; [reflexivity | exact Hmute].
Defined.

(** ** The events of the loop *)

Lemma emailResult_events w subject body :
  preserves (grewBy (fun e => stepOf e = 0%nat \/ stepOf e = 5%nat)) (emailResult w subject body).
Proof. unfold emailResult, log_Println, emit. frame_events. Qed.

Lemma sendWebHook_events w score label image :
  preserves (grewBy (fun e => stepOf e = 0%nat \/ stepOf e = 5%nat))
            (sendWebHook w score label image).
Proof. unfold sendWebHook, log_Println, emit. frame_events. Qed.

Lemma processResult_events w forceNotify p :
  preserves (grewBy (fun e => stepOf e = 0%nat \/ stepOf e = 5%nat))
            (processResult w forceNotify p).
Proof.
  unfold processResult, time_Now, emit.
  frame_events; first [apply emailResult_events | apply sendWebHook_events].
Qed.

(** From the classification on, a cycle adds only log lines, the events of
    the later steps and, unless the request cannot be built, one POST of
    the buffer to the vision service. *)
Lemma classification_events w forceNotify token s3 :
  exists evs,
    trace (snd (bind (evaluateImageJSON w token)
                  (fun x => match x with
                            | (resp, Some e) => log_Println ["Error evaluating image."; e]
                            | (resp, None) => forEach (processResult w forceNotify) resp
                            end) s3))
    = (trace s3 ++ evs)%list /\
    Forall (fun e => (stepOf e = 0%nat \/ stepOf e = 5%nat) \/
                     e = HttpPost (visionURL (Vision (config s3))) (visionRequest token (buf s3)))
           evs /\
    (newRequestError w (visionURL (Vision (config s3))) = None ->
     In (HttpPost (visionURL (Vision (config s3))) (visionRequest token (buf s3))) evs).
Proof.
  unfold evaluateImageJSON, time_Now, log_Println, emit, when, bind, gets, modify, ask, ret.
  cbn.
  destruct (newRequestError w (visionURL (Vision (config s3)))) as [e|] eqn:Hr; cbn.
  { eexists [_]. split; [reflexivity|]. split; [|discriminate].
    repeat constructor. }
  destruct (vision w (asked s3) _ _) as [e|reply]; cbn.
  { eexists [_; _]. split; [now rewrite <- app_assoc|]. split.
    - constructor; [now right|]. repeat constructor.
    - intros _. now left. }
  destruct (jsonUnmarshal w reply) as [resp [e|]]; cbn.
  { eexists [_; _]. split; [now rewrite <- app_assoc|]. split.
    - constructor; [now right|]. repeat constructor.
    - intros _. now left. }
  destruct (nonEmpty (ArchivePath (Image (config s3)))); cbn;
  match goal with
  | |- context [forEach ?b resp ?s4] =>
      destruct (preserves_forEach _ (grewBy_refl _) (grewBy_trans _) b resp
                  (processResult_events w forceNotify) s4) as (evs & E & F)
  end; cbn in E; rewrite E.
  - eexists (_ :: _ :: _ :: evs). split; [now rewrite <- !app_assoc|]. split.
    + constructor; [now right|]. constructor; [left; now right|].
      constructor; [left; now right|].
      eapply Forall_impl; [|exact F]. intros a Ha. now left.
    + intros _. now left.
  - eexists (_ :: _ :: evs). split; [now rewrite <- !app_assoc|]. split.
    + constructor; [now right|]. constructor; [left; now right|].
      eapply Forall_impl; [|exact F]. intros a Ha. now left.
    + intros _. now left.
Qed.

(** ** Cropping *)

Lemma imageCfg_isCropSpecified_spec (i : imageCfg) :
  imageCfg_isCropSpecified i = true <->
  X1 (Rect i) > 0 \/ Y1 (Rect i) > 0 \/ X2 (Rect i) > 0 \/ Y2 (Rect i) > 0.
Proof.
  unfold imageCfg_isCropSpecified. rewrite !orb_true_iff.
  rewrite !Z.gtb_gt. lia.
Qed.

Lemma later_event_plain e :
  stepOf e = 0%nat \/ stepOf e = 5%nat -> isCrop e = false /\ classified e = None.
Proof.
  destruct e as [| | | | |u [ | ]| |]; cbn; intros [H|H]; try discriminate; auto.
Qed.

(** C6, as the code has it. The rectangle {0,0,0,0}, and any rectangle
    none of whose coordinates is positive, counts as no crop: the cycle
    runs no crop and submits the fetched bytes to the classification as
    they are. A rectangle with at least one positive coordinate makes the
    cycle crop the fetched bytes to [r] before the classification: the
    crop is the third event of the cycle, and when it succeeds no other
    crop follows and the classification is asked about the bytes the crop
    wrote and no others; when it fails the cycle logs that and ends
    without a classification. *)
Theorem C6_crop_iff_a_coordinate_is_positive
    (w : World) (forceNotify : bool) (s : machine) (out : string) (body : list Byte.byte) :
  gcloud w (asked s) (AuthFile (Vision (config s))) = (out, None) ->
  camera w (S (asked s)) (imageURL (Image (config s))) = inr (body, None) ->
  (imageCfg_isCropSpecified (Image (config s)) = true <->
     X1 (Rect (Image (config s))) > 0 \/ Y1 (Rect (Image (config s))) > 0 \/
     X2 (Rect (Image (config s))) > 0 \/ Y2 (Rect (Image (config s))) > 0) /\
  (Rect (Image (config s)) = {| X1 := 0; Y1 := 0; X2 := 0; Y2 := 0 |} ->
     imageCfg_isCropSpecified (Image (config s)) = false) /\
  (imageCfg_isCropSpecified (Image (config s)) = false ->
     existsb isCrop (new_events s (snd (processImage w forceNotify s))) = false /\
     (forall image,
        In (Some image) (map classified (new_events s (snd (processImage w forceNotify s)))) ->
        image = body) /\
     (newRequestError w (visionURL (Vision (config s))) = None ->
        In (HttpPost (visionURL (Vision (config s))) (visionRequest (TrimSpace w out) body))
           (new_events s (snd (processImage w forceNotify s))))) /\
  (imageCfg_isCropSpecified (Image (config s)) = true ->
     match crop w (r s) body with
     | Encoded written None =>
         exists evs,
           new_events s (snd (processImage w forceNotify s)) =
             Exec_gcloud (AuthFile (Vision (config s)))
               :: HttpGet (imageURL (Image (config s)))
               :: Decode_Crop_Encode (r s) body :: evs /\
           existsb isCrop evs = false /\
           (forall image, In (Some image) (map classified evs) -> image = written) /\
           (newRequestError w (visionURL (Vision (config s))) = None ->
              In (HttpPost (visionURL (Vision (config s)))
                           (visionRequest (TrimSpace w out) written)) evs)
     | Encoded _ (Some e) | DecodeFailed _ e =>
         new_events s (snd (processImage w forceNotify s)) =
           [Exec_gcloud (AuthFile (Vision (config s)));
            HttpGet (imageURL (Image (config s)));
            Decode_Crop_Encode (r s) body;
            Println ["Crop failed."; e]]
     end).
Proof.
  intros Ht Hc.
  split; [apply imageCfg_isCropSpecified_spec|].
  split; [intros E; unfold imageCfg_isCropSpecified; rewrite E; reflexivity|].
  split.
  - intros Hn.
    pose proof (prepared_plain w s out body Ht Hc Hn) as Hp.
    rewrite (processImage_prepared _ forceNotify _ _ _ Hp).
    destruct (classification_events w forceNotify (TrimSpace w out) (afterFetch body s))
      as (evs & E & F & Hin).
    change (config (afterFetch body s)) with (config s) in *.
    change (buf (afterFetch body s)) with body in *.
    assert (En : trace (snd (bind (evaluateImageJSON w (TrimSpace w out))
                  (fun x => match x with
                            | (resp, Some e) => log_Println ["Error evaluating image."; e]
                            | (resp, None) => forEach (processResult w forceNotify) resp
                            end) (afterFetch body s)))
                 = (trace s ++ [Exec_gcloud (AuthFile (Vision (config s)));
                                HttpGet (imageURL (Image (config s)))] ++ evs)%list).
    { rewrite E. cbn. now rewrite <- !app_assoc. }
    rewrite (new_events_app _ _ _ En).
    rewrite Forall_forall in F.
    split; [|split].
    + cbn. apply not_true_is_false. intros Ex.
      apply existsb_exists in Ex. destruct Ex as (e & He & Hcrop).
      destruct (F e He) as [Hl | ->]; [|discriminate].
      destruct (later_event_plain e Hl) as [Hcr _]. congruence.
    + cbn. intros image [H|[H|H]]; try discriminate.
      apply in_map_iff in H. destruct H as (e & Hcl & He).
      destruct (F e He) as [Hl | ->].
      * destruct (later_event_plain e Hl) as [_ Hno]. congruence.
      * cbn in Hcl. congruence.
    + intros Hr. right. right. apply Hin, Hr.
  - intros Hy.
    destruct (crop w (r s) body) as [unread e | written [e|]] eqn:Hw.
    + rewrite (processImage_aborted _ forceNotify _ _ _
                 (decode_fails w s out body unread e Ht Hc Hy Hw)).
      cbn [snd]. apply new_events_app. cbn. now rewrite <- !app_assoc.
    + rewrite (processImage_aborted _ forceNotify _ _ _
                 (encode_fails w s out body written e Ht Hc Hy Hw)).
      cbn [snd]. apply new_events_app. cbn. now rewrite <- !app_assoc.
    + pose proof (prepared_cropped w s out body written Ht Hc Hy Hw) as Hp.
      rewrite (processImage_prepared _ forceNotify _ _ _ Hp).
      destruct (classification_events w forceNotify (TrimSpace w out)
                  (set_buf written (cropping (afterFetch body s)))) as (evs & E & F & Hin).
      change (config (set_buf written (cropping (afterFetch body s)))) with (config s) in *.
      change (buf (set_buf written (cropping (afterFetch body s)))) with written in *.
      exists evs. rewrite Forall_forall in F.
      split; [|split; [|split]].
      * apply new_events_app. rewrite E. cbn. now rewrite <- !app_assoc.
      * apply not_true_is_false. intros Ex.
        apply existsb_exists in Ex. destruct Ex as (e & He & Hcrop).
        destruct (F e He) as [Hl | ->]; [|discriminate].
        destruct (later_event_plain e Hl) as [Hcr _]. congruence.
      * intros image H.
        apply in_map_iff in H. destruct H as (e & Hcl & He).
        destruct (F e He) as [Hl | ->].
        -- destruct (later_event_plain e Hl) as [_ Hno]. congruence.
        -- cbn in Hcl. congruence.
      * exact Hin.
Qed.

(** The sample configuration crops to (0,0)-(600,400) and submits what
    the crop wrote; with the rectangle {0,0,0,0} the cycle submits the
    camera's bytes themselves. *)
Lemma C6_crop_iff_a_coordinate_is_positive_witness :
  (exists evs,
     new_events (running sampleConfig zeroTime 0)
       (snd (processImage (calmWorld (fun _ => noon) []) false
               (running sampleConfig zeroTime 0))) =
       Exec_gcloud "/pd/auth.json" :: HttpGet "http://192.168.1.10/snap.jpeg"
         :: Decode_Crop_Encode (image_Rect 0 0 600 400) jpegBytes :: evs /\
     In (HttpPost "https://automl.googleapis.com/predict"
                  (visionRequest "ya29.token" croppedBytes)) evs) /\
  In (HttpPost "https://automl.googleapis.com/predict" (visionRequest "ya29.token" jpegBytes))
     (new_events (loaded (withRect 0 0 0 0 sampleConfig))
        (snd (processImage (calmWorld (fun _ => noon) []) false
                (loaded (withRect 0 0 0 0 sampleConfig))))).
Proof.
  split.
  - destruct (C6_crop_iff_a_coordinate_is_positive (calmWorld (fun _ => noon) []) false
                (running sampleConfig zeroTime 0) "ya29.token" jpegBytes eq_refl eq_refl)
      as (_ & _ & _ & H).
    destruct (H eq_refl) as (evs & E & _ & _ & Hin).
    exists evs. split; [exact E | exact (Hin eq_refl)].
  - apply (C6_crop_iff_a_coordinate_is_positive (calmWorld (fun _ => noon) []) false
             (loaded (withRect 0 0 0 0 sampleConfig)) "ya29.token" jpegBytes eq_refl eq_refl);
      reflexivity.
Defined.

(** C6, against "any nonzero coordinate enables cropping": the rectangle
    {-1,0,0,0} has a nonzero coordinate, yet no crop is specified, the
    cycle runs no crop and submits the fetched bytes as they are. *)
Lemma C6_nonzero_coordinate_without_crop :
  X1 (Rect (Image (withRect (-1) 0 0 0 sampleConfig))) = -1 /\
  imageCfg_isCropSpecified (Image (withRect (-1) 0 0 0 sampleConfig)) = false /\
  new_events (loaded (withRect (-1) 0 0 0 sampleConfig))
    (snd (processImage (calmWorld (fun _ => noon) []) false
            (loaded (withRect (-1) 0 0 0 sampleConfig)))) =
  [Exec_gcloud "/pd/auth.json";
   HttpGet "http://192.168.1.10/snap.jpeg";
   HttpPost "https://automl.googleapis.com/predict" (visionRequest "ya29.token" jpegBytes);
   WriteFile "img.jpeg" jpegBytes].
Proof. repeat split. Qed.

(** ** The mute window *)

Lemma wrap64_small (z : Z) : int64_min <= z <= int64_max -> wrap64 z = z.
Proof.
  unfold wrap64, int64_min, int64_max. intros H.
  rewrite Z.mod_small by lia. lia.
Qed.

Lemma After_Add_minutes (now sent : Time) (m : Z) :
  int64_min <= m * Minute <= int64_max ->
  After now (Add sent (minutes m)) = true <-> instant sent + m * Minute < instant now.
Proof.
  intros H. unfold After, Add, minutes. cbn [instant].
  rewrite (wrap64_small _ H). apply Z.ltb_lt.
Qed.

(** A result that matches runs into the mute window. *)
Lemma processResult_matched w forceNotify p s :
  matched (config s) p = true ->
  processResult w forceNotify p s =
  if After (clock w (asked s))
           (Add (lastNotificationSent s) (minutes (NotifyMuteMinutes (Run (config s)))))
  then dispatchDetected w p (committed w p s)
  else (Returned tt, muted p s).
Proof.
  intros Hm. unfold processResult, dispatchDetected, time_Now, emit, bind, gets, modify, ask, ret.
  cbn. rewrite Hm.
  destruct (After _ _); reflexivity.
Qed.

Lemma emailResult_mute w subject body : preserves sameMute (emailResult w subject body).
Proof. unfold emailResult, log_Println, emit. frame_mute. Qed.

Lemma sendWebHook_mute w score label image :
  preserves sameMute (sendWebHook w score label image).
Proof. unfold sendWebHook, log_Println, emit. frame_mute. Qed.

Lemma dispatchDetected_mute w p : preserves sameMute (dispatchDetected w p).
Proof.
  unfold dispatchDetected. frame_mute; first [apply emailResult_mute | apply sendWebHook_mute].
Qed.

(** The fan-out of a detection hands a "Package Received!" mail to the
    dialer when a mail server is configured, and POSTs the result with the
    image in the buffer when a webhook is configured and the request can
    be built. *)
Lemma dispatchDetected_channels w p s :
  (nonEmpty (Server (Email (config s))) = true ->
   existsb (isMail "Package Received!") (new_events s (snd (dispatchDetected w p s))) = true) /\
  (nonEmpty (webhookURL (WebHook (config s))) = true ->
   is_finite (Score p) = true ->
   newRequestError w (webhookURL (WebHook (config s))) = None ->
   In (HttpPost (webhookURL (WebHook (config s))) (webHookBody (Score p) (DisplayName p) (buf s)))
      (new_events s (snd (dispatchDetected w p s)))).
Proof.
  unfold dispatchDetected, emailResult, sendWebHook, log_Println, emit, when,
    bind, gets, modify, ask, panic, ret.
  cbn.
  destruct (nonEmpty (Server (Email (config s)))); cbn;
    [destruct (smtp w (asked s) _ _); cbn|];
    (destruct (nonEmpty (webhookURL (WebHook (config s)))); cbn;
     [destruct (is_finite (Score p)); cbn;
      [destruct (newRequestError w (webhookURL (WebHook (config s)))); cbn;
       [|match goal with |- context [webhook w ?n ?u ?b] => destruct (webhook w n u b) end; cbn]
      |]|]);
    (split; [intros Hs | intros Hh Hf Hr]; try discriminate;
     (erewrite new_events_app; [|cbn; rewrite <- ?app_assoc; reflexivity]);
     cbn; auto).
Qed.

Lemma committed_events w p s :
  new_events s (committed w p s) =
  [PrintfResult (DisplayName p) (Score p) (Threshold (Vision (config s)))].
Proof. apply new_events_app. reflexivity. Qed.

Lemma new_events_trans s0 s1 s2 :
  grewBy (fun _ => True) s0 s1 -> grewBy (fun _ => True) s1 s2 ->
  new_events s0 s2 = (new_events s0 s1 ++ new_events s1 s2)%list.
Proof.
  intros (e1 & E1 & _) (e2 & E2 & _).
  rewrite (new_events_app _ _ _ E1), (new_events_app _ _ _ E2).
  apply new_events_app. rewrite E2, E1. now rewrite app_assoc.
Qed.

Lemma emailResult_grows w subject body :
  preserves (grewBy (fun _ => True)) (emailResult w subject body).
Proof. unfold emailResult, log_Println, emit. frame_events. Qed.

Lemma sendWebHook_grows w score label image :
  preserves (grewBy (fun _ => True)) (sendWebHook w score label image).
Proof. unfold sendWebHook, log_Println, emit. frame_events. Qed.

Lemma dispatchDetected_grows w p : preserves (grewBy (fun _ => True)) (dispatchDetected w p).
Proof.
  unfold dispatchDetected.
  frame_events; first [apply emailResult_grows | apply sendWebHook_grows].
Qed.

Lemma muted_events p s :
  new_events s (muted p s) =
  [PrintfResult (DisplayName p) (Score p) (Threshold (Vision (config s)))].
Proof. apply new_events_app. reflexivity. Qed.

(** What a detection does once the mute window is passed. *)
Lemma processResult_notifies w forceNotify p s :
  matched (config s) p = true ->
  After (clock w (asked s))
        (Add (lastNotificationSent s) (minutes (NotifyMuteMinutes (Run (config s))))) = true ->
  processResult w forceNotify p s = dispatchDetected w p (committed w p s) /\
  lastNotificationSent (snd (processResult w forceNotify p s)) = clock w (S (asked s)) /\
  (nonEmpty (Server (Email (config s))) = true ->
   existsb (isMail "Package Received!")
           (new_events s (snd (processResult w forceNotify p s))) = true) /\
  (nonEmpty (webhookURL (WebHook (config s))) = true ->
   is_finite (Score p) = true ->
   newRequestError w (webhookURL (WebHook (config s))) = None ->
   In (HttpPost (webhookURL (WebHook (config s))) (webHookBody (Score p) (DisplayName p) (buf s)))
      (new_events s (snd (processResult w forceNotify p s)))).
Proof.
  intros Hm Ha.
  assert (E : processResult w forceNotify p s = dispatchDetected w p (committed w p s)).
  { rewrite (processResult_matched _ _ _ _ Hm), Ha. reflexivity. }
  rewrite E.
  assert (En : new_events s (snd (dispatchDetected w p (committed w p s))) =
               (new_events s (committed w p s) ++
                new_events (committed w p s) (snd (dispatchDetected w p (committed w p s))))%list).
  { apply new_events_trans; [|apply dispatchDetected_grows].
    eexists. split; [reflexivity | repeat constructor]. }
  destruct (dispatchDetected_channels w p (committed w p s)) as [Hmail Hhook].
  change (config (committed w p s)) with (config s) in *.
  change (buf (committed w p s)) with (buf s) in *.
  split; [reflexivity|].
  split; [apply (dispatchDetected_mute w p (committed w p s))|].
  rewrite En. split.
  - intros Hs. rewrite existsb_app, (Hmail Hs). apply orb_true_r.
  - intros Hh Hf Hr. apply in_or_app. right. auto.
Qed.

(** What a detection does inside the mute window: it is logged. *)
Lemma processResult_muted w forceNotify p s :
  matched (config s) p = true ->
  After (clock w (asked s))
        (Add (lastNotificationSent s) (minutes (NotifyMuteMinutes (Run (config s))))) = false ->
  processResult w forceNotify p s = (Returned tt, muted p s) /\
  lastNotificationSent (snd (processResult w forceNotify p s)) = lastNotificationSent s /\
  existsb isDispatch (new_events s (snd (processResult w forceNotify p s))) = false.
Proof.
  intros Hm Ha.
  rewrite (processResult_matched _ _ _ _ Hm), Ha. cbn [snd].
  rewrite muted_events. repeat split.
Qed.

Lemma grewBy_weaken (Q Q' : event -> Prop) s s' :
  (forall e, Q e -> Q' e) -> grewBy Q s s' -> grewBy Q' s s'.
Proof.
  intros H (evs & E & F). exists evs. split; [exact E|].
  eapply Forall_impl; [|exact F]. exact H.
Qed.

Lemma processResult_grows w forceNotify p :
  preserves (grewBy (fun _ => True)) (processResult w forceNotify p).
Proof.
  intros s. eapply grewBy_weaken; [|apply processResult_events]. auto.
Qed.

Lemma forEach_grows w forceNotify l :
  preserves (grewBy (fun _ => True)) (forEach (processResult w forceNotify) l).
Proof.
  apply (preserves_forEach _ (grewBy_refl _) (grewBy_trans _)).
  apply processResult_grows.
Qed.

(** *** The result within its cycle *)

Lemma forEach_app {A : Type} (body : A -> M unit) (l1 l2 : list A) (s : machine) :
  forEach body (l1 ++ l2) s = bind (forEach body l1) (fun _ => forEach body l2) s.
Proof.
  revert s. induction l1 as [|x l1 IH]; intros s; cbn [forEach app].
  - reflexivity.
  - unfold bind. destruct (body x s) as [[[]|err|] s1]; [|reflexivity..].
    rewrite IH. reflexivity.
Qed.

Lemma classifiedAs_config w s resp s4 : classifiedAs w s resp s4 -> config s4 = config s.
Proof.
  intros H. destruct H as [token s3 body resp Hp _ _ _].
  rewrite <- (prepared_config _ _ _ _ Hp).
  unfold afterCache, afterPost.
  destruct (nonEmpty _); reflexivity.
Qed.

Lemma classifiedAs_grows w s resp s4 :
  classifiedAs w s resp s4 -> grewBy (fun _ => True) s s4.
Proof.
  intros H. destruct H as [token s3 body resp Hp _ _ _].
  destruct (prepared_trace _ _ _ _ Hp) as (evs & E & _).
  unfold afterCache, afterPost.
  destruct (nonEmpty _); unfold grewBy; cbn; rewrite E, <- !app_assoc;
    eexists; (split; [reflexivity|]); apply Forall_forall; auto.
Qed.

Lemma mail_is_dispatch subject evs :
  existsb (isMail subject) evs = true -> existsb isDispatch evs = true.
Proof.
  intros H. apply existsb_exists in H. destruct H as (e & He & Hm).
  apply existsb_exists. exists e. split; [exact He|].
  destruct e; try discriminate. reflexivity.
Qed.

(** C1, for a mute period that fits a [time.Duration]. In a cycle whose
    pipeline succeeds, take a result [p] of the classification with the
    configured package label and a confidence above the threshold; [sp]
    is the state in which the loop reaches [p], after the results
    [before] it. The cycle runs the loop body on [p] from [sp] and then
    goes on with the results [after] it, and the events of the body are
    events of the cycle. If the clock reads strictly later than
    [lastNotificationSent] plus [NotifyMuteMinutes] minutes, the body
    stores the time (the next reading of the clock) in
    [lastNotificationSent] and dispatches the detection on every
    configured channel, a "Package Received!" mail and a webhook POST;
    otherwise it only logs the result, dispatches nothing and leaves
    [lastNotificationSent] alone: with a mail server configured it
    dispatches if and only if the window is passed. A process that never
    notified has the zero time there, so any clock reading later than
    year 1 plus the mute period notifies. *)
Theorem C1_mute_window
    (w : World) (forceNotify : bool) (s s4 sp : machine)
    (before after : list prediction) (p : prediction) :
  classifiedAs w s (before ++ p :: after)%list s4 ->
  forEach (processResult w forceNotify) before s4 = (Returned tt, sp) ->
  DisplayName p = PackageLabel (Vision (config s)) ->
  (float64 (Threshold (Vision (config s))) <? Score p * 100)%float = true ->
  int64_min <= NotifyMuteMinutes (Run (config s)) * Minute <= int64_max ->
  let now := clock w (asked sp) in
  let window := NotifyMuteMinutes (Run (config s)) * Minute in
  let sq := snd (processResult w forceNotify p sp) in
  let s' := snd (processImage w forceNotify s) in
  processImage w forceNotify s =
    bind (processResult w forceNotify p)
         (fun _ => forEach (processResult w forceNotify) after) sp /\
  (exists later, new_events s s' = (new_events s sp ++ new_events sp sq ++ later)%list) /\
  (instant (lastNotificationSent sp) + window < instant now ->
     processResult w forceNotify p sp = dispatchDetected w p (committed w p sp) /\
     lastNotificationSent sq = clock w (S (asked sp)) /\
     (nonEmpty (Server (Email (config s))) = true ->
        existsb (isMail "Package Received!") (new_events sp sq) = true) /\
     (nonEmpty (webhookURL (WebHook (config s))) = true ->
      is_finite (Score p) = true ->
      newRequestError w (webhookURL (WebHook (config s))) = None ->
        In (HttpPost (webhookURL (WebHook (config s)))
                     (webHookBody (Score p) (DisplayName p) (buf sp)))
           (new_events sp sq))) /\
  (instant now <= instant (lastNotificationSent sp) + window ->
     processResult w forceNotify p sp = (Returned tt, muted p sp) /\
     lastNotificationSent sq = lastNotificationSent sp /\
     existsb isDispatch (new_events sp sq) = false) /\
  (lastNotificationSent sp = zeroTime -> window < instant now ->
     processResult w forceNotify p sp = dispatchDetected w p (committed w p sp) /\
     lastNotificationSent sq = clock w (S (asked sp))) /\
  (nonEmpty (Server (Email (config s))) = true ->
     (existsb isDispatch (new_events sp sq) = true <->
      instant (lastNotificationSent sp) + window < instant now)).
Proof.
  intros Hcl Hbefore Hl Hc Hfit now window sq s'.
  assert (Hcfg : config sp = config s).
  { rewrite <- (classifiedAs_config _ _ _ _ Hcl).
    pose proof (preserves_forEach sameConfig sameConfig_refl sameConfig_trans
                  (processResult w forceNotify) before
                  (processResult_config w forceNotify) s4) as H.
    rewrite Hbefore in H. exact H. }
  assert (Hrun : processImage w forceNotify s =
                 bind (processResult w forceNotify p)
                      (fun _ => forEach (processResult w forceNotify) after) sp).
  { rewrite (processImage_classified _ forceNotify _ _ _ Hcl), forEach_app.
    unfold bind at 1. rewrite Hbefore. reflexivity. }
  assert (Hm : matched (config sp) p = true).
  { rewrite Hcfg. unfold matched. rewrite Hl, String.eqb_refl, Hc. reflexivity. }
  pose proof (After_Add_minutes now (lastNotificationSent sp) _ Hfit) as HA.
  fold window in HA.
  pose proof (processResult_notifies w forceNotify p sp Hm) as Hyes.
  pose proof (processResult_muted w forceNotify p sp Hm) as Hno.
  rewrite Hcfg in Hyes, Hno. fold now sq in Hyes, Hno.
  split; [exact Hrun|]. split; [|split; [|split; [|split]]].
  - assert (G1 : grewBy (fun _ => True) s sp).
    { apply (grewBy_trans _ _ s4); [exact (classifiedAs_grows _ _ _ _ Hcl)|].
      pose proof (forEach_grows w forceNotify before s4) as H.
      rewrite Hbefore in H. exact H. }
    assert (G2 : grewBy (fun _ => True) sp sq) by apply processResult_grows.
    assert (G3 : grewBy (fun _ => True) sq s').
    { unfold s'. rewrite Hrun. unfold bind. fold sq.
      destruct (processResult w forceNotify p sp) as [[[]|err|] s1] eqn:E;
        subst sq; cbn [snd]; [apply forEach_grows | apply grewBy_refl..]. }
    exists (new_events sq s').
    rewrite <- (new_events_trans sp sq s' G2 G3).
    apply new_events_trans; [exact G1 | exact (grewBy_trans _ _ _ _ G2 G3)].
  - intros Hlt. apply Hyes, HA, Hlt.
  - intros Hle. apply Hno.
    apply not_true_is_false. intros Ht. apply HA in Ht. lia.
  - intros Hz Hlt.
    destruct Hyes as (E & El & _).
    + apply HA. rewrite Hz. cbn. exact Hlt.
    + split; assumption.
  - intros Hs. split.
    + intros Hd. destruct (Z.lt_ge_cases (instant (lastNotificationSent sp) + window)
                                        (instant now)) as [Hlt|Hge]; [exact Hlt|].
      destruct Hno as (_ & _ & Hnone).
      * apply not_true_is_false. intros Ht. apply HA in Ht. lia.
      * congruence.
    + intros Hlt. destruct Hyes as (_ & _ & Hmail & _); [apply HA, Hlt|].
      exact (mail_is_dispatch _ _ (Hmail Hs)).
Qed.

(** The example of the mute window, with the sample configuration (60
    minutes, threshold 75, label "package") and a result of confidence
    0.80: the cycle at noon, never having notified, notifies and stores
    noon; the cycle 30 minutes later dispatches nothing; the cycle 61
    minutes later notifies again. The same with the three cycles run one
    after the other: two dispatches, none, two. *)
Lemma C1_mute_window_witness :
  let w := calmWorld threeCycles [package 0.8] in
  let cycle := fun s => snd (processImage w false s) in
  (lastNotificationSent (cycle (running sampleConfig zeroTime 0)) = noon /\
   existsb (isMail "Package Received!")
     (new_events (running sampleConfig zeroTime 0)
        (cycle (running sampleConfig zeroTime 0))) = true) /\
  (lastNotificationSent (cycle (running sampleConfig noon 7)) = noon /\
   existsb isDispatch
     (new_events (running sampleConfig noon 7) (cycle (running sampleConfig noon 7))) = false) /\
  (lastNotificationSent (cycle (running sampleConfig noon 11)) = noonPlus 61 /\
   existsb (isMail "Package Received!")
     (new_events (running sampleConfig noon 11)
        (cycle (running sampleConfig noon 11))) = true) /\
  map (fun s => (List.length (filter isDispatch (trace s)), lastNotificationSent s))
    [cycle (running sampleConfig zeroTime 0);
     cycle (cycle (running sampleConfig zeroTime 0));
     cycle (cycle (cycle (running sampleConfig zeroTime 0)))] =
  [(2%nat, noon); (2%nat, noon); (4%nat, noonPlus 61)].
Proof.
  intros w cycle.
  assert (Hfit : int64_min <= NotifyMuteMinutes (Run sampleConfig) * Minute <= int64_max).
  { vm_compute. split; discriminate. }
  assert (Hcl : forall sent n,
             classifiedAs w (running sampleConfig sent n) ([] ++ [package 0.8])%list
               (afterCache w (afterPost "ya29.token"
                  (set_buf croppedBytes
                     (cropping (afterFetch jpegBytes (running sampleConfig sent n))))))).
  { intros sent n.
    exact (classified_ok w (running sampleConfig sent n) "ya29.token" _ [] [package 0.8]
             (prepared_cropped w (running sampleConfig sent n) "ya29.token" jpegBytes
                croppedBytes eq_refl eq_refl eq_refl eq_refl)
             eq_refl eq_refl eq_refl). }
  split; [|split; [|split]].
  - destruct (C1_mute_window w false _ _ _ [] [] (package 0.8) (Hcl zeroTime 0%nat)
                eq_refl eq_refl eq_refl Hfit)
      as (Hrun & (later & Hev) & Hpass & _).
    destruct Hpass as (Hbody & _ & Hmail & _); [reflexivity|].
    unfold cycle. split.
    + rewrite Hrun. unfold bind. rewrite Hbody. reflexivity.
    + rewrite Hev, !existsb_app, (Hmail eq_refl). now rewrite orb_true_r.
  - destruct (C1_mute_window w false _ _ _ [] [] (package 0.8) (Hcl noon 7%nat)
                eq_refl eq_refl eq_refl Hfit)
      as (Hrun & _ & _ & Hmute & _).
    destruct Hmute as (Hbody & Hlast & _); [vm_compute; discriminate|].
    unfold cycle. rewrite Hrun. unfold bind. rewrite Hbody. split; reflexivity.
  - destruct (C1_mute_window w false _ _ _ [] [] (package 0.8) (Hcl noon 11%nat)
                eq_refl eq_refl eq_refl Hfit)
      as (Hrun & (later & Hev) & Hpass & _).
    destruct Hpass as (Hbody & _ & Hmail & _); [reflexivity|].
    unfold cycle. split.
    + rewrite Hrun. unfold bind. rewrite Hbody. reflexivity.
    + rewrite Hev, !existsb_app, (Hmail eq_refl). now rewrite orb_true_r.
  - vm_compute. reflexivity.
Defined.

(** C1, against the unconditional reading: [NotifyMuteMinutes] is
    multiplied by [time.Minute] in an [int64], and 153722868 minutes is
    the first mute period whose product wraps around, to a negative
    duration. With it, a cycle 30 minutes after the last notification, far
    inside the mute period, finds the clock after the wrapped window and
    notifies again. *)
Lemma C1_mute_period_wraps_around :
  let w := calmWorld (fun _ => noonPlus 30) [package 0.8] in
  let s := running (withMuteMinutes 153722868 sampleConfig) noon 7 in
  let s' := snd (processImage w false s) in
  matched (config s) (package 0.8) = true /\
  lastNotificationSent s = noon /\
  clock w (asked s + 3) = noonPlus 30 /\
  instant (noonPlus 30) <= instant noon + 153722868 * Minute /\
  minutes 153722868 = -9223371993709551616 /\
  filter isDispatch (new_events s s') =
    [DialAndSend
       {| dialHost := "smtp.example.com"; dialPort := 587;
          dialUser := "jane"; dialPass := "secret" |}
       {| msgFrom := "john@example.com"; msgTo := Some "tom@example.com";
          msgSubject := "Package Received!";
          msgBody := "A new package delivery was detected."; msgEmbed := "img.jpeg" |};
     HttpPost "http://www.example.com/test" (webHookBody 0.8 "package" croppedBytes)] /\
  lastNotificationSent s' = noonPlus 30.
Proof.
  intros w s s'.
  split; [reflexivity|]. split; [reflexivity|]. split; [reflexivity|].
  split; [vm_compute; discriminate|].
  split; [reflexivity|]. split; [reflexivity|]. reflexivity.
Qed.

(** ** The mute state across dispatches *)

Lemma quiet_refl s : quiet s s.
Proof. split; [lia | reflexivity]. Qed.

Lemma quiet_trans s1 s2 s3 : quiet s1 s2 -> quiet s2 s3 -> quiet s1 s3.
Proof. unfold quiet. intros [A1 B1] [A2 B2]. split; [lia | congruence]. Qed.

Lemma recommits_refl w s : recommits w s s.
Proof. split; [lia | now left]. Qed.

Lemma recommits_trans w s1 s2 s3 : recommits w s1 s2 -> recommits w s2 s3 -> recommits w s1 s3.
Proof.
  intros [A1 B1] [A2 B2]. split; [lia|].
  destruct B2 as [E2 | (n & Hn & E2)].
  - rewrite E2. destruct B1 as [E1 | (n & Hn & E1)]; [now left|].
    right. exists n. split; [lia | exact E1].
  - right. exists n. split; [lia | exact E2].
Qed.

Lemma quiet_recommits w s s' : quiet s s' -> recommits w s s'.
Proof. intros [A B]. split; [exact A | now left]. Qed.

Ltac frame_quiet :=
  frame_with quiet_refl quiet_trans;
  try (split; [cbn; lia | reflexivity]).

Lemma emailResult_quiet w subject body : preserves quiet (emailResult w subject body).
Proof. unfold emailResult, log_Println, emit. frame_quiet. Qed.

Lemma sendWebHook_quiet w score label image :
  preserves quiet (sendWebHook w score label image).
Proof. unfold sendWebHook, log_Println, emit. frame_quiet. Qed.

Lemma dispatchDetected_quiet w p : preserves quiet (dispatchDetected w p).
Proof.
  unfold dispatchDetected.
  frame_quiet; first [apply emailResult_quiet | apply sendWebHook_quiet].
Qed.

Lemma dispatchForced_quiet w p : preserves quiet (dispatchForced w p).
Proof.
  unfold dispatchForced.
  frame_quiet; first [apply emailResult_quiet | apply sendWebHook_quiet].
Qed.

(** A result that does not match is logged; a restart notice goes out for
    it when [forceNotify] is set. *)
Lemma processResult_unmatched w forceNotify p s :
  matched (config s) p = false ->
  processResult w forceNotify p s =
  if forceNotify then dispatchForced w p (resultLogged p s)
  else (Returned tt, resultLogged p s).
Proof.
  intros Hm. unfold processResult, dispatchForced, emit, bind, gets, modify, ret.
  cbn. rewrite Hm.
  destruct forceNotify; reflexivity.
Qed.

Lemma processResult_recommits w forceNotify p :
  preserves (recommits w) (processResult w forceNotify p).
Proof.
  intros s. destruct (matched (config s) p) eqn:Hm.
  - rewrite (processResult_matched _ _ _ _ Hm).
    destruct (After _ _).
    + destruct (dispatchDetected_quiet w p (committed w p s)) as [Ha Hl].
      change (asked (committed w p s)) with (S (S (asked s))) in Ha.
      split; [lia|].
      right. exists (S (asked s)). split; [lia|]. rewrite Hl. reflexivity.
    + apply quiet_recommits. split; [cbn; lia | reflexivity].
  - rewrite (processResult_unmatched _ _ _ _ Hm).
    apply quiet_recommits. destruct forceNotify.
    + apply (quiet_trans _ (resultLogged p s)); [split; [cbn; lia | reflexivity]|].
      apply dispatchForced_quiet.
    + split; [cbn; lia | reflexivity].
Qed.

(** C7. When a detection passes the mute window, the assignment to
    [lastNotificationSent] comes before the channels: the fan-out starts
    in a state that already holds the new time, and up to there nothing
    was dispatched. No channel writes the mute state, so after the loop
    body it holds the committed time however the sends went, also when a
    send panics, and in any world that shows the same clock; the rest of
    the cycle leaves it or stores a clock reading taken later. *)
Theorem C7_mute_state_committed_before_dispatch
    (w w2 : World) (forceNotify : bool) (p : prediction) (s : machine) :
  matched (config s) p = true ->
  After (clock w (asked s))
        (Add (lastNotificationSent s) (minutes (NotifyMuteMinutes (Run (config s))))) = true ->
  processResult w forceNotify p s = dispatchDetected w p (committed w p s) /\
  lastNotificationSent (committed w p s) = clock w (S (asked s)) /\
  existsb isDispatch (new_events s (committed w p s)) = false /\
  (forall s1,
     lastNotificationSent (snd (dispatchDetected w p s1)) = lastNotificationSent s1) /\
  lastNotificationSent (snd (processResult w forceNotify p s)) = clock w (S (asked s)) /\
  (clock w2 (asked s) = clock w (asked s) ->
   clock w2 (S (asked s)) = clock w (S (asked s)) ->
   lastNotificationSent (snd (processResult w2 forceNotify p s)) =
   lastNotificationSent (snd (processResult w forceNotify p s))) /\
  (forall rest,
     lastNotificationSent
       (snd (forEach (processResult w forceNotify) rest
               (snd (processResult w forceNotify p s)))) = clock w (S (asked s)) \/
     exists n, (S (asked s) < n)%nat /\
       lastNotificationSent
         (snd (forEach (processResult w forceNotify) rest
                 (snd (processResult w forceNotify p s)))) = clock w n).
Proof.
  intros Hm Ha.
  destruct (processResult_notifies w forceNotify p s Hm Ha) as (E & El & _).
  split; [exact E|].
  split; [reflexivity|].
  split; [rewrite committed_events; reflexivity|].
  split; [intros s1; apply (dispatchDetected_mute w p s1)|].
  split; [exact El|].
  split.
  - intros E1 E2.
    destruct (processResult_notifies w2 forceNotify p s Hm) as (_ & El2 & _).
    + rewrite E1. exact Ha.
    + rewrite El2, El. exact E2.
  - intros rest.
    destruct (preserves_forEach _ (recommits_refl w) (recommits_trans w)
                (processResult w forceNotify) rest (processResult_recommits w forceNotify)
                (snd (processResult w forceNotify p s))) as [Hle [Hsame | (n & Hn & Hlast)]].
    + left. rewrite Hsame. exact El.
    + right. exists n. split; [|exact Hlast].
      destruct (dispatchDetected_quiet w p (committed w p s)) as [Hq _].
      rewrite <- E in Hq.
      change (asked (committed w p s)) with (S (S (asked s))) in Hq. lia.
Qed.

(** A detection at noon with pd.yaml while the SMTP server times out and
    the webhook endpoint refuses the connection: the loop body panics, and
    [lastNotificationSent] is noon all the same, as in the calm world. *)
Lemma C7_mute_state_committed_before_dispatch_witness :
  fst (processResult
         (worldWith threeCycles [package 0.8] (Some "dial tcp: i/o timeout")
                    (inl "connection refused"))
         false (package 0.8) (running sampleConfig zeroTime 3)) =
    Panicked "connection refused" /\
  lastNotificationSent
    (snd (processResult
            (worldWith threeCycles [package 0.8] (Some "dial tcp: i/o timeout")
                       (inl "connection refused"))
            false (package 0.8) (running sampleConfig zeroTime 3))) = noon /\
  lastNotificationSent
    (snd (processResult (calmWorld threeCycles [package 0.8])
            false (package 0.8) (running sampleConfig zeroTime 3))) = noon.
Proof.
  destruct (C7_mute_state_committed_before_dispatch
              (worldWith threeCycles [package 0.8] (Some "dial tcp: i/o timeout")
                         (inl "connection refused"))
              (calmWorld threeCycles [package 0.8])
              false (package 0.8) (running sampleConfig zeroTime 3) eq_refl eq_refl)
    as (_ & _ & _ & _ & Hl & Hsame & _).
  split; [reflexivity|].
  split; [exact Hl|].
  rewrite (Hsame eq_refl eq_refl). exact Hl.
Defined.

(** ** The threshold comparison (binary64) *)

Lemma finite_compare_Eq ea eb ma mb :
  match (ea ?= eb) with Lt => Lt | Gt => Gt | Eq => Pos.compare_cont Eq ma mb end = Eq ->
  ea = eb /\ ma = mb.
Proof.
  destruct (Z.compare_spec ea eb) as [E|L|G]; try discriminate.
  intros C. apply Pos.compare_eq in C. now split.
Qed.

Lemma finite_compare_Eq_opp ea eb ma mb :
  match (ea ?= eb) with Lt => Gt | Gt => Lt | Eq => CompOpp (Pos.compare_cont Eq ma mb) end = Eq ->
  ea = eb /\ ma = mb.
Proof.
  destruct (Z.compare_spec ea eb) as [E|L|G]; try discriminate.
  intros C. destruct (Pos.compare_cont Eq ma mb) eqn:D; try discriminate.
  apply Pos.compare_eq in D. now split.
Qed.

Lemma SFcompare_Eq_sym a b : SFcompare a b = Some Eq -> SFcompare b a = Some Eq.
Proof.
  destruct a as [sa|sa| |sa ma ea], b as [sb|sb| |sb mb eb]; cbn;
    try discriminate; auto;
    try (destruct sa; discriminate); try (destruct sb; discriminate).
  - destruct sa, sb; try discriminate; auto.
  - destruct sa, sb; try discriminate; intros H; injection H as H.
    + apply finite_compare_Eq_opp in H. destruct H; subst.
      rewrite Z.compare_refl.
      change (Pos.compare_cont Eq mb mb) with (Pos.compare mb mb). now rewrite Pos.compare_refl.
    + apply finite_compare_Eq in H. destruct H; subst.
      rewrite Z.compare_refl.
      change (Pos.compare_cont Eq mb mb) with (Pos.compare mb mb). now rewrite Pos.compare_refl.
Qed.

(** Two numbers that compare equal are not one below the other. *)
Lemma eqb_not_ltb (x y : float) : (x =? y)%float = true -> (y <? x)%float = false.
Proof.
  rewrite eqb_spec, ltb_spec. unfold SFeqb, SFltb.
  destruct (SFcompare (Prim2SF x) (Prim2SF y)) as [[| |]|] eqn:C; try discriminate.
  intros _. rewrite (SFcompare_Eq_sym _ _ C). reflexivity.
Qed.

(** A number that compares equal to a finite nonzero one is that number. *)
Lemma eqb_finite (x y : float) s m e :
  Prim2SF y = S754_finite s m e -> (x =? y)%float = true -> x = y.
Proof.
  intros Hy. rewrite eqb_spec. unfold SFeqb. intros H.
  apply Prim2SF_inj. rewrite Hy in *.
  destruct (Prim2SF x) as [sa|sa| |sa ma ea]; cbn in H; try discriminate;
    destruct sa, s; cbn in H; try discriminate.
  - destruct (match ea ?= e with Lt => Gt | Gt => Lt | Eq => CompOpp (Pos.compare_cont Eq ma m) end)
      eqn:C; try discriminate.
    apply finite_compare_Eq_opp in C. destruct C; subst; reflexivity.
  - destruct (match ea ?= e with Lt => Lt | Gt => Gt | Eq => Pos.compare_cont Eq ma m end)
      eqn:C; try discriminate.
    apply finite_compare_Eq in C. destruct C; subst; reflexivity.
Qed.

Lemma aboveByHundredth_percent : forallb aboveByHundredth (map Z.of_nat (seq 0 101)) = true.
Proof. vm_compute. reflexivity. Qed.

Lemma aboveByHundredth_ok (t : Z) : 0 <= t <= 100 -> aboveByHundredth t = true.
Proof.
  intros Ht. pose proof aboveByHundredth_percent as H.
  rewrite forallb_forall in H. apply H.
  apply in_map_iff. exists (Z.to_nat t). split; [lia|].
  apply in_seq. lia.
Qed.

(** C5. For a result with the target label, the match is exactly the
    strict binary64 comparison [float64(Threshold) < Score * 100]. A
    product equal to the threshold does not match, and the loop body then
    only logs the result (without [forceNotify] nothing is dispatched);
    for a threshold between 0 and 100 a product equal to the threshold
    plus 0.01 matches, and the detection goes out once the mute window is
    passed. *)
Theorem C5_threshold_is_strict (w : World) (p : prediction) (s : machine) :
  DisplayName p = PackageLabel (Vision (config s)) ->
  (matched (config s) p = true <->
     (float64 (Threshold (Vision (config s))) <? Score p * 100)%float = true) /\
  ((Score p * 100 =? float64 (Threshold (Vision (config s))))%float = true ->
     matched (config s) p = false /\
     processResult w false p s = (Returned tt, resultLogged p s) /\
     existsb isDispatch (new_events s (snd (processResult w false p s))) = false) /\
  (0 <= Threshold (Vision (config s)) <= 100 ->
   (Score p * 100 =? float64 (Threshold (Vision (config s))) + 0.01)%float = true ->
     matched (config s) p = true /\
     (After (clock w (asked s))
            (Add (lastNotificationSent s) (minutes (NotifyMuteMinutes (Run (config s))))) = true ->
      processResult w false p s = dispatchDetected w p (committed w p s))).
Proof.
  intros Hl.
  assert (Hiff : matched (config s) p =
                 (float64 (Threshold (Vision (config s))) <? Score p * 100)%float).
  { unfold matched. rewrite Hl, String.eqb_refl. reflexivity. }
  split; [rewrite Hiff; reflexivity|].
  split.
  - intros Heq. apply eqb_not_ltb in Heq.
    assert (Hm : matched (config s) p = false) by (rewrite Hiff; exact Heq).
    split; [exact Hm|].
    rewrite (processResult_unmatched _ _ _ _ Hm).
    split; [reflexivity|].
    cbn [snd]. erewrite new_events_app; [|reflexivity]. reflexivity.
  - intros Ht Heq.
    pose proof (aboveByHundredth_ok _ Ht) as Hab.
    unfold aboveByHundredth in Hab. apply andb_true_iff in Hab. destruct Hab as [Hlt Hfin].
    destruct (Prim2SF (float64 (Threshold (Vision (config s))) + 0.01)%float)
      as [| | |sg m e] eqn:Hsf; try discriminate.
    apply (eqb_finite _ _ _ _ _ Hsf) in Heq.
    assert (Hm : matched (config s) p = true) by (rewrite Hiff, Heq; exact Hlt).
    split; [exact Hm|].
    intros Ha. apply (processResult_notifies w false p s Hm Ha).
Qed.

(** With pd.yaml's threshold of 75 and the label "package": the score
    0.75 gives the product 75 and does not match; the score 0.7501 gives
    75.01 (the binary64 number nearest to it) and matches. *)
Lemma C5_threshold_is_strict_witness :
  (0.75 * 100 =? float64 75)%float = true /\
  matched sampleConfig (package 0.75) = false /\
  (0.7501 * 100 =? float64 75 + 0.01)%float = true /\
  matched sampleConfig (package 0.7501) = true.
Proof.
  split; [reflexivity|].
  split.
  - apply (C5_threshold_is_strict (calmWorld threeCycles []) (package 0.75)
             (running sampleConfig zeroTime 3) eq_refl).
    reflexivity.
  - split; [reflexivity|].
    apply (C5_threshold_is_strict (calmWorld threeCycles []) (package 0.7501)
             (running sampleConfig zeroTime 3) eq_refl).
    + vm_compute. split; discriminate.
    + reflexivity.
Defined.

(** ** How the channels end *)

(** [emailResult] always returns: a failed send is logged. *)
Lemma emailResult_returns w subject body s :
  fst (emailResult w subject body s) = Returned tt.
Proof.
  unfold emailResult, log_Println, emit, bind, gets, modify, ask, ret. cbn.
  destruct (smtp w (asked s) _ _); reflexivity.
Qed.

(** [sendWebHook] panics exactly when the POST fails in transport. *)
Lemma sendWebHook_panics w score label image s err :
  fst (sendWebHook w score label image s) = Panicked err <->
  is_finite score = true /\
  newRequestError w (webhookURL (WebHook (config s))) = None /\
  webhook w (asked s) (webhookURL (WebHook (config s))) (webHookBody score label image) = inl err.
Proof.
  unfold sendWebHook, log_Println, emit, bind, gets, modify, ask, panic, ret. cbn.
  destruct (is_finite score); cbn; [|split; [discriminate | intros (H & _); discriminate]].
  destruct (newRequestError w (webhookURL (WebHook (config s)))); cbn;
    [split; [discriminate | intros (_ & H & _); discriminate]|].
  destruct (webhook w (asked s) _ _) as [e|status]; cbn.
  - split.
    + intros H. injection H as ->. auto.
    + intros (_ & _ & H). injection H as ->. reflexivity.
  - split; [discriminate | intros (_ & _ & H); discriminate].
Qed.

(** ** Restart notices and the channels, on pd.yaml *)

(** C3. The restart notice is sent from inside the loop over the
    classification results. Starting with the sample configuration
    ([notifyonstart: true],
    mail and webhook configured): when the service returns no result the
    startup cycle completes and dispatches nothing; when it returns two
    results that are not packages, two "Package Monitor Restarted." mails
    and two webhook POSTs go out; when it returns a package above the
    threshold, the detection goes out and no restart notice. So the
    number of restart notices of a forced cycle is the number of
    non-matching results, not one. *)
Theorem C3_restart_notice_per_result :
  fst (startup (calmWorld threeCycles []) (loaded sampleConfig)) = Returned tt /\
  filter isDispatch (trace (snd (startup (calmWorld threeCycles []) (loaded sampleConfig)))) = [] /\
  map (fun payload =>
         let s' := snd (startup (calmWorld threeCycles payload) (loaded sampleConfig)) in
         (List.length (filter (isMail "Package Monitor Restarted.") (trace s')),
          List.length (filter (isMail "Package Received!") (trace s')),
          List.length (filter isWebHookPost (trace s'))))
      [ [];
        [labelled "person" 0.9];
        [labelled "person" 0.9; labelled "dog" 0.6];
        [package 0.8];
        [package 0.8; labelled "person" 0.9] ]
  = [ (0, 0, 0); (1, 0, 1); (2, 0, 2); (0, 1, 1); (1, 1, 2) ]%nat.
Proof. vm_compute. repeat split. Qed.

(** C4. A failing mail does not stop the webhook: with the SMTP server
    down, the detection's mail is attempted, its error is logged, the
    webhook is POSTed and the cycle goes on to the next result. A webhook
    whose POST fails in transport is another matter: [sendWebHook] panics,
    so the cycle ends there with the panic, the second result is never
    looked at, and nothing is logged for the failure. *)
Theorem C4_webhook_transport_error_panics :
  (let run := startup (worldWith threeCycles [package 0.8; labelled "person" 0.9]
                         (Some "dial tcp: i/o timeout") (inr "200 OK"))
                      (loaded sampleConfig) in
   fst run = Returned tt /\
   List.length (filter isResultLog (trace (snd run))) = 2%nat /\
   List.length (filter isWebHookPost (trace (snd run))) = 2%nat /\
   In (Println ["dial tcp: i/o timeout"]) (trace (snd run))) /\
  (let run := startup (worldWith threeCycles [package 0.8; labelled "person" 0.9]
                         None (inl "connection refused"))
                      (loaded sampleConfig) in
   fst run = Panicked "connection refused" /\
   List.length (filter isResultLog (trace (snd run))) = 1%nat /\
   last (trace (snd run)) (Println []) =
     HttpPost "http://www.example.com/test" (webHookBody 0.8 "package" croppedBytes)).
Proof.
  split; cbv zeta; repeat split; try (vm_compute; reflexivity).
  vm_compute. auto 10.
Qed.

(** * Further properties of the program *)

(** ** Initialization *)

Lemma initialize_silent_or_fatal w s :
  (fst (initialize w s) = Returned tt /\ trace (snd (initialize w s)) = trace s) \/
  (fst (initialize w s) = Exited /\
   exists line, trace (snd (initialize w s)) = (trace s ++ [Println line])%list).
Proof.
  destruct (imageCfg_defaulted_rest (Image (config s))) as (Eu & Ea & Er).
  unfold initialize, imageCfg_initialize, visionCfg_initialize, emailCfg_initialize,
    webhookCfg_initialize, imageCfg_isCropSpecified, log_Fatal, emit, when,
    bind, gets, modify, ask, ret, os_Exit.
  cbn. rewrite Eu, Ea, Er.
  destruct (nonEmpty (ArchivePath (Image (config s)))); cbn;
    [destruct (notExist w (asked s) (ArchivePath (Image (config s)))); cbn|];
    try (right; split; [reflexivity | eexists; reflexivity]);
    (destruct (imageURL (Image (config s)) =? "")%string; cbn;
     try (right; split; [reflexivity | eexists; reflexivity]);
     destruct ((X1 (Rect (Image (config s))) >? 0) || (Y1 (Rect (Image (config s))) >? 0)
               || (X2 (Rect (Image (config s))) >? 0) || (Y2 (Rect (Image (config s))) >? 0));
     cbn;
     destruct ((AuthFile (Vision (config s)) =? "")%string
               || (visionURL (Vision (config s)) =? "")%string);
     cbn;
     first [ left; split; reflexivity
           | right; split; [reflexivity | eexists; reflexivity] ]).
Qed.

(** X1. The four [initialize] calls of [main] complete exactly when the
    archive path is empty or exists, and the image URL, the auth file and
    the vision URL are all set; they are then silent. Otherwise the
    process exits, having printed one line and nothing else: the missing
    archive path is reported first, then the missing image URL, then the
    missing vision settings. Initialization never panics. *)
Theorem X1_initialize_completes_or_exits (w : World) (s : machine) :
  (fst (initialize w s) = Returned tt <->
     (nonEmpty (ArchivePath (Image (config s))) = true ->
      notExist w (asked s) (ArchivePath (Image (config s))) = false) /\
     nonEmpty (imageURL (Image (config s))) = true /\
     nonEmpty (AuthFile (Vision (config s))) = true /\
     nonEmpty (visionURL (Vision (config s))) = true) /\
  (fst (initialize w s) = Returned tt -> new_events s (snd (initialize w s)) = []) /\
  (fst (initialize w s) <> Returned tt ->
     fst (initialize w s) = Exited /\
     new_events s (snd (initialize w s)) =
       [Println
          (if nonEmpty (ArchivePath (Image (config s))) &&
              notExist w (asked s) (ArchivePath (Image (config s)))
           then ["The specified ArchivePath does not exist."; ArchivePath (Image (config s))]
           else if nonEmpty (imageURL (Image (config s)))
           then ["Configuration must contain values for vision: authfile and vision: url"]
           else ["Please specify a valid imageURL in the configuration file."])]).
Proof.
  destruct (imageCfg_defaulted_rest (Image (config s))) as (Eu & Ea & Er).
  unfold new_events, initialize, imageCfg_initialize, visionCfg_initialize,
    emailCfg_initialize, webhookCfg_initialize, imageCfg_isCropSpecified, log_Fatal,
    emit, when, bind, gets, modify, ask, ret, os_Exit, nonEmpty.
  cbn. rewrite Eu, Ea, Er.
  destruct (ArchivePath (Image (config s)) =? "")%string; cbn;
    [|destruct (notExist w (asked s) (ArchivePath (Image (config s)))); cbn];
    (destruct (imageURL (Image (config s)) =? "")%string; cbn;
     destruct ((X1 (Rect (Image (config s))) >? 0) || (Y1 (Rect (Image (config s))) >? 0)
               || (X2 (Rect (Image (config s))) >? 0) || (Y2 (Rect (Image (config s))) >? 0));
     cbn;
     destruct (AuthFile (Vision (config s)) =? "")%string; cbn;
     destruct (visionURL (Vision (config s)) =? "")%string; cbn);
    (split; [split; [intros H; try discriminate; repeat split; auto;
                     intros; discriminate
                    | intros (H1 & H2 & H3 & H4);
                      try discriminate; try reflexivity;
                      try (specialize (H1 eq_refl); discriminate)]
            |split; [intros H; try discriminate;
                     rewrite ?skipn_all; reflexivity
                    |intros H;
                     first [ exfalso; apply H; reflexivity
                           | split; [reflexivity|];
                             rewrite skipn_app, skipn_all, Nat.sub_diag; reflexivity ]]]).
Qed.

(** A missing archive directory and a missing image URL: the archive is
    what gets reported. *)
Lemma X1_initialize_completes_or_exits_witness :
  fst (initialize (calmWorld (fun _ => noon) []) (loaded sampleConfig)) = Returned tt /\
  fst (initialize (calmWorld (fun _ => noon) []) (loaded emptyConfiguration)) = Exited /\
  new_events (loaded emptyConfiguration)
    (snd (initialize (calmWorld (fun _ => noon) []) (loaded emptyConfiguration))) =
    [Println ["Please specify a valid imageURL in the configuration file."]].
Proof.
  destruct (X1_initialize_completes_or_exits (calmWorld (fun _ => noon) [])
              (loaded sampleConfig)) as (Hiff & _ & _).
  destruct (X1_initialize_completes_or_exits (calmWorld (fun _ => noon) [])
              (loaded emptyConfiguration)) as (_ & _ & Hexit).
  split.
  - apply Hiff. repeat split; reflexivity.
  - apply Hexit. discriminate.
Defined.

(** ** Defaults and the mailer *)

Lemma emailResult_first_event w subject body s :
  exists rest,
    new_events s (snd (emailResult w subject body s)) =
    DialAndSend
      {| dialHost := Server (Email (config s)); dialPort := Port (Email (config s));
         dialUser := User (Email (config s)); dialPass := Pass (Email (config s)) |}
      {| msgFrom := From (Email (config s));
         msgTo := match To (Email (config s)) with
                  | [] => None
                  | _ => Some (last (To (Email (config s))) "")
                  end;
         msgSubject := subject; msgBody := body;
         msgEmbed := CacheFile (Image (config s)) |} :: rest /\
    (rest = [] \/ exists err, rest = [Println [err]]).
Proof.
  unfold emailResult, log_Println, emit, bind, gets, modify, ask, ret. cbn.
  destruct (smtp w (asked s) _ _) as [err|]; cbn.
  - eexists. split; [apply new_events_app; cbn; rewrite <- app_assoc; reflexivity|].
    right. eexists. reflexivity.
  - eexists. split; [apply new_events_app; reflexivity|]. now left.
Qed.

(** X2. The defaults of the [initialize] methods never reach the mailer:
    after initialization, whatever it did, [emailResult] dials the port
    that was loaded and embeds the cache file that was loaded. With the
    port left out of the configuration the mail is dialled on port 0, not
    587, and with the cache file left out the message embeds the file
    with the empty name, not "./img.jpg". *)
Theorem X2_defaults_never_reach_the_mailer
    (w : World) (subject body : string) (s : machine) :
  exists d m rest,
    new_events (snd (initialize w s))
      (snd (emailResult w subject body (snd (initialize w s)))) = DialAndSend d m :: rest /\
    dialPort d = Port (Email (config s)) /\
    msgEmbed m = CacheFile (Image (config s)) /\
    (Port (Email (config s)) = 0 -> dialPort d = 0) /\
    (CacheFile (Image (config s)) = "" -> msgEmbed m = "").
Proof.
  destruct (emailResult_first_event w subject body (snd (initialize w s))) as (rest & E & _).
  pose proof (initialize_config w s) as Ec. unfold sameConfig in Ec.
  rewrite Ec in E.
  eexists _, _, rest. split; [exact E|]. cbn.
  repeat split; auto.
Qed.

(** ** The recipients of a mail *)

Lemma SetHeader_To_fold (tos : list string) (m : header) :
  GetHeader "To" (fold_left (fun m to => SetHeader "To" [to] m) tos m) =
  match tos with
  | [] => GetHeader "To" m
  | _ => [last tos ""]
  end.
Proof.
  revert m. induction tos as [|to tos IH]; intros m; [reflexivity|].
  cbn [fold_left]. rewrite IH.
  destruct tos as [|to' tos]; reflexivity.
Qed.

Lemma SetHeader_other_fold (field : string) (tos : list string) (m : header) :
  (field =? "To")%string = false ->
  GetHeader field (fold_left (fun m to => SetHeader "To" [to] m) tos m) = GetHeader field m.
Proof.
  intros Hf. revert m. induction tos as [|to tos IH]; intros m; [reflexivity|].
  cbn [fold_left]. rewrite IH. unfold GetHeader, SetHeader. rewrite Hf. reflexivity.
Qed.

(** X3. [emailResult] sets the "To" header once per configured recipient,
    and each call replaces the header: the message is addressed to the
    last recipient of the list only (to nobody when the list is empty),
    and that is the recipient of the message handed to the dialer. The
    "From" and "Subject" headers are the configured sender and the given
    subject. *)
Theorem X3_mail_goes_to_the_last_recipient
    (w : World) (subject body : string) (s : machine) :
  GetHeader "To" (emailHeaders (Email (config s)) subject) =
    match To (Email (config s)) with
    | [] => []
    | _ => [last (To (Email (config s))) ""]
    end /\
  GetHeader "From" (emailHeaders (Email (config s)) subject) = [From (Email (config s))] /\
  GetHeader "Subject" (emailHeaders (Email (config s)) subject) = [subject] /\
  exists d m rest,
    new_events s (snd (emailResult w subject body s)) = DialAndSend d m :: rest /\
    msgTo m = hd_error (GetHeader "To" (emailHeaders (Email (config s)) subject)) /\
    [msgFrom m] = GetHeader "From" (emailHeaders (Email (config s)) subject) /\
    [msgSubject m] = GetHeader "Subject" (emailHeaders (Email (config s)) subject).
Proof.
  assert (HTo : GetHeader "To" (emailHeaders (Email (config s)) subject) =
                match To (Email (config s)) with
                | [] => []
                | _ => [last (To (Email (config s))) ""]
                end).
  { unfold emailHeaders.
    change (GetHeader "To" (SetHeader "Subject" [subject] ?m)) with (GetHeader "To" m).
    rewrite SetHeader_To_fold. destruct (To (Email (config s))); reflexivity. }
  assert (HFrom : GetHeader "From" (emailHeaders (Email (config s)) subject) =
                  [From (Email (config s))]).
  { unfold emailHeaders.
    change (GetHeader "From" (SetHeader "Subject" [subject] ?m)) with (GetHeader "From" m).
    rewrite SetHeader_other_fold by reflexivity. reflexivity. }
  split; [exact HTo|]. split; [exact HFrom|]. split; [reflexivity|].
  destruct (emailResult_first_event w subject body s) as (rest & E & _).
  eexists _, _, rest. split; [exact E|]. cbn [msgTo msgFrom msgSubject].
  rewrite HTo, HFrom. destruct (To (Email (config s))); repeat split.
Qed.

(** ** What a cycle never touches *)

Lemma sameSetup_refl s : sameSetup s s.
Proof. split; reflexivity. Qed.

Lemma sameSetup_trans s1 s2 s3 : sameSetup s1 s2 -> sameSetup s2 s3 -> sameSetup s1 s3.
Proof. unfold sameSetup. intros [A1 B1] [A2 B2]. split; congruence. Qed.

Ltac frame_setup :=
  frame_with sameSetup_refl sameSetup_trans; try (split; reflexivity).

Lemma processImage_setup w forceNotify : preserves sameSetup (processImage w forceNotify).
Proof.
  unfold processImage, getGoogleToken, fetchImage, cropImage, evaluateImageJSON,
    processResult, emailResult, sendWebHook, time_Now, log_Println, emit.
  frame_setup.
Qed.

Lemma run_select_setup w r0 signals : preserves sameSetup (run_select w r0 signals).
Proof.
  induction signals as [|[|] rest IH]; cbn [run_select].
  - apply (preserves_ret _ sameSetup_refl).
  - unfold time_Now. frame_setup; [apply processImage_setup | exact IH].
  - apply (preserves_ret _ sameSetup_refl).
Qed.

(** X4. No cycle touches the setup: after [processImage], after the motion
    callback and after any stretch of the ticker loop of [runCfg.run],
    however each of them ends, the configuration and the crop rectangle
    [r] are what they were. *)
Theorem X4_cycles_never_change_the_setup
    (w : World) (forceNotify : bool) (r0 : runCfg) (signals : list signal) (s : machine) :
  (config (snd (processImage w forceNotify s)) = config s /\
   r (snd (processImage w forceNotify s)) = r s) /\
  (config (snd (motionStopped w s)) = config s /\
   r (snd (motionStopped w s)) = r s) /\
  (config (snd (runCfg_run w r0 signals s)) = config s /\
   r (snd (runCfg_run w r0 signals s)) = r s).
Proof.
  split; [apply (processImage_setup w forceNotify s)|].
  split.
  - assert (H : preserves sameSetup (motionStopped w)).
    { unfold motionStopped, time_Now. frame_setup. apply processImage_setup. }
    apply (H s).
  - assert (H : preserves sameSetup (runCfg_run w r0 signals)).
    { unfold runCfg_run, run_wait, time_NewTicker.
      destruct (Interval r0 >? 0); [|frame_setup].
      frame_setup. apply run_select_setup. }
    apply (H s).
Qed.

(** ** Results that do not match *)

Lemma allLogged_config l s : config (allLogged l s) = config s.
Proof.
  revert s. induction l as [|p l IH]; intros s; [reflexivity|].
  cbn [allLogged fold_left]. fold (allLogged l (resultLogged p s)). now rewrite IH.
Qed.

Lemma allLogged_trace l s :
  trace (allLogged l s) =
  (trace s ++ map (fun p => PrintfResult (DisplayName p) (Score p)
                              (Threshold (Vision (config s)))) l)%list.
Proof.
  revert s. induction l as [|p l IH]; intros s.
  - cbn. now rewrite app_nil_r.
  - cbn [allLogged fold_left map]. fold (allLogged l (resultLogged p s)).
    rewrite IH. cbn. now rewrite <- app_assoc.
Qed.

Lemma allLogged_rest l s :
  lastNotificationSent (allLogged l s) = lastNotificationSent s /\
  asked (allLogged l s) = asked s /\ buf (allLogged l s) = buf s.
Proof.
  revert s. induction l as [|p l IH]; intros s; [repeat split|].
  cbn [allLogged fold_left]. fold (allLogged l (resultLogged p s)).
  destruct (IH (resultLogged p s)) as (A & B & C). repeat split; assumption.
Qed.

Lemma forEach_unmatched w l s :
  forallb (fun p => negb (matched (config s) p)) l = true ->
  forEach (processResult w false) l s = (Returned tt, allLogged l s).
Proof.
  revert s. induction l as [|p l IH]; intros s H; [reflexivity|].
  cbn [forallb] in H. apply andb_true_iff in H. destruct H as [Hp Hl].
  apply negb_true_iff in Hp.
  cbn [forEach]. unfold bind.
  rewrite (processResult_unmatched _ _ _ _ Hp).
  cbn [allLogged fold_left]. fold (allLogged l (resultLogged p s)).
  apply IH. exact Hl.
Qed.

(** X5. Without [forceNotify], a cycle whose results all fail the match
    (another label, or a confidence not above the threshold) only logs
    them: the loop returns normally, dispatches on no channel, does not
    even read the clock, and leaves [lastNotificationSent] and the buffer
    alone. The same holds for the whole cycle that reached the loop. *)
Theorem X5_unmatched_results_are_only_logged
    (w : World) (l : list prediction) (s : machine) :
  forallb (fun p => negb (matched (config s) p)) l = true ->
  forEach (processResult w false) l s = (Returned tt, allLogged l s) /\
  new_events s (allLogged l s) =
    map (fun p => PrintfResult (DisplayName p) (Score p) (Threshold (Vision (config s)))) l /\
  existsb isDispatch (new_events s (allLogged l s)) = false /\
  lastNotificationSent (allLogged l s) = lastNotificationSent s /\
  asked (allLogged l s) = asked s /\
  (forall s0, classifiedAs w s0 l s ->
     processImage w false s0 = (Returned tt, allLogged l s)).
Proof.
  intros H.
  pose proof (forEach_unmatched w l s H) as E.
  pose proof (new_events_app _ _ _ (allLogged_trace l s)) as En.
  destruct (allLogged_rest l s) as (Hl & Ha & _).
  split; [exact E|]. split; [exact En|]. split.
  - rewrite En. clear. induction l as [|p l IH]; [reflexivity | exact IH].
  - split; [exact Hl|]. split; [exact Ha|].
    intros s0 Hc. rewrite (processImage_classified _ _ _ _ _ Hc). exact E.
Qed.

(** At night the camera shows a person and a dog: two log lines. *)
Lemma X5_unmatched_results_are_only_logged_witness :
  forEach (processResult (calmWorld threeCycles []) false)
    [labelled "person" 0.9; labelled "dog" 0.6; package 0.75]
    (running sampleConfig zeroTime 3) =
  (Returned tt,
   allLogged [labelled "person" 0.9; labelled "dog" 0.6; package 0.75]
     (running sampleConfig zeroTime 3)) /\
  new_events (running sampleConfig zeroTime 3)
    (allLogged [labelled "person" 0.9; labelled "dog" 0.6; package 0.75]
       (running sampleConfig zeroTime 3)) =
  [PrintfResult "person" 0.9 75; PrintfResult "dog" 0.6 75; PrintfResult "package" 0.75 75].
Proof.
  destruct (X5_unmatched_results_are_only_logged (calmWorld threeCycles [])
              [labelled "person" 0.9; labelled "dog" 0.6; package 0.75]
              (running sampleConfig zeroTime 3) eq_refl) as (E & En & _).
  split; [exact E | exact En].
Defined.

(** ** Counting notifications *)

Lemma count_app f a b : count f (a ++ b) = (count f a + count f b)%nat.
Proof. unfold count. rewrite filter_app. apply length_app. Qed.

Lemma count_none f evs : Forall (fun e => f e = false) evs -> count f evs = 0%nat.
Proof.
  unfold count. induction 1 as [|e evs He _ IH]; [reflexivity|].
  cbn. rewrite He. exact IH.
Qed.

Lemma dispatchForced_grows w p : preserves (grewBy (fun _ => True)) (dispatchForced w p).
Proof.
  unfold dispatchForced.
  frame_events; first [apply emailResult_grows | apply sendWebHook_grows].
Qed.

(** The events of a loop are those of its first iteration followed by
    those of the rest. *)
Lemma forEach_cons_events w forceNotify p l s :
  new_events s (snd (forEach (processResult w forceNotify) (p :: l) s)) =
  (new_events s (snd (processResult w forceNotify p s)) ++
   match fst (processResult w forceNotify p s) with
   | Returned _ =>
       new_events (snd (processResult w forceNotify p s))
         (snd (forEach (processResult w forceNotify) l (snd (processResult w forceNotify p s))))
   | _ => []
   end)%list.
Proof.
  cbn [forEach]. unfold bind.
  destruct (processResult w forceNotify p s) as [[[]|err|] s1] eqn:E; cbn [fst snd].
  - apply new_events_trans.
    + replace s1 with (snd (processResult w forceNotify p s)) by (rewrite E; reflexivity).
      apply processResult_grows.
    + apply forEach_grows.
  - now rewrite app_nil_r.
  - now rewrite app_nil_r.
Qed.

Lemma sendWebHook_no_mail w score label image :
  preserves (grewBy (fun e => forall subject, isMail subject e = false))
            (sendWebHook w score label image).
Proof. unfold sendWebHook, log_Println, emit. frame_events. Qed.

(** The mails of a fan-out: one with its subject when a mail server is
    configured, none otherwise. *)
Lemma fanOut_mails w sub body p s subject :
  count (isMail subject) (new_events s (snd (fanOut w sub body p s))) =
  if nonEmpty (Server (Email (config s))) && (subject =? sub)%string
  then 1%nat else 0%nat.
Proof.
  unfold fanOut, when, bind at 1, gets. cbn [fst snd].
  destruct (nonEmpty (Server (Email (config s)))) eqn:Hs; cbn [andb].
  - unfold bind at 1.
    destruct (emailResult_first_event w sub body s) as (rest & E & Hrest).
    pose proof (emailResult_returns w sub body s) as Hret.
    pose proof (emailResult_config w sub body s) as Hc.
    destruct (emailResult w sub body s)
      as [o s1] eqn:Em. cbn [fst snd] in *. subst o.
    assert (Hg : grewBy (fun e => forall subject, isMail subject e = false) s1
                   (snd ((if nonEmpty (webhookURL (WebHook (config s)))
                          then bind (gets buf)
                                 (fun image => sendWebHook w (Score p) (DisplayName p) image)
                          else ret tt) s1))).
    { destruct (nonEmpty (webhookURL (WebHook (config s)))); [|apply grewBy_refl].
      assert (H : preserves (grewBy (fun e => forall subject, isMail subject e = false))
                    (bind (gets buf)
                       (fun image => sendWebHook w (Score p) (DisplayName p) image))).
      { frame_events. apply sendWebHook_no_mail. }
      apply H. }
    rewrite (new_events_trans s s1).
    + rewrite count_app, E.
      rewrite (count_none (isMail subject) (new_events s1 _)).
      * unfold count. cbn [filter isMail msgSubject]. rewrite String.eqb_sym.
        destruct (subject =? sub)%string;
          destruct Hrest as [-> | (err & ->)]; reflexivity.
      * apply grewBy_new_events in Hg. eapply Forall_impl; [|exact Hg]. auto.
    + replace s1 with (snd (emailResult w sub body s))
        by (rewrite Em; reflexivity).
      apply emailResult_grows.
    + eapply grewBy_weaken; [|exact Hg]. auto.
  - unfold bind at 1, ret. cbn [fst snd].
    apply count_none. apply grewBy_new_events.
    destruct (nonEmpty (webhookURL (WebHook (config s)))).
    + assert (H : preserves (grewBy (fun e => isMail subject e = false))
                    (bind (gets buf)
                       (fun image => sendWebHook w (Score p) (DisplayName p) image))).
      { frame_events. intros s0. eapply grewBy_weaken; [|apply sendWebHook_no_mail]. auto. }
      apply H.
    + apply grewBy_refl.
Qed.

Lemma dispatchDetected_mails w p s subject :
  count (isMail subject) (new_events s (snd (dispatchDetected w p s))) =
  if nonEmpty (Server (Email (config s))) && (subject =? "Package Received!")%string
  then 1%nat else 0%nat.
Proof. apply (fanOut_mails w "Package Received!" "A new package delivery was detected."). Qed.

Lemma dispatchForced_mails w p s subject :
  count (isMail subject) (new_events s (snd (dispatchForced w p s))) =
  if nonEmpty (Server (Email (config s))) && (subject =? "Package Monitor Restarted.")%string
  then 1%nat else 0%nat.
Proof.
  apply (fanOut_mails w "Package Monitor Restarted."
           "The Package Monitor server has restarted successfully.").
Qed.

(** The mails of one iteration of the loop. *)
Lemma processResult_mails w forceNotify p s subject :
  count (isMail subject) (new_events s (snd (processResult w forceNotify p s))) =
  if matched (config s) p then
    if After (clock w (asked s))
             (Add (lastNotificationSent s) (minutes (NotifyMuteMinutes (Run (config s)))))
    then if nonEmpty (Server (Email (config s))) && (subject =? "Package Received!")%string
         then 1%nat else 0%nat
    else 0%nat
  else if forceNotify
       then if nonEmpty (Server (Email (config s)))
               && (subject =? "Package Monitor Restarted.")%string
            then 1%nat else 0%nat
       else 0%nat.
Proof.
  destruct (matched (config s) p) eqn:Hm.
  - rewrite (processResult_matched _ _ _ _ Hm).
    destruct (After _ _).
    + rewrite (new_events_trans s (committed w p s)).
      * rewrite count_app, committed_events, dispatchDetected_mails. reflexivity.
      * eexists. split; [reflexivity | repeat constructor].
      * apply dispatchDetected_grows.
    + cbn [snd]. rewrite muted_events. reflexivity.
  - rewrite (processResult_unmatched _ _ _ _ Hm).
    destruct forceNotify.
    + rewrite (new_events_trans s (resultLogged p s)).
      * rewrite count_app, dispatchForced_mails.
        erewrite new_events_app; [|reflexivity]. reflexivity.
      * eexists. split; [reflexivity | repeat constructor].
      * apply dispatchForced_grows.
    + cbn [snd]. erewrite new_events_app; [|reflexivity]. reflexivity.
Qed.

Lemma forEach_returned_cons w forceNotify p l s :
  fst (forEach (processResult w forceNotify) (p :: l) s) = Returned tt ->
  fst (processResult w forceNotify p s) = Returned tt /\
  fst (forEach (processResult w forceNotify) l (snd (processResult w forceNotify p s))) =
    Returned tt.
Proof.
  cbn [forEach]. unfold bind.
  destruct (processResult w forceNotify p s) as [[[]|err|] s1]; cbn; intros H;
    try discriminate. split; [reflexivity | exact H].
Qed.

(** X6. With a mail server configured, a forced cycle whose loop runs to
    its end sends one "Package Monitor Restarted." mail for every result
    that fails the match: as many restart mails as there are such
    results, none for an empty result list. *)
Theorem X6_one_restart_mail_per_unmatched_result
    (w : World) (l : list prediction) (s : machine) :
  nonEmpty (Server (Email (config s))) = true ->
  fst (forEach (processResult w true) l s) = Returned tt ->
  count (isMail "Package Monitor Restarted.")
        (new_events s (snd (forEach (processResult w true) l s))) =
  List.length (filter (fun p => negb (matched (config s) p)) l).
Proof.
  revert s. induction l as [|p l IH]; intros s Hs Hret.
  - cbn [forEach ret snd]. rewrite (new_events_app s s []); [reflexivity | now rewrite app_nil_r].
  - destruct (forEach_returned_cons _ _ _ _ _ Hret) as [Hp Hl].
    pose proof (processResult_config w true p s) as Hc. unfold sameConfig in Hc.
    rewrite forEach_cons_events, Hp, count_app.
    rewrite IH; [|rewrite Hc; exact Hs | exact Hl].
    rewrite Hc, processResult_mails, Hs.
    cbn [filter]. destruct (matched (config s) p); cbn [negb].
    + destruct (After _ _); reflexivity.
    + reflexivity.
Qed.

(** On startup the camera shows a person, a package and a dog: two
    restart mails. *)
Lemma X6_one_restart_mail_per_unmatched_result_witness :
  count (isMail "Package Monitor Restarted.")
    (new_events (running mailOnly zeroTime 3)
       (snd (forEach (processResult (calmWorld threeCycles []) true)
               [labelled "person" 0.9; package 0.8; labelled "dog" 0.6]
               (running mailOnly zeroTime 3)))) = 2%nat.
Proof.
  apply (X6_one_restart_mail_per_unmatched_result (calmWorld threeCycles [])
           [labelled "person" 0.9; package 0.8; labelled "dog" 0.6]
           (running mailOnly zeroTime 3)); reflexivity.
Defined.

(** ** One detection per cycle *)





Section OncePerCycle.

Variable w : World.
Variable forceNotify : bool.
Variable cfg : configuration.
Variable n0 : nat.

(** The clock readings from question [n0] on lie within the mute period
    of each other. *)
Hypothesis within_mute :
  forall n m, (n0 <= n)%nat -> (n0 <= m)%nat ->
    instant (clock w m) <= instant (clock w n) + minutes (NotifyMuteMinutes (Run cfg)).

Variable f : event -> bool.

Hypothesis at_most_one :
  forall p s, (count f (new_events s (snd (processResult w forceNotify p s))) <= 1)%nat.

Hypothesis none_unless_detected :
  forall p s,
    matched (config s) p &&
    After (clock w (asked s))
          (Add (lastNotificationSent s) (minutes (NotifyMuteMinutes (Run (config s))))) = false ->
    count f (new_events s (snd (processResult w forceNotify p s))) = 0%nat.





End OncePerCycle.



(** ** The image buffer *)

(** X9. A cycle does not depend on what an earlier cycle left in the
    image buffer: started with any other buffer content it ends the same
    way, with the same events and the same mute state; and once the
    token is obtained the fetch has emptied the buffer, so the two runs
    end in the very same state. *)
Theorem X9_cycle_forgets_the_old_buffer
    (w : World) (forceNotify : bool) (b : list Byte.byte) (s : machine) :
  fst (processImage w forceNotify (set_buf b s)) = fst (processImage w forceNotify s) /\
  trace (snd (processImage w forceNotify (set_buf b s))) =
    trace (snd (processImage w forceNotify s)) /\
  lastNotificationSent (snd (processImage w forceNotify (set_buf b s))) =
    lastNotificationSent (snd (processImage w forceNotify s)) /\
  (snd (gcloud w (asked s) (AuthFile (Vision (config s)))) = None ->
   processImage w forceNotify (set_buf b s) = processImage w forceNotify s).
Proof.
  assert (H : (snd (gcloud w (asked s) (AuthFile (Vision (config s)))) = None ->
               processImage w forceNotify (set_buf b s) = processImage w forceNotify s) /\
              (snd (gcloud w (asked s) (AuthFile (Vision (config s)))) <> None ->
               fst (processImage w forceNotify (set_buf b s)) =
                 fst (processImage w forceNotify s) /\
               trace (snd (processImage w forceNotify (set_buf b s))) =
                 trace (snd (processImage w forceNotify s)) /\
               lastNotificationSent (snd (processImage w forceNotify (set_buf b s))) =
                 lastNotificationSent (snd (processImage w forceNotify s)))).
  { unfold processImage, getGoogleToken, fetchImage, log_Println, bind, gets, emit,
      modify, ask, ret.
    cbn [fst snd config r buf lastNotificationSent asked trace
         record_event next_question set_buf].
    destruct (gcloud w (asked s) (AuthFile (Vision (config s)))) as [out [e|]];
      cbn [fst snd config r buf lastNotificationSent asked trace
           record_event next_question set_buf].
    - split; [discriminate | intros _; repeat split].
    - split; [intros _; reflexivity | intros H; now exfalso; apply H]. }
  destruct H as [Hok Hfail].
  destruct (snd (gcloud w (asked s) (AuthFile (Vision (config s))))) eqn:E.
  - destruct Hfail as (A & B & C); [discriminate|].
    split; [exact A|]. split; [exact B|]. split; [exact C|]. discriminate.
  - rewrite (Hok eq_refl). split; [reflexivity|]. split; [reflexivity|].
    split; reflexivity.
Qed.

(** ** The image that is cached, mailed and posted *)

Lemma holding_refl cfg b s : holding cfg b s s.
Proof. intros Hc Hb. repeat split; try assumption. apply grewBy_refl. Qed.

Lemma holding_trans cfg b s1 s2 s3 :
  holding cfg b s1 s2 -> holding cfg b s2 s3 -> holding cfg b s1 s3.
Proof.
  intros H1 H2 Hc Hb. destruct (H1 Hc Hb) as (Hc2 & Hb2 & G1).
  destruct (H2 Hc2 Hb2) as (Hc3 & Hb3 & G2).
  repeat split; try assumption. eapply grewBy_trans; eassumption.
Qed.

Lemma holding_quiet_step cfg b s s' :
  config s' = config s -> buf s' = buf s -> trace s' = trace s -> holding cfg b s s'.
Proof.
  intros Ec Eb Et Hc Hb. repeat split; try congruence.
  apply grewBy_same_trace, Et.
Qed.

Lemma emailResult_holding cfg b w subject body :
  preserves (holding cfg b) (emailResult w subject body).
Proof.
  intros s Hc Hb.
  pose proof (emailResult_config w subject body s) as Ec. unfold sameConfig in Ec.
  destruct (emailResult_first_event w subject body s) as (rest & E & Hrest).
  assert (Et : trace (snd (emailResult w subject body s)) =
               (trace s ++ new_events s (snd (emailResult w subject body s)))%list).
  { destruct (emailResult_grows w subject body s) as (evs & Ev & _).
    now rewrite (new_events_app _ _ _ Ev). }
  split; [congruence|]. split.
  - unfold emailResult, log_Println, emit, bind, gets, modify, ask, ret. cbn.
    destruct (smtp w (asked s) _ _); exact Hb.
  - eexists. split; [exact Et|]. rewrite E.
    constructor; [cbn; now rewrite Hc|].
    destruct Hrest as [-> | (err & ->)]; repeat constructor.
Qed.

Lemma postBuffer_holding cfg b w score label :
  preserves (holding cfg b)
            (bind (gets buf) (fun image => sendWebHook w score label image)).
Proof.
  intros s Hc Hb.
  unfold sendWebHook, log_Println, emit, bind, gets, modify, ask, panic, ret. cbn.
  destruct (is_finite score); cbn;
    [destruct (newRequestError w (webhookURL (WebHook (config s)))); cbn;
     [|match goal with |- context [webhook w ?n ?u ?b] => destruct (webhook w n u b) end; cbn]
    |];
    (split; [exact Hc|]; split; [exact Hb|]);
    (eexists; split; [cbn; rewrite <- ?app_assoc; reflexivity|]);
    repeat constructor; exact Hb.
Qed.

(** One statement of a computation at a time, as [frame_with] does. *)
Ltac frame_step Hrefl Htrans :=
  match goal with
  | |- preserves _ (ret _) => apply (preserves_ret _ Hrefl)
  | |- preserves _ (gets _) => apply (preserves_gets _ Hrefl)
  | |- preserves _ (when _ _) => apply (preserves_when _ Hrefl)
  | |- preserves _ (bind _ _) => apply (preserves_bind _ Htrans); [|intro]
  | |- preserves _ (modify _) => apply preserves_modify; intro
  | |- preserves _ (ask _) => apply preserves_ask; intro
  | |- preserves _ (match ?x with _ => _ end) => destruct x
  end.

Lemma processResult_holding cfg b w forceNotify p :
  preserves (holding cfg b) (processResult w forceNotify p).
Proof.
  unfold processResult, time_Now, emit.
  repeat first
    [ apply emailResult_holding
    | apply postBuffer_holding
    | frame_step (holding_refl cfg b) (holding_trans cfg b) ];
    try (apply holding_quiet_step; reflexivity).
  intros Hc Hb. repeat split; try assumption.
  apply grewBy_event. exact I.
Qed.

(** X10. In a cycle that reaches the loop, one image goes everywhere: the
    bytes submitted to the vision service are the bytes written to the
    cache file, they are still in the buffer when the loop ends, every
    mail of the loop embeds that cache file and every webhook body holds
    those bytes. *)
Theorem X10_one_image_per_cycle
    (w : World) (forceNotify : bool) (s : machine) (resp : visionResponse) (s4 : machine) :
  classifiedAs w s resp s4 ->
  (exists token,
     In (HttpPost (visionURL (Vision (config s))) (visionRequest token (buf s4)))
        (new_events s s4)) /\
  In (WriteFile (CacheFile (Image (config s))) (buf s4)) (new_events s s4) /\
  buf (snd (processImage w forceNotify s)) = buf s4 /\
  Forall (carries (config s) (buf s4)) (new_events s4 (snd (processImage w forceNotify s))).
Proof.
  intros Hcl. rewrite (processImage_classified _ forceNotify _ _ _ Hcl).
  destruct Hcl as [token s3 body resp Hp Hr Hv Hj].
  pose proof (prepared_config _ _ _ _ Hp) as Ec.
  destruct (prepared_trace _ _ _ _ Hp) as (pre & Et & _).
  assert (Hb4 : buf (afterCache w (afterPost token s3)) = buf s3).
  { unfold afterCache. destruct (nonEmpty _); reflexivity. }
  assert (Hc4 : config (afterCache w (afterPost token s3)) = config s).
  { unfold afterCache. destruct (nonEmpty _); exact Ec. }
  assert (Hev : exists tail,
             new_events s (afterCache w (afterPost token s3)) =
             (pre ++ HttpPost (visionURL (Vision (config s))) (visionRequest token (buf s3))
                  :: WriteFile (CacheFile (Image (config s))) (buf s3) :: tail)%list).
  { unfold afterCache. cbn [config buf afterPost next_question record_event].
    rewrite Ec.
    destruct (nonEmpty (ArchivePath (Image (config s)))).
    - eexists. apply new_events_app. cbn.
      rewrite ?Ec, Et, <- !app_assoc. cbn [app]. reflexivity.
    - exists []. apply new_events_app. cbn.
      rewrite ?Ec, Et, <- !app_assoc. cbn [app]. reflexivity. }
  destruct Hev as (tail & Hev).
  destruct (preserves_forEach _ (holding_refl (config s) (buf s3))
              (holding_trans (config s) (buf s3))
              (processResult w forceNotify) resp
              (processResult_holding (config s) (buf s3) w forceNotify)
              (afterCache w (afterPost token s3)) Hc4 Hb4) as (_ & Hbf & Hg).
  rewrite Hb4, Hev.
  split; [exists token; apply in_or_app; right; left; reflexivity|].
  split; [apply in_or_app; right; right; left; reflexivity|].
  split; [exact Hbf|].
  apply grewBy_new_events, Hg.
Qed.

(** The startup cycle of pd.yaml: the cropped image is classified, cached
    and still in the buffer at the end. *)
Lemma X10_one_image_per_cycle_witness :
  In (WriteFile "img.jpeg" croppedBytes)
     (new_events (running sampleConfig zeroTime 0)
        (afterCache (calmWorld threeCycles [package 0.8])
           (afterPost "ya29.token"
              (set_buf croppedBytes
                 (cropping (afterFetch jpegBytes (running sampleConfig zeroTime 0))))))) /\
  buf (snd (processImage (calmWorld threeCycles [package 0.8]) true
              (running sampleConfig zeroTime 0))) = croppedBytes.
Proof.
  destruct (X10_one_image_per_cycle (calmWorld threeCycles [package 0.8]) true
              (running sampleConfig zeroTime 0) [package 0.8]
              (afterCache (calmWorld threeCycles [package 0.8])
                 (afterPost "ya29.token"
                    (set_buf croppedBytes
                       (cropping (afterFetch jpegBytes (running sampleConfig zeroTime 0)))))))
    as (_ & Hw & Hb & _).
  - apply (classified_ok (calmWorld threeCycles [package 0.8])
             (running sampleConfig zeroTime 0) "ya29.token" _ [] [package 0.8]);
      [|reflexivity|reflexivity|reflexivity].
    apply (prepared_cropped (calmWorld threeCycles [package 0.8])
             (running sampleConfig zeroTime 0) "ya29.token" jpegBytes croppedBytes);
      reflexivity.
  - split; [exact Hw | exact Hb].
Defined.

(** ** The ticker loop and the motion callback *)

Lemma onlyAsked_refl s : onlyAsked s s.
Proof. repeat split. Qed.

Lemma onlyAsked_trans s1 s2 s3 : onlyAsked s1 s2 -> onlyAsked s2 s3 -> onlyAsked s1 s3.
Proof.
  unfold onlyAsked. intros (A1 & B1 & C1 & D1 & E1) (A2 & B2 & C2 & D2 & E2).
  repeat split; congruence.
Qed.

Lemma run_select_after_done w r0 pre post s :
  run_select w r0 (pre ++ done :: post) s = run_select w r0 (pre ++ [done]) s.
Proof.
  revert s. induction pre as [|[|] pre IH]; intros s; cbn [app run_select]; try reflexivity.
  unfold bind.
  destruct (time_Now w s) as [[now|err|] s1]; try reflexivity.
  destruct (when (runCfg_isAwake now r0) (processImage w false) s1) as [[[]|err|] s2];
    try reflexivity.
  apply IH.
Qed.

(** X11. [runCfg.run] without a positive interval creates no ticker and
    runs no cycle: it only waits to be cancelled and leaves the state as
    it is. With a positive interval whose minutes fit a [time.Duration] it
    is the select loop; with a larger one the product wraps around, and
    when it wraps to a non-positive duration [time.NewTicker] panics
    before any tick. In the loop nothing happens after the cancellation:
    the signals behind it are never looked at. *)
Theorem X11_run_ticker_and_cancellation
    (w : World) (r0 : runCfg) (pre post signals : list signal) (s : machine) :
  (Interval r0 <= 0 ->
     runCfg_run w r0 signals s =
     (Returned (existsb (fun x => match x with done => true | tick => false end) signals), s)) /\
  (0 < Interval r0 -> Interval r0 * Minute <= int64_max ->
     runCfg_run w r0 signals s = run_select w r0 signals s) /\
  (0 < Interval r0 -> minutes (Interval r0) <= 0 ->
     runCfg_run w r0 signals s = (Panicked "non-positive interval for NewTicker", s)) /\
  run_select w r0 (pre ++ done :: post) s = run_select w r0 (pre ++ [done]) s /\
  fst (run_select w r0 [] s) = Returned false.
Proof.
  split; [|split; [|split; [|split]]].
  - intros H. unfold runCfg_run, run_wait.
    destruct (Z.gtb_spec (Interval r0) 0); [lia | reflexivity].
  - intros Hpos Hfit. unfold runCfg_run, time_NewTicker.
    destruct (Z.gtb_spec (Interval r0) 0); [|lia].
    unfold minutes. rewrite wrap64_small by (unfold int64_min, int64_max, Minute in *; lia).
    destruct (Z.leb_spec (Interval r0 * Minute) 0); [unfold Minute in *; lia|].
    reflexivity.
  - intros Hpos Hwrap. unfold runCfg_run, time_NewTicker.
    destruct (Z.gtb_spec (Interval r0) 0); [|lia].
    destruct (Z.leb_spec (minutes (Interval r0)) 0); [reflexivity | lia].
  - apply run_select_after_done.
  - reflexivity.
Qed.

(** An interval of 153722868 minutes, the first that does not fit, makes
    the ticker panic; ten minutes do not. *)
Lemma X11_run_ticker_and_cancellation_witness :
  runCfg_run (calmWorld (fun _ => noon) [])
    {| Interval := 153722868; SleepHour := 22; WakeHour := 7;
       NotifyOnStart := true; NotifyMuteMinutes := 60 |}
    [tick; done] (running sampleConfig zeroTime 0) =
  (Panicked "non-positive interval for NewTicker", running sampleConfig zeroTime 0) /\
  runCfg_run (calmWorld (fun _ => lateEvening) [])
    {| Interval := 10; SleepHour := 22; WakeHour := 7;
       NotifyOnStart := true; NotifyMuteMinutes := 60 |}
    [tick; done] (running sampleConfig zeroTime 0) =
  run_select (calmWorld (fun _ => lateEvening) [])
    {| Interval := 10; SleepHour := 22; WakeHour := 7;
       NotifyOnStart := true; NotifyMuteMinutes := 60 |}
    [tick; done] (running sampleConfig zeroTime 0).
Proof.
  split.
  - destruct (X11_run_ticker_and_cancellation (calmWorld (fun _ => noon) [])
                {| Interval := 153722868; SleepHour := 22; WakeHour := 7;
                   NotifyOnStart := true; NotifyMuteMinutes := 60 |} [] [] [tick; done]
                (running sampleConfig zeroTime 0)) as (_ & _ & Hpanic & _).
    apply Hpanic; [reflexivity | vm_compute; discriminate].
  - destruct (X11_run_ticker_and_cancellation (calmWorld (fun _ => lateEvening) [])
                {| Interval := 10; SleepHour := 22; WakeHour := 7;
                   NotifyOnStart := true; NotifyMuteMinutes := 60 |} [] [] [tick; done]
                (running sampleConfig zeroTime 0)) as (_ & Hloop & _).
    apply Hloop; [reflexivity | vm_compute; discriminate].
Defined.

Lemma run_select_asleep w r0 signals s :
  (forall n, (asked s <= n)%nat -> runCfg_isAwake (clock w n) r0 = false) ->
  fst (run_select w r0 signals s) =
    Returned (existsb (fun x => match x with done => true | tick => false end) signals) /\
  onlyAsked s (snd (run_select w r0 signals s)) /\
  (asked s <= asked (snd (run_select w r0 signals s)))%nat.
Proof.
  revert s. induction signals as [|[|] rest IH]; intros s Hs; cbn [run_select existsb].
  - repeat split. cbn. lia.
  - unfold bind, time_Now, ask, when. cbn [fst snd].
    rewrite (Hs (asked s)) by lia. cbn [ret fst snd].
    destruct (IH (next_question s)) as (Hf & Ho & Ha).
    { intros n Hn. apply Hs. cbn in Hn. lia. }
    split; [exact Hf|]. split.
    + eapply onlyAsked_trans; [|exact Ho]. repeat split.
    + cbn in Ha. lia.
  - repeat split. cbn. lia.
Qed.

(** X12. Asleep, the detector does nothing: while [runCfg.isAwake] is
    false at every reading of the clock, the ticks of the select loop only
    read the clock (no cycle runs, nothing is logged or dispatched, the
    buffer and the mute state stay), and the loop returns exactly when it
    is cancelled; a motion reported while asleep likewise only reads the
    clock. *)
Theorem X12_asleep_nothing_happens
    (w : World) (r0 : runCfg) (signals : list signal) (s : machine) :
  (forall n, (asked s <= n)%nat -> runCfg_isAwake (clock w n) r0 = false) ->
  fst (run_select w r0 signals s) =
    Returned (existsb (fun x => match x with done => true | tick => false end) signals) /\
  trace (snd (run_select w r0 signals s)) = trace s /\
  buf (snd (run_select w r0 signals s)) = buf s /\
  lastNotificationSent (snd (run_select w r0 signals s)) = lastNotificationSent s /\
  (Run (config s) = r0 -> motionStopped w s = (Returned tt, next_question s)).
Proof.
  intros Hs. destruct (run_select_asleep w r0 signals s Hs) as (Hf & (_ & _ & Hb & Hl & Ht) & _).
  split; [exact Hf|]. split; [exact Ht|]. split; [exact Hb|]. split; [exact Hl|].
  intros Hr. unfold motionStopped, bind, gets, time_Now, ask, when. cbn [fst snd].
  rewrite Hr, (Hs (asked s)) by lia. reflexivity.
Qed.

(** pd.yaml at eleven in the evening: three ticks, then the cancellation. *)
Lemma X12_asleep_nothing_happens_witness :
  fst (run_select (calmWorld (fun _ => lateEvening) [package 0.8]) (Run sampleConfig)
         [tick; tick; tick; done] (running sampleConfig zeroTime 0)) = Returned true /\
  trace (snd (run_select (calmWorld (fun _ => lateEvening) [package 0.8]) (Run sampleConfig)
                [tick; tick; tick; done] (running sampleConfig zeroTime 0))) = [].
Proof.
  destruct (X12_asleep_nothing_happens (calmWorld (fun _ => lateEvening) [package 0.8])
              (Run sampleConfig) [tick; tick; tick; done] (running sampleConfig zeroTime 0))
    as (Hf & Ht & _).
  - intros n _. reflexivity.
  - split; [exact Hf | exact Ht].
Defined.

(** ** [main] *)

Section Main.

Variable w : World.
Variable DetectMotion : string -> option string.
Variable ReadFile : string -> string + list Byte.byte.
Variable UnmarshalStrict : list Byte.byte -> configuration * option string.
Variable configPath : string.
Variable signals : list signal.

(** What [main] does once the configuration is parsed. *)
Lemma main_parsed (b : list Byte.byte) (parsed : configuration) (s : machine) :
  ReadFile configPath = inr b ->
  UnmarshalStrict b = (parsed, None) ->
  main w DetectMotion ReadFile UnmarshalStrict configPath signals s =
  bind (initialize w)
    (fun _ =>
       bind (gets (fun s => NotifyOnStart (Run (config s))))
         (fun forceNotify =>
            bind (processImage w forceNotify)
              (fun _ =>
                 bind (bind (gets (fun s => Motion (config s)))
                         (fun m => motionCfg_initialize DetectMotion m))
                   (fun _ =>
                      bind (log_Println ["Running..."])
                        (fun _ =>
                           bind (gets (fun s => Run (config s)))
                             (fun run => runCfg_run w run signals))))))
    (set_config parsed s).
Proof.
  intros HR HU. unfold main. unfold bind at 1. unfold modify at 1. cbn [fst snd].
  rewrite HR, HU. unfold bind at 1. unfold modify at 1. cbn [fst snd].
  reflexivity.
Qed.

(** X13. A configuration that cannot be loaded ends the process before
    anything is captured: when the file cannot be read, when it does not
    parse, or when one of the four [initialize] calls that [main] makes
    before the startup cycle (image, vision, email, webhook) does not
    return, [main] exits having printed one line and nothing else: it has
    not run the gcloud command, fetched an image or dispatched anything.
    The motion settings are not among these: [main] checks them after the
    startup cycle. *)
Theorem X13_unusable_configuration_exits_before_any_capture (s : machine) :
  (forall err, ReadFile configPath = inl err ->
     fst (main w DetectMotion ReadFile UnmarshalStrict configPath signals s) = Exited /\
     new_events s (snd (main w DetectMotion ReadFile UnmarshalStrict configPath signals s)) =
       [Println ["Unable to load configuration file:"; configPath; err]]) /\
  (forall b parsed e, ReadFile configPath = inr b -> UnmarshalStrict b = (parsed, Some e) ->
     fst (main w DetectMotion ReadFile UnmarshalStrict configPath signals s) = Exited /\
     new_events s (snd (main w DetectMotion ReadFile UnmarshalStrict configPath signals s)) =
       [Println ["Unable to parse configuration file."; e]]) /\
  (forall b parsed, ReadFile configPath = inr b -> UnmarshalStrict b = (parsed, None) ->
     fst (initialize w (set_config parsed s)) <> Returned tt ->
     fst (main w DetectMotion ReadFile UnmarshalStrict configPath signals s) = Exited /\
     exists line,
       new_events s (snd (main w DetectMotion ReadFile UnmarshalStrict configPath signals s)) =
         [Println line]).
Proof.
  split; [|split].
  - intros err HR. unfold main. unfold bind at 1. unfold modify at 1. cbn [fst snd].
    rewrite HR. split; [reflexivity|]. apply new_events_app. reflexivity.
  - intros b parsed e HR HU. unfold main. unfold bind at 1. unfold modify at 1. cbn [fst snd].
    rewrite HR, HU. split; [reflexivity|]. apply new_events_app. reflexivity.
  - intros b parsed HR HU Hinit.
    destruct (initialize_silent_or_fatal w (set_config parsed s)) as [[Hr _] | (Hx & line & Ht)];
      [contradiction|].
    assert (E : main w DetectMotion ReadFile UnmarshalStrict configPath signals s =
                (Exited, snd (initialize w (set_config parsed s)))).
    { rewrite (main_parsed b parsed s HR HU). unfold bind at 1.
      destruct (initialize w (set_config parsed s)) as [o s1]. cbn [fst snd] in *.
      subst o. reflexivity. }
    rewrite E. split; [reflexivity|]. exists line. apply new_events_app. exact Ht.
Qed.

(** X14. The motion settings are checked after the startup cycle: with a
    usable configuration that names a motion log but no camera, [main]
    runs the startup cycle first, with whatever that fetches and
    dispatches, and only then exits on the missing camera id; the ticker
    loop is never entered. *)
Theorem X14_motion_settings_are_checked_after_the_startup_cycle
    (b : list Byte.byte) (parsed : configuration) (s : machine) :
  ReadFile configPath = inr b ->
  UnmarshalStrict b = (parsed, None) ->
  fst (initialize w (set_config parsed s)) = Returned tt ->
  fst (processImage w (NotifyOnStart (Run parsed)) (snd (initialize w (set_config parsed s)))) =
    Returned tt ->
  nonEmpty (LogPath (Motion parsed)) = true ->
  CameraID (Motion parsed) = "" ->
  main w DetectMotion ReadFile UnmarshalStrict configPath signals s =
  (Exited,
   logged ["The cameraID parameter must be set if the motionLogPath is present."]
     (snd (processImage w (NotifyOnStart (Run parsed))
             (snd (initialize w (set_config parsed s)))))).
Proof.
  intros HR HU Hinit Hcycle Hlog Hcam.
  rewrite (main_parsed b parsed s HR HU). unfold bind at 1.
  pose proof (initialize_config w (set_config parsed s)) as Hc1. unfold sameConfig in Hc1.
  destruct (initialize w (set_config parsed s)) as [o s1]. cbn [fst snd] in *. subst o.
  unfold bind at 1. unfold gets at 1. cbn [fst snd]. rewrite Hc1. cbn [config set_config].
  unfold bind at 1.
  pose proof (processImage_config w (NotifyOnStart (Run parsed)) s1) as Hc2.
  unfold sameConfig in Hc2.
  destruct (processImage w (NotifyOnStart (Run parsed)) s1) as [o s2].
  cbn [fst snd] in *. subst o.
  unfold bind at 1. unfold bind at 1. unfold gets at 1. cbn [fst snd].
  rewrite Hc2, Hc1. cbn [config set_config].
  unfold motionCfg_initialize. rewrite Hlog, Hcam. reflexivity.
Qed.

End Main.

(** pd.yaml with a motion log and no camera id, at noon with a package in
    view: the detection is mailed and posted, then the process exits. *)
Lemma X14_motion_settings_are_checked_after_the_startup_cycle_witness :
  fst (main (calmWorld threeCycles [package 0.8]) (fun _ => None)
         (fun _ => inr []) (fun _ => (motionWithoutCamera, None)) "./pd.yaml" [tick; done]
         fresh) = Exited /\
  filter isDispatch
    (trace (snd (main (calmWorld threeCycles [package 0.8]) (fun _ => None)
                   (fun _ => inr []) (fun _ => (motionWithoutCamera, None)) "./pd.yaml"
                   [tick; done] fresh))) =
  [DialAndSend
     {| dialHost := "smtp.example.com"; dialPort := 587;
        dialUser := "jane"; dialPass := "secret" |}
     {| msgFrom := "john@example.com"; msgTo := Some "tom@example.com";
        msgSubject := "Package Received!";
        msgBody := "A new package delivery was detected."; msgEmbed := "img.jpeg" |};
   HttpPost "http://www.example.com/test" (webHookBody 0.8 "package" croppedBytes)].
Proof.
  rewrite (X14_motion_settings_are_checked_after_the_startup_cycle
             (calmWorld threeCycles [package 0.8]) (fun _ => None)
             (fun _ => inr []) (fun _ => (motionWithoutCamera, None)) "./pd.yaml" [tick; done]
             [] motionWithoutCamera fresh eq_refl eq_refl eq_refl eq_refl eq_refl eq_refl).
  split; reflexivity.
Defined.

(** A configuration file that is not there. *)
Lemma X13_unusable_configuration_exits_before_any_capture_witness :
  fst (main (calmWorld threeCycles [package 0.8]) (fun _ => None)
         (fun _ => inl "open ./pd.yaml: no such file or directory")
         (fun _ => (emptyConfiguration, None)) "./pd.yaml" [tick; done] fresh) = Exited /\
  trace (snd (main (calmWorld threeCycles [package 0.8]) (fun _ => None)
                (fun _ => inl "open ./pd.yaml: no such file or directory")
                (fun _ => (emptyConfiguration, None)) "./pd.yaml" [tick; done] fresh)) =
  [Println ["Unable to load configuration file:"; "./pd.yaml";
            "open ./pd.yaml: no such file or directory"]].
Proof.
  destruct (X13_unusable_configuration_exits_before_any_capture
              (calmWorld threeCycles [package 0.8]) (fun _ => None)
              (fun _ => inl "open ./pd.yaml: no such file or directory")
              (fun _ => (emptyConfiguration, None)) "./pd.yaml" [tick; done] fresh)
    as (Hload & _).
  destruct (Hload "open ./pd.yaml: no such file or directory" eq_refl) as (Hf & Ht).
  split; [exact Hf | exact Ht].
Defined.

(** ** A detection without channels *)

(** X15. The mute period starts with the decision, not with a delivery:
    a detection that passes the mute window while neither a mail server
    nor a webhook is configured dispatches nothing and still stores the
    time in [lastNotificationSent], so that a channel configured for the
    next cycles stays silent until the mute period is over. *)
Theorem X15_mute_starts_without_any_channel
    (w : World) (forceNotify : bool) (p : prediction) (s : machine) :
  matched (config s) p = true ->
  After (clock w (asked s))
        (Add (lastNotificationSent s) (minutes (NotifyMuteMinutes (Run (config s))))) = true ->
  Server (Email (config s)) = "" ->
  webhookURL (WebHook (config s)) = "" ->
  processResult w forceNotify p s = (Returned tt, committed w p s) /\
  existsb isDispatch (new_events s (committed w p s)) = false /\
  lastNotificationSent (committed w p s) = clock w (S (asked s)) /\
  (forall p', matched (config s) p' = true ->
     instant (clock w (S (S (asked s)))) <=
       instant (clock w (S (asked s))) + minutes (NotifyMuteMinutes (Run (config s))) ->
     processResult w forceNotify p' (committed w p s) =
       (Returned tt, muted p' (committed w p s))).
Proof.
  intros Hm Ha Hs Hh.
  split; [|split; [|split]].
  - rewrite (processResult_matched _ _ _ _ Hm), Ha.
    unfold dispatchDetected, when, bind, gets, ret. cbn. rewrite Hs, Hh. reflexivity.
  - rewrite committed_events. reflexivity.
  - reflexivity.
  - intros p' Hm' Hclock.
    rewrite (processResult_matched w forceNotify p' (committed w p s) Hm').
    change (asked (committed w p s)) with (S (S (asked s))).
    change (lastNotificationSent (committed w p s)) with (clock w (S (asked s))).
    change (config (committed w p s)) with (config s).
    unfold After, Add. cbn [instant].
    destruct (Z.ltb_spec (instant (clock w (S (asked s))) +
                          minutes (NotifyMuteMinutes (Run (config s))))
                         (instant (clock w (S (S (asked s)))))); [lia | reflexivity].
Qed.

(** A package at noon with no channel configured, and another one in the
    same picture. *)
Lemma X15_mute_starts_without_any_channel_witness :
  processResult (calmWorld (fun _ => noon) []) false (package 0.8)
    (running noChannel zeroTime 3) =
  (Returned tt, committed (calmWorld (fun _ => noon) []) (package 0.8)
                  (running noChannel zeroTime 3)) /\
  lastNotificationSent
    (committed (calmWorld (fun _ => noon) []) (package 0.8) (running noChannel zeroTime 3)) =
  noon.
Proof.
  destruct (X15_mute_starts_without_any_channel (calmWorld (fun _ => noon) []) false
              (package 0.8) (running noChannel zeroTime 3) eq_refl eq_refl eq_refl eq_refl)
    as (E & _ & El & _).
  split; [exact E | exact El].
Defined.

(** * The first version of main.go *)

Module FlagVersionFacts.

Import FlagVersion.

Lemma flag_new_events_app s s' evs : trace s' = (trace s ++ evs)%list -> new_events s s' = evs.
Proof.
  intros E. unfold new_events. rewrite E.
  rewrite skipn_app, skipn_all, Nat.sub_diag. reflexivity.
Qed.

Lemma flag_mails_app a b : mails (a ++ b) = (mails a + mails b)%nat.
Proof. unfold mails. rewrite filter_app. apply length_app. Qed.

(** The loop body on a result that does not qualify: one log line. *)
Lemma flag_result_passes w fmt forceEmail p s :
  qualifies (flags s) forceEmail p = false ->
  processResult w fmt forceEmail p s = (Returned tt, resultLogged p s).
Proof.
  intros H. unfold processResult, emit, bind, gets, modify, ret. cbn. rewrite H. reflexivity.
Qed.


(** The loop body on a result that qualifies, past the mute window: the
    mail is handed to the dialer; when the send fails its error is logged,
    when it succeeds the clock is read and stored. *)
Lemma flag_result_sends w fmt forceEmail p s :
  qualifies (flags s) forceEmail p = true ->
  After (clock w (asked s))
        (Add (lastEmailSent s) (minutes (emailMuteDuration (flags s)))) = true ->
  processResult w fmt forceEmail p s =
  (Returned tt,
   match smtp w (S (asked s)) (dialerOf (flags s)) (packageMail fmt (flags s) p) with
   | Some e => record_event (Println [e]) (handedOver fmt p s)
   | None =>
       set_lastEmailSent (clock w (S (S (asked s))))
         (next_question (handedOver fmt p s))
   end).
Proof.
  intros H Ha.
  unfold processResult, time_Now, emit, when, bind, gets, modify, ask, ret.
  rewrite H. cbn [record_event next_question asked lastEmailSent]. rewrite Ha.
  unfold emailResult, time_Now, log_Println, emit, bind, gets, modify, ask, ret.
  cbn [record_event next_question asked flags].
  fold (dialerOf (flags s)). fold (packageMail fmt (flags s) p).
  destruct (smtp w (S (asked s)) (dialerOf (flags s)) (packageMail fmt (flags s) p));
    reflexivity.
Qed.

Section Loop.

Variable w : World.
Variable fmt : float -> string.
Variable forceEmail : bool.
Variable f : flagValues.

Section ServerDown.

(** Every send fails, and the clock is past the mute window of [sent]. *)
Hypothesis server_down : forall n d m, smtp w n d m <> None.

Variable sent : Time.

Hypothesis past_mute :
  forall n, After (clock w n) (Add sent (minutes (emailMuteDuration f))) = true.

Lemma retried l s :
  flags s = f -> lastEmailSent s = sent ->
  exists evs,
    fst (forEach (processResult w fmt forceEmail) l s) = Returned tt /\
    trace (snd (forEach (processResult w fmt forceEmail) l s)) = (trace s ++ evs)%list /\
    mails evs = List.length (filter (qualifies f forceEmail) l) /\
    lastEmailSent (snd (forEach (processResult w fmt forceEmail) l s)) = sent.
Proof.
  revert s. induction l as [|p l IH]; intros s Hf Hl.
  - exists []. cbn [forEach ret fst snd filter]. rewrite app_nil_r. repeat split. exact Hl.
  - cbn [forEach filter]. unfold bind.
    destruct (qualifies f forceEmail p) eqn:Hq.
    + rewrite (flag_result_sends w fmt forceEmail p s);
        [| rewrite Hf; exact Hq | rewrite Hf, Hl; apply past_mute].
      destruct (smtp w (S (asked s)) (dialerOf (flags s)) (packageMail fmt (flags s) p))
        as [e|] eqn:Es; [|exfalso; exact (server_down _ _ _ Es)].
      destruct (IH (record_event (Println [e]) (handedOver fmt p s)))
        as (evs & Hr & Ht & Hm & Hs); [exact Hf | exact Hl |].
      exists (PrintfResult (DisplayName p) (Score p)
                :: DialAndSend (dialerOf (flags s)) (packageMail fmt (flags s) p)
                :: Println [e] :: evs).
      split; [exact Hr|]. split; [|split; [|exact Hs]].
      * rewrite Ht. cbn. now rewrite <- !app_assoc.
      * unfold mails in *. cbn. now rewrite Hm.
    + rewrite (flag_result_passes w fmt forceEmail p s) by (rewrite Hf; exact Hq).
      destruct (IH (resultLogged p s)) as (evs & Hr & Ht & Hm & Hs); [exact Hf | exact Hl |].
      exists (PrintfResult (DisplayName p) (Score p) :: evs).
      split; [exact Hr|]. split; [|split; [|exact Hs]].
      * rewrite Ht. cbn. now rewrite <- !app_assoc.
      * exact Hm.
Qed.

End ServerDown.

Section ServerUp.

(** Every send succeeds, and from question [n0] on the clock readings lie
    within the mute period of each other. *)
Hypothesis server_up : forall n d m, smtp w n d m = None.

Variable n0 : nat.

Hypothesis within_mute :
  forall n m, (n0 <= n)%nat -> (n0 <= m)%nat ->
    instant (clock w m) <= instant (clock w n) + minutes (emailMuteDuration f).



End ServerUp.

End Loop.

(** X16. In the first version of main.go the mute period starts only with
    a mail that was sent: while every send fails and the clock is past the
    mute window, the loop hands a mail to the dialer for every result that
    qualifies (the configured label, or any result when [forceEmail] is
    set), returns normally and leaves [lastEmailSent] as it was. *)
Theorem X16_failed_mails_are_retried
    (w : World) (fmt : float -> string) (forceEmail : bool)
    (l : list prediction) (s : machine) :
  (forall n d m, smtp w n d m <> None) ->
  (forall n, After (clock w n)
               (Add (lastEmailSent s) (minutes (emailMuteDuration (flags s)))) = true) ->
  fst (forEach (processResult w fmt forceEmail) l s) = Returned tt /\
  mails (new_events s (snd (forEach (processResult w fmt forceEmail) l s))) =
    List.length (filter (qualifies (flags s) forceEmail) l) /\
  lastEmailSent (snd (forEach (processResult w fmt forceEmail) l s)) = lastEmailSent s.
Proof.
  intros Hdown Hpast.
  destruct (retried w fmt forceEmail (flags s) Hdown (lastEmailSent s) Hpast l s
              eq_refl eq_refl) as (evs & Hr & Ht & Hm & Hs).
  rewrite (flag_new_events_app _ _ _ Ht). repeat split; assumption.
Qed.

Lemma X16_failed_mails_are_retried_witness :
  let w := worldWith (fun _ => noon) [] (Some "dial tcp: connection refused") (inr "200 OK") in
  let s := running sampleFlags zeroTime 0 in
  let l := [package 0.9; labelled "cat" 0.5; package 0.8] in
  mails (new_events s (snd (forEach (processResult w (fun _ => "0.900000") false) l s))) = 2%nat /\
  lastEmailSent (snd (forEach (processResult w (fun _ => "0.900000") false) l s)) = zeroTime.
Proof.
  intros w s l.
  destruct (X16_failed_mails_are_retried w (fun _ => "0.900000") false l s)
    as (_ & Hm & Hs).
  - intros n d m. discriminate.
  - intros n. reflexivity.
  - split; [exact Hm | exact Hs].
Defined.



(** [strings.Split] gives one piece more than there are commas. *)
Lemma Split_comma_length s : List.length (Split_comma s) = S (commas s).
Proof.
  induction s as [|c rest IH]; [reflexivity|].
  cbn [Split_comma commas]. destruct (Ascii.eqb c ",").
  - cbn [List.length]. now rewrite IH.
  - destruct (Split_comma rest) as [|piece pieces]; [discriminate IH|exact IH].
Qed.

(** The conversion loop stops at the first piece that does not convert. *)
Lemma convertPoints_runs Atoi pieces acc s :
  convertPoints Atoi pieces acc s =
  match find (unconvertible Atoi) pieces with
  | Some num =>
      (Exited,
       record_event (Println [(("Error converting number " ++ num) ++ " to int.")%string]) s)
  | None =>
      (Returned (acc ++ map (fun piece => match Atoi piece with
                                          | Some v => v
                                          | None => 0
                                          end) pieces)%list, s)
  end.
Proof.
  revert acc. induction pieces as [|num rest IH]; intros acc.
  - cbn. now rewrite app_nil_r.
  - cbn [convertPoints find map]. unfold unconvertible at 1.
    destruct (Atoi num) as [v|]; [|reflexivity].
    rewrite IH. destruct (find (unconvertible Atoi) rest); [reflexivity|].
    now rewrite <- app_assoc.
Qed.

Lemma find_none_forallb {A : Type} (bad : A -> bool) l :
  find bad l = None <-> forallb (fun x => negb (bad x)) l = true.
Proof.
  induction l as [|x l IH]; cbn; [tauto|].
  destruct (bad x); cbn; [split; discriminate | exact IH].
Qed.

Lemma parseRect_runs Atoi s :
  parseRect Atoi s =
  if (rect (flags s) =? "")%string then (Returned tt, s)
  else if (commas (rect (flags s)) =? 3)%nat then
    match find (unconvertible Atoi) (Split_comma (rect (flags s))) with
    | Some num =>
        (Exited,
         record_event (Println [(("Error converting number " ++ num) ++ " to int.")%string]) s)
    | None =>
        let nums := map (fun piece => match Atoi piece with
                                      | Some v => v
                                      | None => 0
                                      end) (Split_comma (rect (flags s))) in
        (Returned tt,
         set_r (image_Rect (nth 0 nums 0) (nth 1 nums 0) (nth 2 nums 0) (nth 3 nums 0)) s)
    end
  else (Exited, record_event (Println ["rect flag not in the form of x,y,x,y"]) s).
Proof.
  unfold parseRect, bind at 1, gets. cbv beta iota.
  destruct (rect (flags s) =? "")%string; cbn [negb]; [reflexivity|].
  rewrite Split_comma_length.
  change (S (commas (rect (flags s))) =? 4)%nat with (commas (rect (flags s)) =? 3)%nat.
  destruct (commas (rect (flags s)) =? 3)%nat; cbn [negb]; [|reflexivity].
  unfold bind. rewrite convertPoints_runs.
  destruct (find (unconvertible Atoi) (Split_comma (rect (flags s)))); reflexivity.
Qed.

(** X18. The first version of main.go uses the rect flag only when it is
    well formed. [main]'s flag check returns normally exactly when the flag
    is empty or has three commas and four pieces that [strconv.Atoi]
    accepts; then nothing is logged, and a flag that is not empty sets [r]
    to the rectangle of the four numbers. In every other case the process
    exits after one log line and [r] is as it was. *)
Theorem X18_rect_flag_is_used_only_when_well_formed
    (Atoi : string -> option Z) (s : machine) :
  (fst (parseRect Atoi s) = Returned tt <-> wellFormed Atoi (rect (flags s)) = true) /\
  (fst (parseRect Atoi s) = Returned tt -> trace (snd (parseRect Atoi s)) = trace s) /\
  (fst (parseRect Atoi s) <> Returned tt ->
   fst (parseRect Atoi s) = Exited /\
   r (snd (parseRect Atoi s)) = r s /\
   exists line, trace (snd (parseRect Atoi s)) = (trace s ++ [Println [line]])%list) /\
  (forall x1 y1 x2 y2,
     rect (flags s) <> "" ->
     map Atoi (Split_comma (rect (flags s))) = [Some x1; Some y1; Some x2; Some y2] ->
     parseRect Atoi s = (Returned tt, set_r (image_Rect x1 y1 x2 y2) s)).
Proof.
  rewrite parseRect_runs. unfold wellFormed.
  pose proof (find_none_forallb (unconvertible Atoi) (Split_comma (rect (flags s)))) as Hall.
  pose proof (Split_comma_length (rect (flags s))) as Hlen.
  destruct (rect (flags s) =? "")%string eqn:Eempty.
  - cbn [orb fst snd]. split; [|split; [|split]].
    + split; reflexivity.
    + reflexivity.
    + intros H. now contradiction H.
    + intros x1 y1 x2 y2 Hne. apply String.eqb_eq in Eempty. contradiction.
  - cbn [orb]. destruct (commas (rect (flags s)) =? 3)%nat eqn:Ecommas; cbn [andb].
    + destruct (find (unconvertible Atoi) (Split_comma (rect (flags s)))) as [num|] eqn:Efind.
      * cbn [fst snd]. split; [|split; [|split]].
        -- split; [discriminate|]. intros H. apply Hall in H. discriminate.
        -- discriminate.
        -- intros _. split; [reflexivity|]. split; [reflexivity|]. eexists. reflexivity.
        -- intros x1 y1 x2 y2 _ Hmap. exfalso.
           apply find_some in Efind. destruct Efind as [Hin Hbad].
           apply (in_map Atoi) in Hin. rewrite Hmap in Hin.
           unfold unconvertible in Hbad.
           destruct (Atoi num); [discriminate|].
           cbn in Hin. intuition discriminate.
      * cbn [fst snd]. split; [|split; [|split]].
        -- split; intros _; [now apply Hall | reflexivity].
        -- reflexivity.
        -- intros H. now contradiction H.
        -- intros x1 y1 x2 y2 _ Hmap.
           destruct (Split_comma (rect (flags s))) as [|a [|b [|c [|d [|e rest]]]]];
             try discriminate Hmap.
           cbn in Hmap. injection Hmap as Ha Hb Hc Hd.
           cbn [map nth]. now rewrite Ha, Hb, Hc, Hd.
    + cbn [fst snd]. split; [|split; [|split]].
      * split; discriminate.
      * discriminate.
      * intros _. split; [reflexivity|]. split; [reflexivity|]. eexists. reflexivity.
      * intros x1 y1 x2 y2 _ Hmap. exfalso.
        apply (f_equal (@List.length _)) in Hmap. rewrite length_map, Hlen in Hmap.
        cbn in Hmap. apply Nat.eqb_neq in Ecommas. lia.
Qed.

Lemma X18_rect_flag_is_used_only_when_well_formed_witness :
  parseRect sampleAtoi (running sampleFlags zeroTime 0) =
  (Returned tt, set_r (image_Rect 0 0 600 400) (running sampleFlags zeroTime 0)).
Proof.
  destruct (X18_rect_flag_is_used_only_when_well_formed sampleAtoi
              (running sampleFlags zeroTime 0)) as (_ & _ & _ & H).
  apply H; [discriminate | reflexivity].
Defined.

End FlagVersionFacts.
